(** * muonic core: analyzers, consumers and the dispatcher

    A shallow embedding of [muonic/lib/analyzers.py], [muonic/lib/consumers.py]
    and [muonic/lib/app.py].  Python objects become records, mutable
    attributes become record fields threaded through state-passing
    functions, calls on collaborating objects (consumers, the DAQ provider)
    become entries of call logs, and exceptions become [Raise] results.

    Conventions
    - a Python [str] is a [string] whose characters are code points below 256;
    - a Python [int] is a [Z], a Python [float] is a primitive binary64 [float];
    - [None] is the [None] of an [option];
    - logging calls have no effect on the modelled state and are left out. *)

From Stdlib Require Import ZArith List String Ascii Bool Lia.
From Stdlib Require Import Floats.PrimFloat Floats.SpecFloat Floats.FloatOps.
From stdpp Require Import gmap strings list fin_maps pretty.

Local Open Scope string_scope.
Local Open Scope list_scope.
Local Open Scope Z_scope.

(** ** Python built-ins used by the sources *)

Module Py.

Inductive exn :=
| ZeroDivisionError | OverflowError | ValueError | IndexError
| KeyError | TypeError | AttributeError | RuntimeError
| Deadlock (* not an exception: the call never returns *).

(** The outcome of a call: a value, or an exception that propagates. *)
Inductive result (A : Type) :=
| Ok (a : A)
| Raise (e : exn).
Arguments Ok {A} a.
Arguments Raise {A} e.

Definition is_ok {A} (r : result A) : bool :=
  match r with Ok _ => true | Raise _ => false end.

Definition rbind {A B} (r : result A) (k : A -> result B) : result B :=
  match r with Ok a => k a | Raise e => Raise e end.

Definition rmap {A B} (f : A -> B) (r : result A) : result B :=
  rbind r (fun a => Ok (f a)).

(** [ [f(x) for x in l] ] where [f] may raise: the first exception wins. *)
Fixpoint mapM {A B} (f : A -> result B) (l : list A) : result (list B) :=
  match l with
  | [] => Ok []
  | x :: l' => rbind (f x) (fun y => rbind (mapM f l') (fun ys => Ok (y :: ys)))
  end.

(** *** Numbers *)

(** A number is an [int] or a [float]; arithmetic on a mixed pair converts
    the [int] operand. *)
Inductive pynum :=
| PInt (z : Z)
| PFloat (f : float).

(** [float(z)]: the nearest binary64 number (ties to even);
    [OverflowError] when that would not be finite, that is from
    [2^1024 - 2^970] on. *)
Definition nearest_float (z : Z) : float :=
  SF2Prim (binary_normalize prec emax z 0 false).

Definition float_of_int (z : Z) : result float :=
  if Z.abs z <? 2 ^ 1024 - 2 ^ 970
  then Ok (nearest_float z)
  else Raise OverflowError.

Definition to_float (a : pynum) : result float :=
  match a with
  | PInt z => float_of_int z
  | PFloat f => Ok f
  end.

Definition py_add (a b : pynum) : result pynum :=
  match a, b with
  | PInt x, PInt y => Ok (PInt (x + y))
  | _, _ => rbind (to_float a) (fun x => rbind (to_float b) (fun y =>
              Ok (PFloat (PrimFloat.add x y))))
  end.

Definition py_sub (a b : pynum) : result pynum :=
  match a, b with
  | PInt x, PInt y => Ok (PInt (x - y))
  | _, _ => rbind (to_float a) (fun x => rbind (to_float b) (fun y =>
              Ok (PFloat (PrimFloat.sub x y))))
  end.

(** [x - b] for a float [x]. *)
Definition float_sub (x : float) (b : pynum) : result float :=
  rbind (to_float b) (fun y => Ok (PrimFloat.sub x y)).

(** [a / y] for a float divisor [y]: [a] is converted, a zero divisor
    (either sign) raises. *)
Definition truediv_float (a : pynum) (y : float) : result float :=
  rbind (to_float a) (fun x =>
    if PrimFloat.eqb y 0%float then Raise ZeroDivisionError
    else Ok (PrimFloat.div x y)).

(** Exact comparison of a float with an int, as Python does it (no
    conversion of the int): [float_cmp_int f z] is [Some c] with [c] the
    comparison of the real value of [f] with [z], and [None] for a NaN. *)
Definition float_cmp_int (f : float) (z : Z) : option comparison :=
  match Prim2SF f with
  | S754_nan => None
  | S754_infinity true => Some Lt
  | S754_infinity false => Some Gt
  | S754_zero _ => Some (0 ?= z)
  | S754_finite s m e =>
      let v := if s then Z.neg m else Z.pos m in
      Some (if 0 <=? e then (v * 2 ^ e ?= z) else (v ?= z * 2 ^ (- e)))
  end.

(** [a < b] and [a > b] on numbers. *)
Definition py_lt (a b : pynum) : bool :=
  match a, b with
  | PInt x, PInt y => x <? y
  | PFloat x, PFloat y => PrimFloat.ltb x y
  | PFloat x, PInt y => match float_cmp_int x y with Some Lt => true | _ => false end
  | PInt x, PFloat y => match float_cmp_int y x with Some Gt => true | _ => false end
  end.

Definition py_gt (a b : pynum) : bool := py_lt b a.

(** *** Strings *)

Definition chars (s : string) : list ascii := list_ascii_of_string s.
Definition str (l : list ascii) : string := string_of_list_ascii l.

Definition len (s : string) : Z := Z.of_nat (String.length s).

(** [s.startswith(p)] *)
Definition startswith (s p : string) : bool := String.prefix p s.

(** [s[i:]], [s[i:j]] and [s[:-k]] for literal non-negative [i], [j], [k]. *)
Definition slice_from (i : nat) (s : string) : string :=
  str (drop i (chars s)).
Definition slice (i j : nat) (s : string) : string :=
  str (take (j - i) (drop i (chars s))).
Definition slice_drop_last (k : nat) (s : string) : string :=
  str (take (String.length s - k) (chars s)).

(** [c.isspace()] for a code point below 256. *)
Definition isspace (c : ascii) : bool :=
  let n := nat_of_ascii c in
  ((9 <=? n) && (n <=? 13) || (28 <=? n) && (n <=? 32)
   || (n =? 133) || (n =? 160))%nat.

(** [s.split()]: the maximal runs of non-whitespace characters. *)
Fixpoint split_ws_go (s cur : list ascii) : list string :=
  match s with
  | [] => match cur with [] => [] | _ => [str (rev cur)] end
  | c :: s' =>
      if isspace c
      then match cur with
           | [] => split_ws_go s' []
           | _ => str (rev cur) :: split_ws_go s' []
           end
      else split_ws_go s' (c :: cur)
  end.
Definition split_ws (s : string) : list string := split_ws_go (chars s) [].

(** [s.split(sep)] for a one-character separator: empty pieces are kept. *)
Fixpoint split_on_go (sep : ascii) (s cur : list ascii) : list string :=
  match s with
  | [] => [str (rev cur)]
  | c :: s' =>
      if Ascii.eqb c sep
      then str (rev cur) :: split_on_go sep s' []
      else split_on_go sep s' (c :: cur)
  end.
Definition split_on (sep : ascii) (s : string) : list string :=
  split_on_go sep (chars s) [].

(** [l[i]] on a list: [IndexError] out of range (literal non-negative [i]). *)
Definition index {A} (l : list A) (i : nat) : result A :=
  match l !! i with
  | Some x => Ok x
  | None => Raise IndexError
  end.

(** The value of a digit character in bases up to 36. *)
Definition digit_val (c : ascii) : option Z :=
  let n := Z.of_nat (nat_of_ascii c) in
  if (48 <=? n) && (n <=? 57) then Some (n - 48)
  else if (97 <=? n) && (n <=? 122) then Some (n - 87)
  else if (65 <=? n) && (n <=? 90) then Some (n - 55)
  else None.

(** The digits of an integer literal: digits of the base with single
    underscores between them.  Returns the value and the unread rest, or
    [None] when the run is empty, starts or ends with an underscore, or has
    two underscores in a row.  [after_digit] says whether the previous
    character was a digit. *)
Fixpoint int_digits (base : Z) (s : list ascii) (acc : Z) (after_digit : bool)
  : option (Z * list ascii) :=
  match s with
  | [] => if after_digit then Some (acc, []) else None
  | c :: s' =>
      if Ascii.eqb c "_"%char
      then (if after_digit then int_digits base s' acc false else None)
      else
        match digit_val c with
        | Some d =>
            if d <? base then int_digits base s' (acc * base + d) true
            else if after_digit then Some (acc, s) else None
        | None => if after_digit then Some (acc, s) else None
        end
  end.

Fixpoint skip_space (s : list ascii) : list ascii :=
  match s with
  | c :: s' => if isspace c then skip_space s' else s
  | [] => []
  end.

(** [int(s, base)] for base 10 or 16: surrounding whitespace, an optional
    sign, for base 16 an optional [0x]/[0X] prefix (one underscore may
    follow it), then the digits; anything else is a [ValueError]. *)
Definition int_of_str (base : Z) (s : string) : result Z :=
  let s0 := skip_space (chars s) in
  let '(neg, s1) :=
    match s0 with
    | c :: r => if Ascii.eqb c "-"%char then (true, r)
                else if Ascii.eqb c "+"%char then (false, r)
                else (false, s0)
    | [] => (false, s0)
    end in
  let s2 :=
    if base =? 16 then
      match s1 with
      | z :: x :: r =>
          if Ascii.eqb z "0"%char && (Ascii.eqb x "x"%char || Ascii.eqb x "X"%char)
          then match r with
               | u :: r' => if Ascii.eqb u "_"%char then r' else r
               | [] => r
               end
          else s1
      | _ => s1
      end
    else s1 in
  match int_digits base s2 0 false with
  | Some (v, rest) =>
      match skip_space rest with
      | [] => Ok (if neg then - v else v)
      | _ => Raise ValueError
      end
  | None => Raise ValueError
  end.

(** [bin(z)] *)
Fixpoint bin_pos (p : positive) : string :=
  match p with
  | xH => "1"
  | xO p' => bin_pos p' ++ "0"
  | xI p' => bin_pos p' ++ "1"
  end.
Definition bin (z : Z) : string :=
  match z with
  | Z0 => "0b0"
  | Zpos p => "0b" ++ bin_pos p
  | Zneg p => "-0b" ++ bin_pos p
  end.

(** [s.zfill(width)]: zeros are inserted after a leading sign. *)
Definition zfill (width : nat) (s : string) : string :=
  let pad := str (replicate (width - String.length s) "0"%char) in
  match s with
  | String c r =>
      if Ascii.eqb c "-"%char || Ascii.eqb c "+"%char
      then String c (pad ++ r)
      else pad ++ s
  | EmptyString => pad
  end.

(** ["%d" % n] for a small non-negative [n]. *)
Definition fmt_d (n : nat) : string := pretty n.

End Py.
Export Py.

(** ** Values shared by analyzers, consumers and the dispatcher *)

(** [analyzers.DataTypes] *)
Inductive DataTypes := RAW | RATE | PULSE | DECAY | VELOCITY.

Definition DataTypes_value (d : DataTypes) : Z :=
  match d with RAW => 1 | RATE => 2 | PULSE => 3 | DECAY => 4 | VELOCITY => 5 end.

Definition DataTypes_name (d : DataTypes) : string :=
  match d with
  | RAW => "RAW" | RATE => "RATE" | PULSE => "PULSE"
  | DECAY => "DECAY" | VELOCITY => "VELOCITY"
  end.

#[global] Instance DataTypes_eq_dec : EqDecision DataTypes.
Proof. solve_decision. Defined.

#[local] Set Warnings "-register-all".

(** Data handed to consumers.  [VDatetime us] is a [datetime] read from the
    clock ([us] microseconds); [VUtcFromTimestamp t] stands for
    [datetime.utcfromtimestamp(t)], kept symbolic. *)
Inductive pyval :=
| VNone
| VBool (b : bool)
| VNum (n : pynum)
| VStr (s : string)
| VList (l : list pyval)
| VDict (d : list (pyval * pyval))
| VDatetime (us : Z)
| VUtcFromTimestamp (t : float).

Definition VInt (z : Z) : pyval := VNum (PInt z).
Definition VFloat (f : float) : pyval := VNum (PFloat f).

(** [d.get(key)] on a dict with string keys: [None] when absent. *)
Fixpoint dict_get (d : list (pyval * pyval)) (key : string) : pyval :=
  match d with
  | [] => VNone
  | (VStr k, v) :: d' => if String.eqb k key then v else dict_get d' key
  | _ :: d' => dict_get d' key
  end.

(** A run id (a UUID). *)
Definition UUID := N.

(** A reference to an object; lists hold references. *)
Definition objref := nat.
(** The address of a list object. *)
Definition loc := nat.

(** The transport bound to an analyzer: an object that is, or is not, an
    instance of [BaseDAQProvider]. *)
Record daq_handle := { daq_id : nat; is_provider : bool }.

(** One leading/falling edge pair of a channel; the falling edge may be
    [None]. *)
Definition pulse := (pynum * option pynum)%type.

(** An element of the [pulses] sequence of an envelope: the first one
    belongs to the trigger, the others are the data channels. *)
Inductive pulse_item :=
| TriggerTime (t : pynum)
| Channel (ps : list pulse).

(** The value under the envelope's ['pulses'] key. *)
Inductive pulses_entry :=
| NoPulsesKey
| PulsesNone
| Pulses (items : list pulse_item).

(** The per-line envelope [{'raw': line, ...}]. *)
Record envelope := { raw : string; pulses : pulses_entry }.

(** A call received by a consumer. *)
Inductive consumer_call :=
| CallStart (run_id : option UUID) (analyzer_id : string)
            (expected_data_types : list DataTypes)
| CallStop (run_id : option UUID) (analyzer_id : string)
| CallFinish (analyzer_id : string)
| CallPush (data : pyval) (data_type : DataTypes) (run_id : option UUID)
           (analyzer_id : string).

(** The part of the interpreter state the analyzers act on:
    - [lists]: the list objects, by address (several attributes may hold
      the same address);
    - [consumer_log]: the calls made on consumers, oldest first;
    - [daq_log]: the [put] calls made on providers, oldest first;
    - [utc_clock], [time_clock]: what the k-th call of
      [datetime.utcnow()] (microseconds) and of [time.time()] return. *)
Record world := {
  lists : list (list objref);
  consumer_log : list (objref * consumer_call);
  daq_log : list (nat * string);
  utc_clock : nat -> Z;
  utc_reads : nat;
  time_clock : nat -> float;
  time_reads : nat }.

Definition set_lists (l : list (list objref)) (w : world) : world :=
  {| lists := l; consumer_log := consumer_log w; daq_log := daq_log w;
     utc_clock := utc_clock w; utc_reads := utc_reads w;
     time_clock := time_clock w; time_reads := time_reads w |}.

Definition set_consumer_log (l : list (objref * consumer_call)) (w : world) : world :=
  {| lists := lists w; consumer_log := l; daq_log := daq_log w;
     utc_clock := utc_clock w; utc_reads := utc_reads w;
     time_clock := time_clock w; time_reads := time_reads w |}.

Definition set_daq_log (l : list (nat * string)) (w : world) : world :=
  {| lists := lists w; consumer_log := consumer_log w; daq_log := l;
     utc_clock := utc_clock w; utc_reads := utc_reads w;
     time_clock := time_clock w; time_reads := time_reads w |}.

(** [datetime.datetime.utcnow()] *)
Definition utcnow (w : world) : Z * world :=
  (utc_clock w (utc_reads w),
   {| lists := lists w; consumer_log := consumer_log w; daq_log := daq_log w;
      utc_clock := utc_clock w; utc_reads := S (utc_reads w);
      time_clock := time_clock w; time_reads := time_reads w |}).

(** [time.time()] *)
Definition time_time (w : world) : float * world :=
  (time_clock w (time_reads w),
   {| lists := lists w; consumer_log := consumer_log w; daq_log := daq_log w;
      utc_clock := utc_clock w; utc_reads := utc_reads w;
      time_clock := time_clock w; time_reads := S (time_reads w) |}).

(** The elements of the list object at [l]. *)
Definition deref (w : world) (l : loc) : list objref :=
  default [] (lists w !! l).

(** A new list object holding [xs]. *)
Definition alloc (xs : list objref) (w : world) : loc * world :=
  (length (lists w), set_lists (lists w ++ [xs]) w).

(** [lst.append(x)] on the list object at [l]. *)
Definition list_append (l : loc) (x : objref) (w : world) : world :=
  set_lists (<[l := deref w l ++ [x]]> (lists w)) w.

(** The calls a consumer has received, oldest first. *)
Definition observed (c : objref) (w : world) : list consumer_call :=
  map snd (filter (fun e => fst e = c) (consumer_log w)).

(** ** analyzers.py: [BaseAnalyzer] *)

Module BaseAnalyzer.

(** The attributes set by [BaseAnalyzer.__init__], with the class name
    ([self.__class__.__name__]) and the class attribute
    [RESULT_DATA_TYPES] of the instance's class. *)
Record t := {
  class_name : string;
  RESULT_DATA_TYPES : list DataTypes;
  daq : option daq_handle;
  _active : bool;
  _disabled : bool;
  _last_run_id : option UUID;
  _last_daq : option daq_handle;
  consumers : loc;
  current_run_id : option UUID }.

Definition set_daq (v : option daq_handle) (b : t) : t :=
  {| class_name := class_name b; RESULT_DATA_TYPES := RESULT_DATA_TYPES b;
     daq := v; _active := _active b; _disabled := _disabled b;
     _last_run_id := _last_run_id b; _last_daq := _last_daq b;
     consumers := consumers b; current_run_id := current_run_id b |}.

Definition set_active (v : bool) (b : t) : t :=
  {| class_name := class_name b; RESULT_DATA_TYPES := RESULT_DATA_TYPES b;
     daq := daq b; _active := v; _disabled := _disabled b;
     _last_run_id := _last_run_id b; _last_daq := _last_daq b;
     consumers := consumers b; current_run_id := current_run_id b |}.

Definition set_disabled (v : bool) (b : t) : t :=
  {| class_name := class_name b; RESULT_DATA_TYPES := RESULT_DATA_TYPES b;
     daq := daq b; _active := _active b; _disabled := v;
     _last_run_id := _last_run_id b; _last_daq := _last_daq b;
     consumers := consumers b; current_run_id := current_run_id b |}.

Definition set_last_run_id (v : option UUID) (b : t) : t :=
  {| class_name := class_name b; RESULT_DATA_TYPES := RESULT_DATA_TYPES b;
     daq := daq b; _active := _active b; _disabled := _disabled b;
     _last_run_id := v; _last_daq := _last_daq b;
     consumers := consumers b; current_run_id := current_run_id b |}.

Definition set_last_daq (v : option daq_handle) (b : t) : t :=
  {| class_name := class_name b; RESULT_DATA_TYPES := RESULT_DATA_TYPES b;
     daq := daq b; _active := _active b; _disabled := _disabled b;
     _last_run_id := _last_run_id b; _last_daq := v;
     consumers := consumers b; current_run_id := current_run_id b |}.

Definition set_current_run_id (v : option UUID) (b : t) : t :=
  {| class_name := class_name b; RESULT_DATA_TYPES := RESULT_DATA_TYPES b;
     daq := daq b; _active := _active b; _disabled := _disabled b;
     _last_run_id := _last_run_id b; _last_daq := _last_daq b;
     consumers := consumers b; current_run_id := v |}.

(** [__init__(self, consumers, logger)] once the [consumers] argument is
    bound to the list object at [cs]. *)
Definition init (name : string) (types : list DataTypes) (cs : loc) : t :=
  {| class_name := name; RESULT_DATA_TYPES := types;
     daq := None; _active := false; _disabled := false;
     _last_run_id := None; _last_daq := None;
     consumers := cs; current_run_id := None |}.

(** [for consumer in self.consumers: consumer.<call>] *)
Definition notify (self : t) (call : consumer_call) (w : world) : world :=
  set_consumer_log
    (consumer_log w ++ map (fun c => (c, call)) (deref w (consumers self))) w.

(** [publish(self, data, data_type)] *)
Definition publish (self : t) (data : pyval) (data_type : DataTypes) (w : world)
  : world :=
  if negb (_active self) then w
  else notify self (CallPush data data_type (current_run_id self) (class_name self)) w.

(** [BaseAnalyzer.start(self, run_id, daq)] *)
Definition start (self : t) (run_id : option UUID) (daq : option daq_handle)
    (w : world) : t * world :=
  if negb (_disabled self) then
    let self := set_daq daq self in
    let self := set_current_run_id run_id self in
    if negb (_active self) then
      let self := set_active true self in
      (self, notify self (CallStart run_id (class_name self) (RESULT_DATA_TYPES self)) w)
    else (self, w)
  else
    let self := set_last_run_id run_id self in
    let self := set_last_daq daq self in
    (self, w).

(** [BaseAnalyzer.stop(self)] *)
Definition stop (self : t) (w : world) : t * world :=
  let self := set_last_run_id None self in
  let self := set_last_daq None self in
  if negb (_active self) then (self, w)
  else if negb (_disabled self) then
    let w := notify self (CallStop (current_run_id self) (class_name self)) w in
    let self := set_current_run_id None self in
    let self := set_active false self in
    (self, w)
  else (self, w).

(** The [val is True] branch of the [disabled] setter. *)
Definition disable (self : t) (w : world) : t * world :=
  if _active self then
    let self := set_last_run_id (current_run_id self) self in
    let self := set_last_daq (daq self) self in
    let self := set_active false self in
    let w := notify self (CallStop (current_run_id self) (class_name self)) w in
    let self := set_current_run_id None self in
    let self := set_daq None self in
    (set_disabled true self, w)
  else (set_disabled true self, w).

(** [daq_put(self, msg)] *)
Definition daq_put (self : t) (msg : string) (w : world) : bool * world :=
  match daq self with
  | None => (false, w)
  | Some h =>
      if is_provider h
      then (true, set_daq_log (daq_log w ++ [(daq_id h, msg)]) w)
      else (false, w)
  end.

(** [BaseAnalyzer.finish(self)] *)
Definition finish (self : t) (w : world) : world :=
  notify self (CallFinish (class_name self)) w.

End BaseAnalyzer.

(** ** analyzers.py: [RateAnalyzer] *)

(** A [threading.Thread]: created, started and not yet finished, or
    finished. *)
Inductive thread_state := NotStarted | Running | Finished.

Module RateAnalyzer.

Definition SCALAR_BUF_SIZE : nat := 5.

Record t := {
  base : BaseAnalyzer.t;
  update_interval : float;
  measurement_duration : Z;
  start_time : Z;
  last_query_time : pynum;
  query_time : float;
  time_window : pynum;
  show_trigger : bool;
  last_data : list (pyval * pyval);
  previous_scalars : list Z;
  scalar_buffer : list Z;
  max_rate : pynum;
  min_rate : pynum;
  first_run : bool;
  first_cycle : bool;
  rates : option (list pynum);
  update_thread : thread_state;
  _joinable : bool }.

Definition set_base (v : BaseAnalyzer.t) (self : t) : t :=
  {| base := v; update_interval := update_interval self;
     measurement_duration := measurement_duration self;
     start_time := start_time self; last_query_time := last_query_time self;
     query_time := query_time self; time_window := time_window self;
     show_trigger := show_trigger self; last_data := last_data self;
     previous_scalars := previous_scalars self;
     scalar_buffer := scalar_buffer self; max_rate := max_rate self;
     min_rate := min_rate self; first_run := first_run self;
     first_cycle := first_cycle self; rates := rates self;
     update_thread := update_thread self; _joinable := _joinable self |}.

Definition set_start_time (v : Z) (self : t) : t :=
  {| base := base self; update_interval := update_interval self;
     measurement_duration := measurement_duration self; start_time := v;
     last_query_time := last_query_time self; query_time := query_time self;
     time_window := time_window self; show_trigger := show_trigger self;
     last_data := last_data self; previous_scalars := previous_scalars self;
     scalar_buffer := scalar_buffer self; max_rate := max_rate self;
     min_rate := min_rate self; first_run := first_run self;
     first_cycle := first_cycle self; rates := rates self;
     update_thread := update_thread self; _joinable := _joinable self |}.

Definition set_last_query_time (v : pynum) (self : t) : t :=
  {| base := base self; update_interval := update_interval self;
     measurement_duration := measurement_duration self;
     start_time := start_time self; last_query_time := v;
     query_time := query_time self; time_window := time_window self;
     show_trigger := show_trigger self; last_data := last_data self;
     previous_scalars := previous_scalars self;
     scalar_buffer := scalar_buffer self; max_rate := max_rate self;
     min_rate := min_rate self; first_run := first_run self;
     first_cycle := first_cycle self; rates := rates self;
     update_thread := update_thread self; _joinable := _joinable self |}.

Definition set_query_time (v : float) (self : t) : t :=
  {| base := base self; update_interval := update_interval self;
     measurement_duration := measurement_duration self;
     start_time := start_time self; last_query_time := last_query_time self;
     query_time := v; time_window := time_window self;
     show_trigger := show_trigger self; last_data := last_data self;
     previous_scalars := previous_scalars self;
     scalar_buffer := scalar_buffer self; max_rate := max_rate self;
     min_rate := min_rate self; first_run := first_run self;
     first_cycle := first_cycle self; rates := rates self;
     update_thread := update_thread self; _joinable := _joinable self |}.

Definition set_time_window (v : pynum) (self : t) : t :=
  {| base := base self; update_interval := update_interval self;
     measurement_duration := measurement_duration self;
     start_time := start_time self; last_query_time := last_query_time self;
     query_time := query_time self; time_window := v;
     show_trigger := show_trigger self; last_data := last_data self;
     previous_scalars := previous_scalars self;
     scalar_buffer := scalar_buffer self; max_rate := max_rate self;
     min_rate := min_rate self; first_run := first_run self;
     first_cycle := first_cycle self; rates := rates self;
     update_thread := update_thread self; _joinable := _joinable self |}.

Definition set_last_data (v : list (pyval * pyval)) (self : t) : t :=
  {| base := base self; update_interval := update_interval self;
     measurement_duration := measurement_duration self;
     start_time := start_time self; last_query_time := last_query_time self;
     query_time := query_time self; time_window := time_window self;
     show_trigger := show_trigger self; last_data := v;
     previous_scalars := previous_scalars self;
     scalar_buffer := scalar_buffer self; max_rate := max_rate self;
     min_rate := min_rate self; first_run := first_run self;
     first_cycle := first_cycle self; rates := rates self;
     update_thread := update_thread self; _joinable := _joinable self |}.

Definition set_previous_scalars (v : list Z) (self : t) : t :=
  {| base := base self; update_interval := update_interval self;
     measurement_duration := measurement_duration self;
     start_time := start_time self; last_query_time := last_query_time self;
     query_time := query_time self; time_window := time_window self;
     show_trigger := show_trigger self; last_data := last_data self;
     previous_scalars := v; scalar_buffer := scalar_buffer self;
     max_rate := max_rate self; min_rate := min_rate self;
     first_run := first_run self; first_cycle := first_cycle self;
     rates := rates self; update_thread := update_thread self;
     _joinable := _joinable self |}.

Definition set_scalar_buffer (v : list Z) (self : t) : t :=
  {| base := base self; update_interval := update_interval self;
     measurement_duration := measurement_duration self;
     start_time := start_time self; last_query_time := last_query_time self;
     query_time := query_time self; time_window := time_window self;
     show_trigger := show_trigger self; last_data := last_data self;
     previous_scalars := previous_scalars self; scalar_buffer := v;
     max_rate := max_rate self; min_rate := min_rate self;
     first_run := first_run self; first_cycle := first_cycle self;
     rates := rates self; update_thread := update_thread self;
     _joinable := _joinable self |}.

Definition set_max_rate (v : pynum) (self : t) : t :=
  {| base := base self; update_interval := update_interval self;
     measurement_duration := measurement_duration self;
     start_time := start_time self; last_query_time := last_query_time self;
     query_time := query_time self; time_window := time_window self;
     show_trigger := show_trigger self; last_data := last_data self;
     previous_scalars := previous_scalars self;
     scalar_buffer := scalar_buffer self; max_rate := v;
     min_rate := min_rate self; first_run := first_run self;
     first_cycle := first_cycle self; rates := rates self;
     update_thread := update_thread self; _joinable := _joinable self |}.

Definition set_min_rate (v : pynum) (self : t) : t :=
  {| base := base self; update_interval := update_interval self;
     measurement_duration := measurement_duration self;
     start_time := start_time self; last_query_time := last_query_time self;
     query_time := query_time self; time_window := time_window self;
     show_trigger := show_trigger self; last_data := last_data self;
     previous_scalars := previous_scalars self;
     scalar_buffer := scalar_buffer self; max_rate := max_rate self;
     min_rate := v; first_run := first_run self;
     first_cycle := first_cycle self; rates := rates self;
     update_thread := update_thread self; _joinable := _joinable self |}.

Definition set_first_cycle (v : bool) (self : t) : t :=
  {| base := base self; update_interval := update_interval self;
     measurement_duration := measurement_duration self;
     start_time := start_time self; last_query_time := last_query_time self;
     query_time := query_time self; time_window := time_window self;
     show_trigger := show_trigger self; last_data := last_data self;
     previous_scalars := previous_scalars self;
     scalar_buffer := scalar_buffer self; max_rate := max_rate self;
     min_rate := min_rate self; first_run := first_run self;
     first_cycle := v; rates := rates self;
     update_thread := update_thread self; _joinable := _joinable self |}.

Definition set_rates (v : option (list pynum)) (self : t) : t :=
  {| base := base self; update_interval := update_interval self;
     measurement_duration := measurement_duration self;
     start_time := start_time self; last_query_time := last_query_time self;
     query_time := query_time self; time_window := time_window self;
     show_trigger := show_trigger self; last_data := last_data self;
     previous_scalars := previous_scalars self;
     scalar_buffer := scalar_buffer self; max_rate := max_rate self;
     min_rate := min_rate self; first_run := first_run self;
     first_cycle := first_cycle self; rates := v;
     update_thread := update_thread self; _joinable := _joinable self |}.

Definition set_update_thread (v : thread_state) (self : t) : t :=
  {| base := base self; update_interval := update_interval self;
     measurement_duration := measurement_duration self;
     start_time := start_time self; last_query_time := last_query_time self;
     query_time := query_time self; time_window := time_window self;
     show_trigger := show_trigger self; last_data := last_data self;
     previous_scalars := previous_scalars self;
     scalar_buffer := scalar_buffer self; max_rate := max_rate self;
     min_rate := min_rate self; first_run := first_run self;
     first_cycle := first_cycle self; rates := rates self;
     update_thread := v; _joinable := _joinable self |}.

Definition set_joinable (v : bool) (self : t) : t :=
  {| base := base self; update_interval := update_interval self;
     measurement_duration := measurement_duration self;
     start_time := start_time self; last_query_time := last_query_time self;
     query_time := query_time self; time_window := time_window self;
     show_trigger := show_trigger self; last_data := last_data self;
     previous_scalars := previous_scalars self;
     scalar_buffer := scalar_buffer self; max_rate := max_rate self;
     min_rate := min_rate self; first_run := first_run self;
     first_cycle := first_cycle self; rates := rates self;
     update_thread := update_thread self; _joinable := v |}.


(** [new_scalar_buffer(self)] *)
Definition new_scalar_buffer : list Z := replicate SCALAR_BUF_SIZE 0.

(** [__init__]; [time_window] is [float(options.get('time_window', 1.0))]. *)
Definition init (cs : loc) (time_window : float) (w : world) : t * world :=
  let '(now, w) := utcnow w in
  let '(qt, w) := time_time w in
  ({| base := BaseAnalyzer.init "RateAnalyzer" [RATE] cs;
      update_interval := time_window;
      measurement_duration := 0;
      start_time := now;
      last_query_time := PInt 0;
      query_time := qt;
      time_window := PInt 0;
      show_trigger := true;
      last_data := [];
      previous_scalars := new_scalar_buffer;
      scalar_buffer := new_scalar_buffer;
      max_rate := PInt 0;
      min_rate := PInt 99999999999999999999999999999999999;
      first_run := true;
      first_cycle := false;
      rates := None;
      update_thread := NotStarted;
      _joinable := false |}, w).

(** [query_daq_for_scalars(self)] *)
Definition query_daq_for_scalars (self : t) (w : world) : t * world :=
  let self := set_last_query_time (PFloat (query_time self)) self in
  let '(_, w) := BaseAnalyzer.daq_put (base self) "DS" w in
  let '(now, w) := time_time w in
  (set_query_time now self, w).

(** The inner loop of [extract_scalars_from_message] for one [item]:
    [for i in range(SCALAR_BUF_SIZE)]. *)
Fixpoint extract_item (range : list nat) (item : string) (scalars : list Z)
  : result (list Z) :=
  match range with
  | [] => Ok scalars
  | i :: range' =>
      if startswith item ("S" +:+ fmt_d i) && (len item =? 11)
      then rbind (int_of_str 16 (slice_from 3 item))
             (fun v => extract_item range' item (<[i := v]> scalars))
      else extract_item range' item scalars
  end.

(** The outer loop, [for item in msg.split()]. *)
Fixpoint extract_items (items : list string) (scalars : list Z)
  : result (list Z) :=
  match items with
  | [] => Ok scalars
  | item :: items' =>
      rbind (extract_item (seq 0 SCALAR_BUF_SIZE) item scalars)
            (extract_items items')
  end.

(** [extract_scalars_from_message(self, msg)] *)
Definition extract_scalars_from_message (msg : string) : result (list Z) :=
  extract_items (split_ws msg) new_scalar_buffer.

(** How the difference loop of [calculate] ends: it runs to its end, it
    leaves [calculate] through [return True], or an index is out of range. *)
Inductive loop_exit :=
| Completed
| Returned
| Raised (e : exn).

(** The loop
    [for i in range(self.SCALAR_BUF_SIZE):
         if scalars[i] > 0:
             scalar_diffs[i] = scalars[i] - self.previous_scalars[i]
             self.previous_scalars[i] = scalars[i]
         else:
             return True]
    on the lists [scalar_diffs] and [self.previous_scalars], both updated
    in place. *)
Fixpoint diff_loop (range : list nat) (scalars scalar_diffs previous : list Z)
  : loop_exit * list Z * list Z :=
  match range with
  | [] => (Completed, scalar_diffs, previous)
  | i :: range' =>
      match scalars !! i with
      | None => (Raised IndexError, scalar_diffs, previous)
      | Some s =>
          if 0 <? s then
            match previous !! i with
            | None => (Raised IndexError, scalar_diffs, previous)
            | Some p =>
                if (i <? length scalar_diffs)%nat
                then diff_loop range' scalars (<[i := s - p]> scalar_diffs)
                               (<[i := s]> previous)
                else (Raised IndexError, scalar_diffs, previous)
            end
          else (Returned, scalar_diffs, previous)
      end
  end.

(** [[x + scalar_diffs[i] for i, x in enumerate(self.scalar_buffer)]] *)
Definition add_diffs (scalar_buffer scalar_diffs : list Z) : result (list Z) :=
  mapM (fun ix => rbind (index scalar_diffs (fst ix)) (fun d => Ok (snd ix + d)))
       (imap (fun i x => (i, x)) scalar_buffer).

(** [calculate(self, msg_dict)]; the attributes keep what was assigned
    before an exception. *)
Definition calculate (self : t) (msg_dict : envelope) : result bool * t :=
  let msg := raw msg_dict in
  if negb ((2 <=? len msg) && startswith msg "DS") then (Ok true, self)
  else
    match extract_scalars_from_message msg with
    | Raise e => (Raise e, self)
    | Ok scalars =>
        if first_cycle self then
          let self := set_previous_scalars scalars self in
          let self := set_first_cycle false self in
          (Ok true, self)
        else
          let scalar_diffs := new_scalar_buffer in
          match diff_loop (seq 0 SCALAR_BUF_SIZE) scalars scalar_diffs
                          (previous_scalars self) with
          | (Raised e, _, previous) => (Raise e, set_previous_scalars previous self)
          | (Returned, _, previous) => (Ok true, set_previous_scalars previous self)
          | (Completed, scalar_diffs, previous) =>
              let self := set_previous_scalars previous self in
              match float_sub (query_time self) (last_query_time self) with
              | Raise e => (Raise e, self)
              | Ok time_window =>
              match mapM (fun d => truediv_float (PInt d) time_window) scalar_diffs with
              | Raise e => (Raise e, self)
              | Ok quotients =>
              let rates :=
                map PFloat quotients ++ [PFloat time_window] ++ map PInt scalar_diffs in
              let self := set_rates (Some rates) self in
              match py_add (RateAnalyzer.time_window self) (PFloat time_window) with
              | Raise e => (Raise e, self)
              | Ok total =>
              let self := set_time_window total self in
              match add_diffs (scalar_buffer self) scalar_diffs with
              | Raise e => (Raise e, self)
              | Ok buffer =>
              let self := set_scalar_buffer buffer self in
              match index rates 4 with
              | Raise e => (Raise e, self)
              | Ok trigger_rate =>
              let self :=
                if py_lt trigger_rate (min_rate self)
                then set_min_rate trigger_rate self else self in
              let self :=
                if py_gt trigger_rate (max_rate self)
                then set_max_rate trigger_rate self else self in
              let self :=
                set_last_data
                  [(VStr "rates", VList (map VNum (take 5 rates)));
                   (VStr "counts", VList (map VInt scalars));
                   (VStr "max_rate", VNum (max_rate self));
                   (VStr "min_rate", VNum (min_rate self));
                   (VStr "time_window", VFloat time_window);
                   (VStr "query_time", VUtcFromTimestamp (query_time self))]
                  self in
              (Ok true, self)
              end end end end end
          end
    end.

(** [init_update_thread(self)] *)
Definition init_update_thread (self : t) : t :=
  match update_thread self with
  | Running => self
  | _ =>
      let self := if _joinable self then set_joinable false self else self in
      set_update_thread Running self
  end.

(** [start(self, run_id, daq)] *)
Definition start (self : t) (run_id : option UUID) (daq : option daq_handle)
    (w : world) : t * world :=
  let '(b, w) := BaseAnalyzer.start (base self) run_id daq w in
  let self := set_base b self in
  let '(now, w) := utcnow w in
  let self := set_start_time now self in
  let self := set_first_cycle true self in
  let self := set_time_window (PInt 0) self in
  let self := set_scalar_buffer new_scalar_buffer self in
  (init_update_thread self, w).

(** One turn of [update_loop]: the loop test and, when the analyzer is
    active, the body; otherwise the thread ends. *)
Definition update_loop_turn (self : t) (w : world) : result unit * t * world :=
  if BaseAnalyzer._active (base self) then
    let send :=
      match last_data self with
      | [] => Ok false
      | d =>
          (* a datetime never equals a number: the [!=] test is true *)
          match dict_get d "time_window" with
          | VNum (PFloat tw) => Ok (PrimFloat.leb (update_interval self) tw)
          | VNone => Raise KeyError
          | _ => Raise TypeError
          end
      end in
    match send with
    | Raise e => (Raise e, set_update_thread Finished self, w)
    | Ok b =>
        let w := if b then BaseAnalyzer.publish (base self) (VDict (last_data self)) RATE w
                 else w in
        let self := set_last_data [] self in
        let '(self, w) := query_daq_for_scalars self w in
        (Ok tt, self, w)
    end
  else
    (Ok tt, set_joinable true (set_update_thread Finished self), w).

(** [stop(self)]: [update_thread.join()] raises before the thread was ever
    started, and returns once the thread has seen the analyzer inactive and
    left its loop. *)
Definition stop (self : t) (w : world) : result unit * t * world :=
  let '(b, w) := BaseAnalyzer.stop (base self) w in
  let self := set_base b self in
  match update_thread self with
  | NotStarted => (Raise RuntimeError, self, w)
  | Finished => (Ok tt, self, w)
  | Running =>
      if BaseAnalyzer._active b then (Raise Deadlock, self, w)
      else (Ok tt, set_joinable true (set_update_thread Finished self), w)
  end.

End RateAnalyzer.

(** ** analyzers.py: [DummyAnalyzer] *)

Module DummyAnalyzer.

Definition init (cs : loc) : BaseAnalyzer.t :=
  BaseAnalyzer.init "DummyAnalyzer" [RAW] cs.

(** [calculate(self, msg)] *)
Definition calculate (self : BaseAnalyzer.t) (msg : envelope) (w : world)
  : result bool * world :=
  (Ok true, BaseAnalyzer.publish self (VStr (raw msg)) RAW w).

End DummyAnalyzer.

(** ** analyzers.py: [DecayAnalyzer] *)

(** The [trigger] method of the decay trigger object
    ([utils.DecayTriggerThorough], not part of these sources):
    [trigger(channels, single_channel, double_channel, veto_channel,
             min_decay_time, min_single_pulse_width, max_single_pulse_width,
             min_double_pulse_width, max_double_pulse_width)],
    a decay time in nanoseconds or [None]. *)
Definition decay_trigger : Type :=
  list pulse_item -> Z -> Z -> Z -> pynum -> pynum -> pynum -> pynum -> pynum
  -> option float.

Module DecayAnalyzer.

Record t := {
  base : BaseAnalyzer.t;
  min_single_pulse_width : pynum;
  max_single_pulse_width : pynum;
  min_double_pulse_width : pynum;
  max_double_pulse_width : pynum;
  muon_counter : Z;
  single_pulse_channel : Z;
  double_pulse_channel : Z;
  veto_pulse_channel : Z;
  decay_min_time : pynum;
  last_event_time : option Z;
  active_since : option Z;
  measurement_duration : Z;
  start_time : Z;
  previous_coinc_time_03 : string;
  previous_coinc_time_02 : string;
  trigger : decay_trigger }.

Definition set_base (v : BaseAnalyzer.t) (self : t) : t :=
  {| base := v; min_single_pulse_width := min_single_pulse_width self;
     max_single_pulse_width := max_single_pulse_width self;
     min_double_pulse_width := min_double_pulse_width self;
     max_double_pulse_width := max_double_pulse_width self;
     muon_counter := muon_counter self;
     single_pulse_channel := single_pulse_channel self;
     double_pulse_channel := double_pulse_channel self;
     veto_pulse_channel := veto_pulse_channel self;
     decay_min_time := decay_min_time self;
     last_event_time := last_event_time self;
     active_since := active_since self;
     measurement_duration := measurement_duration self;
     start_time := start_time self;
     previous_coinc_time_03 := previous_coinc_time_03 self;
     previous_coinc_time_02 := previous_coinc_time_02 self;
     trigger := trigger self |}.

Definition set_muon_counter (v : Z) (self : t) : t :=
  {| base := base self;
     min_single_pulse_width := min_single_pulse_width self;
     max_single_pulse_width := max_single_pulse_width self;
     min_double_pulse_width := min_double_pulse_width self;
     max_double_pulse_width := max_double_pulse_width self;
     muon_counter := v; single_pulse_channel := single_pulse_channel self;
     double_pulse_channel := double_pulse_channel self;
     veto_pulse_channel := veto_pulse_channel self;
     decay_min_time := decay_min_time self;
     last_event_time := last_event_time self;
     active_since := active_since self;
     measurement_duration := measurement_duration self;
     start_time := start_time self;
     previous_coinc_time_03 := previous_coinc_time_03 self;
     previous_coinc_time_02 := previous_coinc_time_02 self;
     trigger := trigger self |}.

Definition set_last_event_time (v : option Z) (self : t) : t :=
  {| base := base self;
     min_single_pulse_width := min_single_pulse_width self;
     max_single_pulse_width := max_single_pulse_width self;
     min_double_pulse_width := min_double_pulse_width self;
     max_double_pulse_width := max_double_pulse_width self;
     muon_counter := muon_counter self;
     single_pulse_channel := single_pulse_channel self;
     double_pulse_channel := double_pulse_channel self;
     veto_pulse_channel := veto_pulse_channel self;
     decay_min_time := decay_min_time self; last_event_time := v;
     active_since := active_since self;
     measurement_duration := measurement_duration self;
     start_time := start_time self;
     previous_coinc_time_03 := previous_coinc_time_03 self;
     previous_coinc_time_02 := previous_coinc_time_02 self;
     trigger := trigger self |}.

Definition set_active_since (v : option Z) (self : t) : t :=
  {| base := base self;
     min_single_pulse_width := min_single_pulse_width self;
     max_single_pulse_width := max_single_pulse_width self;
     min_double_pulse_width := min_double_pulse_width self;
     max_double_pulse_width := max_double_pulse_width self;
     muon_counter := muon_counter self;
     single_pulse_channel := single_pulse_channel self;
     double_pulse_channel := double_pulse_channel self;
     veto_pulse_channel := veto_pulse_channel self;
     decay_min_time := decay_min_time self;
     last_event_time := last_event_time self; active_since := v;
     measurement_duration := measurement_duration self;
     start_time := start_time self;
     previous_coinc_time_03 := previous_coinc_time_03 self;
     previous_coinc_time_02 := previous_coinc_time_02 self;
     trigger := trigger self |}.

Definition set_measurement_duration (v : Z) (self : t) : t :=
  {| base := base self;
     min_single_pulse_width := min_single_pulse_width self;
     max_single_pulse_width := max_single_pulse_width self;
     min_double_pulse_width := min_double_pulse_width self;
     max_double_pulse_width := max_double_pulse_width self;
     muon_counter := muon_counter self;
     single_pulse_channel := single_pulse_channel self;
     double_pulse_channel := double_pulse_channel self;
     veto_pulse_channel := veto_pulse_channel self;
     decay_min_time := decay_min_time self;
     last_event_time := last_event_time self;
     active_since := active_since self; measurement_duration := v;
     start_time := start_time self;
     previous_coinc_time_03 := previous_coinc_time_03 self;
     previous_coinc_time_02 := previous_coinc_time_02 self;
     trigger := trigger self |}.

Definition set_start_time (v : Z) (self : t) : t :=
  {| base := base self;
     min_single_pulse_width := min_single_pulse_width self;
     max_single_pulse_width := max_single_pulse_width self;
     min_double_pulse_width := min_double_pulse_width self;
     max_double_pulse_width := max_double_pulse_width self;
     muon_counter := muon_counter self;
     single_pulse_channel := single_pulse_channel self;
     double_pulse_channel := double_pulse_channel self;
     veto_pulse_channel := veto_pulse_channel self;
     decay_min_time := decay_min_time self;
     last_event_time := last_event_time self;
     active_since := active_since self;
     measurement_duration := measurement_duration self; start_time := v;
     previous_coinc_time_03 := previous_coinc_time_03 self;
     previous_coinc_time_02 := previous_coinc_time_02 self;
     trigger := trigger self |}.

Definition set_previous_coinc_time_03 (v : string) (self : t) : t :=
  {| base := base self;
     min_single_pulse_width := min_single_pulse_width self;
     max_single_pulse_width := max_single_pulse_width self;
     min_double_pulse_width := min_double_pulse_width self;
     max_double_pulse_width := max_double_pulse_width self;
     muon_counter := muon_counter self;
     single_pulse_channel := single_pulse_channel self;
     double_pulse_channel := double_pulse_channel self;
     veto_pulse_channel := veto_pulse_channel self;
     decay_min_time := decay_min_time self;
     last_event_time := last_event_time self;
     active_since := active_since self;
     measurement_duration := measurement_duration self;
     start_time := start_time self; previous_coinc_time_03 := v;
     previous_coinc_time_02 := previous_coinc_time_02 self;
     trigger := trigger self |}.

Definition set_previous_coinc_time_02 (v : string) (self : t) : t :=
  {| base := base self;
     min_single_pulse_width := min_single_pulse_width self;
     max_single_pulse_width := max_single_pulse_width self;
     min_double_pulse_width := min_double_pulse_width self;
     max_double_pulse_width := max_double_pulse_width self;
     muon_counter := muon_counter self;
     single_pulse_channel := single_pulse_channel self;
     double_pulse_channel := double_pulse_channel self;
     veto_pulse_channel := veto_pulse_channel self;
     decay_min_time := decay_min_time self;
     last_event_time := last_event_time self;
     active_since := active_since self;
     measurement_duration := measurement_duration self;
     start_time := start_time self;
     previous_coinc_time_03 := previous_coinc_time_03 self;
     previous_coinc_time_02 := v; trigger := trigger self |}.

(** [__init__] with the default options. *)
Definition init (cs : loc) (trig : decay_trigger) (w : world) : t * world :=
  let '(now, w) := utcnow w in
  ({| base := BaseAnalyzer.init "DecayAnalyzer" [DECAY] cs;
      min_single_pulse_width := PInt 0;
      max_single_pulse_width := PInt 12000;
      min_double_pulse_width := PInt 0;
      max_double_pulse_width := PInt 12000;
      muon_counter := 0;
      single_pulse_channel := 0;
      double_pulse_channel := 1;
      veto_pulse_channel := 2;
      decay_min_time := PInt 0;
      last_event_time := None;
      active_since := None;
      measurement_duration := 0;
      start_time := now;
      previous_coinc_time_03 := "00";
      previous_coinc_time_02 := "0A";
      trigger := trig |}, w).

(** [set_previous_coincidence_times(self, time_03, time_02)] *)
Definition set_previous_coincidence_times (time_03 time_02 : string) (self : t) : t :=
  set_previous_coinc_time_02 time_02 (set_previous_coinc_time_03 time_03 self).

(** The body of the [try] of [calculate]: the two values to remember. *)
Definition parse_coincidence_times (raw_msg : string) : result (string * string) :=
  let split_msg := split_on " " raw_msg in
  rbind (index split_msg 4) (fun f4 =>
  rbind (index (split_on "=" f4) 1) (fun t_03 =>
  rbind (index split_msg 3) (fun f3 =>
  rbind (index (split_on "=" f3) 1) (fun t_02 =>
  Ok (t_03, t_02))))).

(** [calculate(self, msg)] *)
Definition calculate (self : t) (msg : envelope) (w : world)
  : result bool * t * world :=
  let raw_msg := raw msg in
  if startswith raw_msg "DC" && (2 <? len raw_msg) then
    match parse_coincidence_times raw_msg with
    | Ok (t_03, t_02) => (Ok true, set_previous_coincidence_times t_03 t_02 self, w)
    | Raise _ => (Ok true, self, w)
    end
  else
    match pulses msg with
    | NoPulsesKey => (Ok true, self, w)
    | PulsesNone => (Ok true, self, w)
    | Pulses items =>
        match trigger self (drop 1 items)
                (single_pulse_channel self) (double_pulse_channel self)
                (veto_pulse_channel self) (decay_min_time self)
                (min_single_pulse_width self) (max_single_pulse_width self)
                (min_double_pulse_width self) (max_double_pulse_width self) with
        | Some decay =>
            let '(when, w) := utcnow w in
            let self := set_muon_counter (muon_counter self + 1) self in
            let self := set_last_event_time (Some when) self in
            let data :=
              VDict [(VStr "decay_time", VFloat (PrimFloat.div decay 1000%float));
                     (VStr "event_time", VDatetime when)] in
            (Ok true, self, BaseAnalyzer.publish (base self) data DECAY w)
        | None => (Ok true, self, w)
        end
    end.

(** [start(self, run_id, daq)] *)
Definition start (self : t) (run_id : option UUID) (daq : option daq_handle)
    (w : world) : t * world :=
  let '(b, w) := BaseAnalyzer.start (base self) run_id daq w in
  let self := set_base b self in
  let '(now, w) := utcnow w in
  let self := set_active_since (Some now) self in
  let '(_, w) := BaseAnalyzer.daq_put b "DC" w in
  let '(_, w) := BaseAnalyzer.daq_put b "CE" w in
  let '(_, w) := BaseAnalyzer.daq_put b "WC 03 04" w in
  let '(_, w) := BaseAnalyzer.daq_put b "WC 02 0A" w in
  let '(_, w) := BaseAnalyzer.daq_put b "WC 00 0F" w in
  let '(now, w) := utcnow w in
  (set_start_time now self, w).

(** [stop(self)] *)
Definition stop (self : t) (w : world) : t * world :=
  let '(b, w) := BaseAnalyzer.stop (base self) w in
  let self := set_base b self in
  let '(stop_time, w) := utcnow w in
  let self :=
    set_measurement_duration
      (measurement_duration self + (stop_time - start_time self)) self in
  let '(_, w) := BaseAnalyzer.daq_put b ("WC 03 " +:+ previous_coinc_time_03 self) w in
  let '(_, w) := BaseAnalyzer.daq_put b ("WC 02 " +:+ previous_coinc_time_02 self) w in
  (self, w).

(** [finish(self)] *)
Definition finish (self : t) (w : world) : t * world :=
  let w := BaseAnalyzer.finish (base self) w in
  let '(stop_time, w) := utcnow w in
  (set_measurement_duration
     (measurement_duration self + (stop_time - start_time self)) self, w).

End DecayAnalyzer.

(** ** analyzers.py: [VelocityAnalyzer] *)

(** The [trigger] method of the velocity trigger object
    ([utils.VelocityTrigger], not part of these sources):
    [trigger(channels, upper_channel, lower_channel)], a flight time or
    [None]. *)
Definition velocity_trigger : Type := list pulse_item -> Z -> Z -> option float.

Module VelocityAnalyzer.

Record t := {
  base : BaseAnalyzer.t;
  upper_channel : Z;
  lower_channel : Z;
  muon_counter : Z;
  last_event_time : option Z;
  measurement_duration : Z;
  start_time : Z;
  trigger : velocity_trigger }.

Definition set_base (v : BaseAnalyzer.t) (self : t) : t :=
  {| base := v; upper_channel := upper_channel self;
     lower_channel := lower_channel self; muon_counter := muon_counter self;
     last_event_time := last_event_time self;
     measurement_duration := measurement_duration self;
     start_time := start_time self; trigger := trigger self |}.

Definition set_muon_counter (v : Z) (self : t) : t :=
  {| base := base self; upper_channel := upper_channel self;
     lower_channel := lower_channel self; muon_counter := v;
     last_event_time := last_event_time self;
     measurement_duration := measurement_duration self;
     start_time := start_time self; trigger := trigger self |}.

Definition set_last_event_time (v : option Z) (self : t) : t :=
  {| base := base self; upper_channel := upper_channel self;
     lower_channel := lower_channel self; muon_counter := muon_counter self;
     last_event_time := v; measurement_duration := measurement_duration self;
     start_time := start_time self; trigger := trigger self |}.

Definition set_measurement_duration (v : Z) (self : t) : t :=
  {| base := base self; upper_channel := upper_channel self;
     lower_channel := lower_channel self; muon_counter := muon_counter self;
     last_event_time := last_event_time self; measurement_duration := v;
     start_time := start_time self; trigger := trigger self |}.

Definition set_start_time (v : Z) (self : t) : t :=
  {| base := base self; upper_channel := upper_channel self;
     lower_channel := lower_channel self; muon_counter := muon_counter self;
     last_event_time := last_event_time self;
     measurement_duration := measurement_duration self; start_time := v;
     trigger := trigger self |}.

(** [__init__] with the default options. *)
Definition init (cs : loc) (trig : velocity_trigger) (w : world) : t * world :=
  let '(now, w) := utcnow w in
  ({| base := BaseAnalyzer.init "VelocityAnalyzer" [VELOCITY] cs;
      upper_channel := 0;
      lower_channel := 1;
      muon_counter := 0;
      last_event_time := None;
      measurement_duration := 0;
      start_time := now;
      trigger := trig |}, w).

(** [calculate(self, msg)] *)
Definition calculate (self : t) (msg : envelope) (w : world)
  : result bool * t * world :=
  match pulses msg with
  | NoPulsesKey => (Ok true, self, w)
  | PulsesNone => (Ok true, self, w)
  | Pulses items =>
      match trigger self (drop 1 items) (upper_channel self) (lower_channel self) with
      | Some flight_time =>
          if PrimFloat.ltb 0%float flight_time then
            let self := set_muon_counter (muon_counter self + 1) self in
            let '(now, w) := utcnow w in
            let self := set_last_event_time (Some now) self in
            let data :=
              VDict [(VStr "flight_time", VFloat flight_time);
                     (VStr "event_time", VDatetime now);
                     (VStr "muon_count", VInt (muon_counter self))] in
            (Ok true, self, BaseAnalyzer.publish (base self) data VELOCITY w)
          else (Ok true, self, w)
      | None => (Ok true, self, w)
      end
  end.

(** [start(self, run_id, daq)] *)
Definition start (self : t) (run_id : option UUID) (daq : option daq_handle)
    (w : world) : t * world :=
  let '(b, w) := BaseAnalyzer.start (base self) run_id daq w in
  let self := set_base b self in
  let '(now, w) := utcnow w in
  let self := set_start_time now self in
  let '(_, w) := BaseAnalyzer.daq_put b "CE" w in
  (self, w).

(** [stop(self)] *)
Definition stop (self : t) (w : world) : t * world :=
  let '(b, w) := BaseAnalyzer.stop (base self) w in
  let self := set_base b self in
  let '(stop_time, w) := utcnow w in
  (set_measurement_duration
     (measurement_duration self + (stop_time - start_time self)) self, w).

End VelocityAnalyzer.

(** ** analyzers.py: [PulseAnalyzer] *)

Module PulseAnalyzer.

Definition init (cs : loc) : BaseAnalyzer.t :=
  BaseAnalyzer.init "PulseAnalyzer" [PULSE] cs.

(** A dict with integer keys holding lists, in insertion order. *)
Definition widths_dict := list (nat * list pynum).

(** [d[i].append(x)]: [KeyError] when [i] is not a key. *)
Fixpoint dict_append (d : widths_dict) (i : nat) (x : pynum) : result widths_dict :=
  match d with
  | [] => Raise KeyError
  | (k, l) :: d' =>
      if (k =? i)%nat then Ok ((k, l ++ [x]) :: d')
      else rbind (dict_append d' i x) (fun d'' => Ok ((k, l) :: d''))
  end.

(** The inner loop, [for le, fe in channel], on the pulses of channel [i]. *)
Fixpoint channel_loop (i : nat) (channel : list pulse) (pulse_widths : widths_dict)
  : result widths_dict :=
  match channel with
  | [] => Ok pulse_widths
  | (le, fe) :: channel' =>
      rbind
        match fe with
        | Some fe => rbind (py_sub fe le) (dict_append pulse_widths i)
        | None => dict_append pulse_widths i (PFloat 0%float)
        end
        (channel_loop i channel')
  end.

(** The outer loop, [for i, channel in enumerate(pulses[1:])], from index
    [i] on.  Iterating something that is not a list of pairs is a
    [TypeError]. *)
Fixpoint channels_loop (i : nat) (channels : list pulse_item)
    (pulse_widths : widths_dict) : result widths_dict :=
  match channels with
  | [] => Ok pulse_widths
  | Channel ps :: channels' =>
      rbind (channel_loop i ps pulse_widths) (channels_loop (S i) channels')
  | TriggerTime _ :: _ => Raise TypeError
  end.

(** [{i: [] for i in range(4)}] *)
Definition empty_widths : widths_dict := map (fun i => (i, [])) (seq 0 4).

Definition widths_value (d : widths_dict) : pyval :=
  VDict (map (fun kv => (VInt (Z.of_nat (fst kv)), VList (map VNum (snd kv)))) d).

(** [calculate(self, msg)] *)
Definition calculate (self : BaseAnalyzer.t) (msg : envelope) (w : world)
  : result bool * world :=
  match pulses msg with
  | NoPulsesKey => (Ok true, w)
  | PulsesNone => (Ok true, w)
  | Pulses items =>
      let pulse_widths := empty_widths in
      let '(pulse_timestamp, w) := utcnow w in
      match channels_loop 0 (drop 1 items) pulse_widths with
      | Raise e => (Raise e, w)
      | Ok pulse_widths =>
          let data :=
            VDict [(VStr "pulse_widths", widths_value pulse_widths);
                   (VStr "event_time", VDatetime pulse_timestamp)] in
          (Ok true, BaseAnalyzer.publish self data PULSE w)
      end
  end.

(** [start(self, run_id, daq)] *)
Definition start (self : BaseAnalyzer.t) (run_id : option UUID)
    (daq : option daq_handle) (w : world) : BaseAnalyzer.t * world :=
  let '(self, w) := BaseAnalyzer.start self run_id daq w in
  let '(_, w) := BaseAnalyzer.daq_put self "CE" w in
  (self, w).

(** [stop(self)] *)
Definition stop (self : BaseAnalyzer.t) (w : world) : BaseAnalyzer.t * world :=
  BaseAnalyzer.stop self w.

End PulseAnalyzer.

(** ** Analyzer objects and method dispatch *)

(** An analyzer object of one of the classes of [analyzers.py]. *)
Inductive analyzer :=
| ABase (b : BaseAnalyzer.t)
| ADummy (b : BaseAnalyzer.t)
| ARate (r : RateAnalyzer.t)
| ADecay (d : DecayAnalyzer.t)
| AVelocity (v : VelocityAnalyzer.t)
| APulse (b : BaseAnalyzer.t).

Module Analyzer.

(** The [BaseAnalyzer] attributes of an analyzer. *)
Definition base (a : analyzer) : BaseAnalyzer.t :=
  match a with
  | ABase b | ADummy b | APulse b => b
  | ARate r => RateAnalyzer.base r
  | ADecay d => DecayAnalyzer.base d
  | AVelocity v => VelocityAnalyzer.base v
  end.

Definition set_base (b : BaseAnalyzer.t) (a : analyzer) : analyzer :=
  match a with
  | ABase _ => ABase b
  | ADummy _ => ADummy b
  | APulse _ => APulse b
  | ARate r => ARate (RateAnalyzer.set_base b r)
  | ADecay d => ADecay (DecayAnalyzer.set_base b d)
  | AVelocity v => AVelocity (VelocityAnalyzer.set_base b v)
  end.

(** The properties [active] and [disabled], and the attributes the claims
    speak of. *)
Definition active (a : analyzer) : bool := BaseAnalyzer._active (base a).
Definition disabled (a : analyzer) : bool := BaseAnalyzer._disabled (base a).
Definition current_run_id (a : analyzer) : option UUID :=
  BaseAnalyzer.current_run_id (base a).
Definition daq (a : analyzer) : option daq_handle := BaseAnalyzer.daq (base a).

(** [a.start(run_id, daq)], resolved by the class of [a]. *)
Definition start (a : analyzer) (run_id : option UUID) (daq : option daq_handle)
    (w : world) : analyzer * world :=
  match a with
  | ABase b => let '(b, w) := BaseAnalyzer.start b run_id daq w in (ABase b, w)
  | ADummy b => let '(b, w) := BaseAnalyzer.start b run_id daq w in (ADummy b, w)
  | ARate r => let '(r, w) := RateAnalyzer.start r run_id daq w in (ARate r, w)
  | ADecay d => let '(d, w) := DecayAnalyzer.start d run_id daq w in (ADecay d, w)
  | AVelocity v =>
      let '(v, w) := VelocityAnalyzer.start v run_id daq w in (AVelocity v, w)
  | APulse b => let '(b, w) := PulseAnalyzer.start b run_id daq w in (APulse b, w)
  end.

(** [a.stop()] *)
Definition stop (a : analyzer) (w : world) : result unit * analyzer * world :=
  match a with
  | ABase b => let '(b, w) := BaseAnalyzer.stop b w in (Ok tt, ABase b, w)
  | ADummy b => let '(b, w) := BaseAnalyzer.stop b w in (Ok tt, ADummy b, w)
  | ARate r => let '(res, r, w) := RateAnalyzer.stop r w in (res, ARate r, w)
  | ADecay d => let '(d, w) := DecayAnalyzer.stop d w in (Ok tt, ADecay d, w)
  | AVelocity v => let '(v, w) := VelocityAnalyzer.stop v w in (Ok tt, AVelocity v, w)
  | APulse b => let '(b, w) := PulseAnalyzer.stop b w in (Ok tt, APulse b, w)
  end.

(** [a.finish()] *)
Definition finish (a : analyzer) (w : world) : analyzer * world :=
  match a with
  | ADecay d => let '(d, w) := DecayAnalyzer.finish d w in (ADecay d, w)
  | _ => (a, BaseAnalyzer.finish (base a) w)
  end.

(** [a.publish(data, data_type)] *)
Definition publish (a : analyzer) (data : pyval) (data_type : DataTypes)
    (w : world) : world :=
  BaseAnalyzer.publish (base a) data data_type w.

(** [a(msg)], that is [a.calculate(msg)]. *)
Definition calculate (a : analyzer) (msg : envelope) (w : world)
  : result bool * analyzer * world :=
  match a with
  | ABase b => (Ok true, a, w)
  | ADummy b => let '(res, w) := DummyAnalyzer.calculate b msg w in (res, a, w)
  | ARate r => let '(res, r) := RateAnalyzer.calculate r msg in (res, ARate r, w)
  | ADecay d =>
      let '(res, d, w) := DecayAnalyzer.calculate d msg w in (res, ADecay d, w)
  | AVelocity v =>
      let '(res, v, w) := VelocityAnalyzer.calculate v msg w in (res, AVelocity v, w)
  | APulse b => let '(res, w) := PulseAnalyzer.calculate b msg w in (res, a, w)
  end.

(** [a.disabled = val]: the property setter.  Only the objects [True] and
    [False] have an effect; re-enabling calls the [start] of the class of
    [a] with the remembered arguments. *)
Definition set_disabled (a : analyzer) (val : pyval) (w : world) : analyzer * world :=
  match val with
  | VBool true =>
      let '(b, w) := BaseAnalyzer.disable (base a) w in
      (set_base b a, w)
  | VBool false =>
      let a := set_base (BaseAnalyzer.set_disabled false (base a)) a in
      match BaseAnalyzer._last_run_id (base a) with
      | Some run_id => start a (Some run_id) (BaseAnalyzer._last_daq (base a)) w
      | None => (a, w)
      end
  | _ => (a, w)
  end.

Definition disable (a : analyzer) (w : world) : analyzer * world :=
  set_disabled a (VBool true) w.
Definition enable (a : analyzer) (w : world) : analyzer * world :=
  set_disabled a (VBool false) w.

End Analyzer.

(** ** analyzers.py: construction with default arguments *)

(** The list objects created when the module is loaded: the default value
    [[]] of the [consumers] parameter of each [__init__] is evaluated once,
    at the definition of the function. *)
Record defaults := {
  default_BaseAnalyzer : loc;
  default_DummyAnalyzer : loc;
  default_RateAnalyzer : loc;
  default_DecayAnalyzer : loc;
  default_VelocityAnalyzer : loc;
  default_PulseAnalyzer : loc }.

(** Loading [analyzers.py]. *)
Definition load_analyzers (w : world) : defaults * world :=
  let '(l1, w) := alloc [] w in
  let '(l2, w) := alloc [] w in
  let '(l3, w) := alloc [] w in
  let '(l4, w) := alloc [] w in
  let '(l5, w) := alloc [] w in
  let '(l6, w) := alloc [] w in
  ({| default_BaseAnalyzer := l1; default_DummyAnalyzer := l2;
      default_RateAnalyzer := l3; default_DecayAnalyzer := l4;
      default_VelocityAnalyzer := l5; default_PulseAnalyzer := l6 |}, w).

(** The constructor calls [Class(consumers)] and [Class()]: [consumers] is
    the list object passed, or the default one of that [__init__].  A
    subclass passes its own [consumers] on to [BaseAnalyzer.__init__]. *)
Module New.

Definition BaseAnalyzer (d : defaults) (consumers : option loc) : analyzer :=
  ABase (BaseAnalyzer.init "BaseAnalyzer" []
           (default (default_BaseAnalyzer d) consumers)).

Definition DummyAnalyzer (d : defaults) (consumers : option loc) : analyzer :=
  ADummy (DummyAnalyzer.init (default (default_DummyAnalyzer d) consumers)).

Definition RateAnalyzer (d : defaults) (consumers : option loc)
    (time_window : float) (w : world) : analyzer * world :=
  let '(r, w) :=
    RateAnalyzer.init (default (default_RateAnalyzer d) consumers) time_window w in
  (ARate r, w).

Definition DecayAnalyzer (d : defaults) (consumers : option loc)
    (trig : decay_trigger) (w : world) : analyzer * world :=
  let '(x, w) :=
    DecayAnalyzer.init (default (default_DecayAnalyzer d) consumers) trig w in
  (ADecay x, w).

Definition VelocityAnalyzer (d : defaults) (consumers : option loc)
    (trig : velocity_trigger) (w : world) : analyzer * world :=
  let '(x, w) :=
    VelocityAnalyzer.init (default (default_VelocityAnalyzer d) consumers) trig w in
  (AVelocity x, w).

Definition PulseAnalyzer (d : defaults) (consumers : option loc) : analyzer :=
  APulse (PulseAnalyzer.init (default (default_PulseAnalyzer d) consumers)).

End New.

(** [a.consumers.append(c)] *)
Definition add_consumer (a : analyzer) (c : objref) (w : world) : world :=
  list_append (BaseAnalyzer.consumers (Analyzer.base a)) c w.

(** The consumers registered with [a]. *)
Definition consumers_of (a : analyzer) (w : world) : list objref :=
  deref w (BaseAnalyzer.consumers (Analyzer.base a)).

(** ** consumers.py: [FileConsumer] *)

(** What [file.write] received; the text formatting is kept symbolic. *)
Inductive line :=
| RawLine (data : string)
| RateLine (query_time : pyval) (rates counts : list pynum) (time_window : pynum)
| VelocityLine (event_time : pyval) (flight_time : pyval)
| DecayLine (event_time : pyval) (decay_time : pynum)
| PulseLine (event_time : pyval) (pulse_widths : list pyval).

(** The name [create_path] gives a file: directory, start date, run id and
    data type; the date formatting is kept symbolic. *)
Record file_name := {
  dir_name : string * string;
  start_date : Z;
  name_run_id : option UUID;
  name_data_type : DataTypes }.

(** A file object opened in append mode. *)
Record file_obj := { name : file_name; closed : bool; written : list line }.

(** The file objects created so far, by handle, and whether [open] would
    succeed for a name ([IOError] otherwise). *)
Record filesystem := { files : list file_obj; can_open : file_name -> bool }.

Module FileConsumer.

(** [open_files] maps an analyzer id to a dict from data type to file
    handle (in insertion order). *)
Record t := {
  data_dir : string;
  open_files : gmap string (list (DataTypes * nat)) }.

Definition set_open_files (v : gmap string (list (DataTypes * nat))) (self : t) : t :=
  {| data_dir := data_dir self; open_files := v |}.

(** [__init__(self, data_dir, logger)] *)
Definition init (data_dir : string) : t :=
  {| data_dir := data_dir; open_files := ∅ |}.

(** [d.get(dt, None)] on an inner dict. *)
Fixpoint handle_of (d : list (DataTypes * nat)) (dt : DataTypes) : option nat :=
  match d with
  | [] => None
  | (k, h) :: d' => if decide (k = dt) then Some h else handle_of d' dt
  end.

(** [d[dt] = h] on an inner dict. *)
Fixpoint handle_set (d : list (DataTypes * nat)) (dt : DataTypes) (h : nat)
  : list (DataTypes * nat) :=
  match d with
  | [] => [(dt, h)]
  | (k, h') :: d' =>
      if decide (k = dt) then (k, h) :: d' else (k, h') :: handle_set d' dt h
  end.

(** [create_path(self, run_id, analyzer_id, data_type)]; the directory is
    created when missing, which the model does not track. *)
Definition create_path (self : t) (run_id : option UUID) (analyzer_id : string)
    (data_type : DataTypes) (w : world) : file_name * world :=
  let '(now, w) := utcnow w in
  ({| dir_name := (data_dir self, analyzer_id); start_date := now;
      name_run_id := run_id; name_data_type := data_type |}, w).

(** The loop of [start]: [for dt in expected_data_types]. *)
Fixpoint open_all (self : t) (run_id : option UUID) (analyzer_id : string)
    (types : list DataTypes) (w : world) (fs : filesystem)
  : t * world * filesystem :=
  match types with
  | [] => (self, w, fs)
  | dt :: types' =>
      let '(path, w) := create_path self run_id analyzer_id dt w in
      if can_open fs path then
        let h := length (files fs) in
        let fs := {| files := files fs ++ [{| name := path; closed := false; written := [] |}];
                     can_open := can_open fs |} in
        let inner := default [] (open_files self !! analyzer_id) in
        let self :=
          set_open_files (<[analyzer_id := handle_set inner dt h]> (open_files self)) self in
        open_all self run_id analyzer_id types' w fs
      else open_all self run_id analyzer_id types' w fs
  end.

(** [start(self, run_id, analyzer_id, expected_data_types)] *)
Definition start (self : t) (run_id : option UUID) (analyzer_id : string)
    (expected_data_types : list DataTypes) (w : world) (fs : filesystem)
  : t * world * filesystem :=
  let self := set_open_files (<[analyzer_id := []]> (open_files self)) self in
  open_all self run_id analyzer_id expected_data_types w fs.

(** [file.close()] on each handle of an inner dict. *)
Definition close_handle (h : nat) (fs : filesystem) : filesystem :=
  {| files :=
       match files fs !! h with
       | Some f => <[h := {| name := name f; closed := true; written := written f |}]> (files fs)
       | None => files fs
       end;
     can_open := can_open fs |}.

Definition close_inner (d : list (DataTypes * nat)) (fs : filesystem) : filesystem :=
  fold_left (fun fs kh => close_handle (snd kh) fs) d fs.

(** [close_files(self, analyzer_id)]: [Some aid] closes the files of one
    analyzer ([KeyError] when it has no record), [None] closes them all. *)
Definition close_files (self : t) (analyzer_id : option string) (fs : filesystem)
  : result unit * t * filesystem :=
  match analyzer_id with
  | Some aid =>
      match open_files self !! aid with
      | None => (Raise KeyError, self, fs)
      | Some inner =>
          (Ok tt, set_open_files (delete aid (open_files self)) self,
           close_inner inner fs)
      end
  | None =>
      (Ok tt, set_open_files ∅ self,
       fold_left (fun fs kv => close_inner (snd kv) fs)
                 (map_to_list (open_files self)) fs)
  end.

(** [stop(self, run_id, analyzer_id)] *)
Definition stop (self : t) (run_id : option UUID) (analyzer_id : string)
    (fs : filesystem) : result unit * t * filesystem :=
  close_files self (Some analyzer_id) fs.

(** [finish(self, analyzer_id)] *)
Definition finish (self : t) (analyzer_id : string) : t := self.

(** [file.write(...)] on an open handle. *)
Definition write (h : nat) (l : line) (fs : filesystem) : result unit * filesystem :=
  match files fs !! h with
  | Some f =>
      if closed f then (Raise ValueError, fs)
      else (Ok tt,
            {| files := <[h := {| name := name f; closed := false;
                                  written := written f ++ [l] |}]> (files fs);
               can_open := can_open fs |})
  | None => (Raise ValueError, fs)
  end.

(** What the format operators accept. *)
Definition as_number (v : pyval) : result pynum :=
  match v with
  | VNum n => Ok n
  | VBool b => Ok (PInt (if b then 1 else 0))
  | _ => Raise TypeError
  end.

Definition as_list (v : pyval) : result (list pyval) :=
  match v with
  | VList l => Ok l
  | _ => Raise TypeError
  end.

(** [t.strftime(...)] needs a datetime. *)
Definition as_datetime (v : pyval) : result pyval :=
  match v with
  | VDatetime _ | VUtcFromTimestamp _ => Ok v
  | _ => Raise AttributeError
  end.

(** [[l[0], ..., l[4]]] as numbers. *)
Definition first_five (l : pyval) : result (list pynum) :=
  rbind (as_list l) (fun l =>
    mapM (fun i => rbind (index l i) as_number) (seq 0 5)).

(** The typed handlers; [aid] is [meta.get('analyzer_id')]. *)
Definition push_raw (self : t) (data : pyval) (aid : string) (fs : filesystem)
  : result unit * filesystem :=
  match open_files self !! aid with
  | None => (Ok tt, fs)
  | Some inner =>
      match handle_of inner RAW with
      | Some file =>
          match data with
          | VStr s => write file (RawLine s) fs
          | _ => (Raise TypeError, fs)
          end
      | None => (Ok tt, fs)
      end
  end.

Definition push_rate (self : t) (rates counts time_window query_time : pyval)
    (aid : string) (fs : filesystem) : result unit * filesystem :=
  match open_files self !! aid with
  | None => (Ok tt, fs)
  | Some inner =>
      match handle_of inner RATE with
      | Some file =>
          match rbind (as_datetime query_time) (fun qt =>
                rbind (first_five rates) (fun rs =>
                rbind (first_five counts) (fun cs =>
                rbind (as_number time_window) (fun tw =>
                Ok (RateLine qt rs cs tw))))) with
          | Ok l => write file l fs
          | Raise e => (Raise e, fs)
          end
      | None => (Ok tt, fs)
      end
  end.

Definition push_velocity (self : t) (flight_time event_time : pyval)
    (aid : string) (fs : filesystem) : result unit * filesystem :=
  match open_files self !! aid with
  | None => (Ok tt, fs)
  | Some inner =>
      match handle_of inner VELOCITY with
      | Some file =>
          match as_datetime event_time with
          | Ok et => write file (VelocityLine et flight_time) fs
          | Raise e => (Raise e, fs)
          end
      | None => (Ok tt, fs)
      end
  end.

Definition push_decay (self : t) (decay_time event_time : pyval)
    (aid : string) (fs : filesystem) : result unit * filesystem :=
  match open_files self !! aid with
  | None => (Ok tt, fs)
  | Some inner =>
      match handle_of inner DECAY with
      | Some file =>
          match rbind (as_datetime event_time) (fun et =>
                rbind (as_number decay_time) (fun d => Ok (DecayLine et d))) with
          | Ok l => write file l fs
          | Raise e => (Raise e, fs)
          end
      | None => (Ok tt, fs)
      end
  end.

Definition push_pulse (self : t) (pulse_widths event_time : pyval)
    (aid : string) (fs : filesystem) : result unit * filesystem :=
  match open_files self !! aid with
  | None => (Ok tt, fs)
  | Some inner =>
      match handle_of inner PULSE with
      | Some file =>
          match rbind (as_datetime event_time) (fun et =>
                match pulse_widths with
                | VDict d => Ok (PulseLine et (map snd d))
                | _ => Raise AttributeError
                end) with
          | Ok l => write file l fs
          | Raise e => (Raise e, fs)
          end
      | None => (Ok tt, fs)
      end
  end.

(** [data.get(key)]: [data] must be a dict. *)
Definition get (data : pyval) (key : string) : result pyval :=
  match data with
  | VDict d => Ok (dict_get d key)
  | _ => Raise AttributeError
  end.

(** [AbstractMuonicConsumer.push(self, data, data_type, run_id, analyzer_id)]:
    the arguments of the selected handler are evaluated, then the handler
    runs. *)
Definition push (self : t) (data : pyval) (data_type : DataTypes)
    (run_id : option UUID) (analyzer_id : string) (fs : filesystem)
  : result unit * filesystem :=
  match data_type with
  | RAW => push_raw self data analyzer_id fs
  | RATE =>
      match rbind (get data "rates") (fun r =>
            rbind (as_list r) (fun r =>
            rbind (get data "max_rate") (fun mx =>
            rbind (get data "min_rate") (fun mn =>
            rbind (get data "counts") (fun c =>
            rbind (get data "time_window") (fun tw =>
            rbind (get data "query_time") (fun qt =>
            Ok (VList (r ++ [mx] ++ [mn]), c, tw, qt)))))))) with
      | Ok (r, c, tw, qt) => push_rate self r c tw qt analyzer_id fs
      | Raise e => (Raise e, fs)
      end
  | DECAY =>
      match rbind (get data "decay_time") (fun d =>
            rbind (get data "event_time") (fun e => Ok (d, e))) with
      | Ok (d, e) => push_decay self d e analyzer_id fs
      | Raise e => (Raise e, fs)
      end
  | VELOCITY =>
      match rbind (get data "flight_time") (fun d =>
            rbind (get data "event_time") (fun e => Ok (d, e))) with
      | Ok (d, e) => push_velocity self d e analyzer_id fs
      | Raise e => (Raise e, fs)
      end
  | PULSE =>
      match rbind (get data "pulse_widths") (fun d =>
            rbind (get data "event_time") (fun e => Ok (d, e))) with
      | Ok (d, e) => push_pulse self d e analyzer_id fs
      | Raise e => (Raise e, fs)
      end
  end.

End FileConsumer.

(** ** consumers.py: [BufferedConsumer] *)

Module BufferedConsumer.

(** A queue item [[data, data_type, run_id, analyzer_id]]. *)
Definition item : Type := pyval * DataTypes * option UUID * string.

(** Where the thread running [_process_data] is: before [queue.get()],
    inside [for consumer in self.consumers] with the consumers still to be
    called, or gone. *)
Inductive worker_pc :=
| LoopHead
| Forwarding (data : item) (rest : list objref).

(** Where a thread inside [stop(run_id, analyzer_id)] is: not inside,
    waiting in [queue.join()], before [queue.put(None)], waiting in
    [process_thread.join()], inside the loop over the consumers, or stopped
    by an exception. *)
Inductive caller_pc :=
| Idle
| QueueJoin (run_id : option UUID) (analyzer_id : string)
| PutPoison (run_id : option UUID) (analyzer_id : string)
| ThreadJoin (run_id : option UUID) (analyzer_id : string)
| ForwardStop (run_id : option UUID) (analyzer_id : string) (rest : list objref)
| Failed (e : exn).

(** The attributes of a [BufferedConsumer], the state of its queue object,
    where its two kinds of threads are, and a history of what happened:
    - [queue], [unfinished_tasks]: the items of [self.queue] (a [None] item
      is the poison) and its count of unfinished tasks;
    - [worker]: where the thread running [_process_data] is;
    - [caller]: where the thread that called [stop] is;
    - [log]: the calls made on the wrapped consumers, oldest first;
    - [puts], [gets]: every [put] on and [get] from the current queue
      object, oldest first;
    - [log_mark]: the length of [log] when the current queue object was
      created;
    - [stop_mark]: the items put on the current queue object before the
      call of [stop] that brought [analyzer_count] to zero. *)
Record t := {
  consumers : list objref;
  queue : list (option item);
  unfinished_tasks : nat;
  _buffer_size : Z;
  cancel : bool;
  analyzer_count : Z;
  _joinable : bool;
  process_thread : thread_state;
  worker : worker_pc;
  caller : caller_pc;
  log : list (objref * consumer_call);
  puts : list (option item);
  gets : list (option item);
  log_mark : nat;
  stop_mark : option (list item) }.

Definition set_queue (v : list (option item)) (self : t) : t :=
  {| consumers := consumers self; queue := v;
     unfinished_tasks := unfinished_tasks self;
     _buffer_size := _buffer_size self; cancel := cancel self;
     analyzer_count := analyzer_count self; _joinable := _joinable self;
     process_thread := process_thread self; worker := worker self;
     caller := caller self; log := log self; puts := puts self;
     gets := gets self; log_mark := log_mark self;
     stop_mark := stop_mark self |}.

Definition set_unfinished_tasks (v : nat) (self : t) : t :=
  {| consumers := consumers self; queue := queue self; unfinished_tasks := v;
     _buffer_size := _buffer_size self; cancel := cancel self;
     analyzer_count := analyzer_count self; _joinable := _joinable self;
     process_thread := process_thread self; worker := worker self;
     caller := caller self; log := log self; puts := puts self;
     gets := gets self; log_mark := log_mark self;
     stop_mark := stop_mark self |}.

Definition set_analyzer_count (v : Z) (self : t) : t :=
  {| consumers := consumers self; queue := queue self;
     unfinished_tasks := unfinished_tasks self;
     _buffer_size := _buffer_size self; cancel := cancel self;
     analyzer_count := v; _joinable := _joinable self;
     process_thread := process_thread self; worker := worker self;
     caller := caller self; log := log self; puts := puts self;
     gets := gets self; log_mark := log_mark self;
     stop_mark := stop_mark self |}.

Definition set_joinable (v : bool) (self : t) : t :=
  {| consumers := consumers self; queue := queue self;
     unfinished_tasks := unfinished_tasks self;
     _buffer_size := _buffer_size self; cancel := cancel self;
     analyzer_count := analyzer_count self; _joinable := v;
     process_thread := process_thread self; worker := worker self;
     caller := caller self; log := log self; puts := puts self;
     gets := gets self; log_mark := log_mark self;
     stop_mark := stop_mark self |}.

Definition set_process_thread (v : thread_state) (self : t) : t :=
  {| consumers := consumers self; queue := queue self;
     unfinished_tasks := unfinished_tasks self;
     _buffer_size := _buffer_size self; cancel := cancel self;
     analyzer_count := analyzer_count self; _joinable := _joinable self;
     process_thread := v; worker := worker self; caller := caller self;
     log := log self; puts := puts self; gets := gets self;
     log_mark := log_mark self; stop_mark := stop_mark self |}.

Definition set_worker (v : worker_pc) (self : t) : t :=
  {| consumers := consumers self; queue := queue self;
     unfinished_tasks := unfinished_tasks self;
     _buffer_size := _buffer_size self; cancel := cancel self;
     analyzer_count := analyzer_count self; _joinable := _joinable self;
     process_thread := process_thread self; worker := v;
     caller := caller self; log := log self; puts := puts self;
     gets := gets self; log_mark := log_mark self;
     stop_mark := stop_mark self |}.

Definition set_caller (v : caller_pc) (self : t) : t :=
  {| consumers := consumers self; queue := queue self;
     unfinished_tasks := unfinished_tasks self;
     _buffer_size := _buffer_size self; cancel := cancel self;
     analyzer_count := analyzer_count self; _joinable := _joinable self;
     process_thread := process_thread self; worker := worker self;
     caller := v; log := log self; puts := puts self; gets := gets self;
     log_mark := log_mark self; stop_mark := stop_mark self |}.

Definition set_log (v : list (objref * consumer_call)) (self : t) : t :=
  {| consumers := consumers self; queue := queue self;
     unfinished_tasks := unfinished_tasks self;
     _buffer_size := _buffer_size self; cancel := cancel self;
     analyzer_count := analyzer_count self; _joinable := _joinable self;
     process_thread := process_thread self; worker := worker self;
     caller := caller self; log := v; puts := puts self; gets := gets self;
     log_mark := log_mark self; stop_mark := stop_mark self |}.

Definition set_puts (v : list (option item)) (self : t) : t :=
  {| consumers := consumers self; queue := queue self;
     unfinished_tasks := unfinished_tasks self;
     _buffer_size := _buffer_size self; cancel := cancel self;
     analyzer_count := analyzer_count self; _joinable := _joinable self;
     process_thread := process_thread self; worker := worker self;
     caller := caller self; log := log self; puts := v; gets := gets self;
     log_mark := log_mark self; stop_mark := stop_mark self |}.

Definition set_gets (v : list (option item)) (self : t) : t :=
  {| consumers := consumers self; queue := queue self;
     unfinished_tasks := unfinished_tasks self;
     _buffer_size := _buffer_size self; cancel := cancel self;
     analyzer_count := analyzer_count self; _joinable := _joinable self;
     process_thread := process_thread self; worker := worker self;
     caller := caller self; log := log self; puts := puts self; gets := v;
     log_mark := log_mark self; stop_mark := stop_mark self |}.

Definition set_log_mark (v : nat) (self : t) : t :=
  {| consumers := consumers self; queue := queue self;
     unfinished_tasks := unfinished_tasks self;
     _buffer_size := _buffer_size self; cancel := cancel self;
     analyzer_count := analyzer_count self; _joinable := _joinable self;
     process_thread := process_thread self; worker := worker self;
     caller := caller self; log := log self; puts := puts self;
     gets := gets self; log_mark := v; stop_mark := stop_mark self |}.

Definition set_stop_mark (v : option (list item)) (self : t) : t :=
  {| consumers := consumers self; queue := queue self;
     unfinished_tasks := unfinished_tasks self;
     _buffer_size := _buffer_size self; cancel := cancel self;
     analyzer_count := analyzer_count self; _joinable := _joinable self;
     process_thread := process_thread self; worker := worker self;
     caller := caller self; log := log self; puts := puts self;
     gets := gets self; log_mark := log_mark self; stop_mark := v |}.

(** [__init__(self, buffer_size, *consumers)] *)
Definition init (buffer_size : Z) (consumers : list objref) : t :=
  {| consumers := consumers; queue := []; unfinished_tasks := 0;
     _buffer_size := buffer_size; cancel := false; analyzer_count := 0;
     _joinable := false; process_thread := NotStarted;
     worker := LoopHead; caller := Idle; log := [];
     puts := []; gets := []; log_mark := 0; stop_mark := None |}.

(** [queue.full()]: a size of zero or less means no bound. *)
Definition full (self : t) : bool :=
  (0 <? _buffer_size self) && (_buffer_size self <=? Z.of_nat (length (queue self))).

(** [queue.put(x)] once it goes through. *)
Definition put (x : option item) (self : t) : t :=
  set_puts (puts self ++ [x])
    (set_unfinished_tasks (S (unfinished_tasks self))
       (set_queue (queue self ++ [x]) self)).

(** The items among the things put on a queue. *)
Definition items (l : list (option item)) : list item := omap id l.

(** [_init_process_thread(self)] *)
Definition _init_process_thread (self : t) : t :=
  match process_thread self with
  | Running => self
  | _ =>
      let self := if _joinable self then set_joinable false self else self in
      let self := set_queue [] (set_unfinished_tasks 0 self) in
      let self := set_puts [] (set_gets [] (set_log_mark (length (log self)) self)) in
      let self := set_stop_mark None self in
      set_worker LoopHead (set_process_thread Running self)
  end.

(** [start(self, run_id, analyzer_id, expected_data_types)] *)
Definition start (run_id : option UUID) (analyzer_id : string)
    (expected_data_types : list DataTypes) (self : t) : t :=
  let self :=
    set_log (log self ++
             map (fun c => (c, CallStart run_id analyzer_id expected_data_types))
                 (consumers self)) self in
  let self :=
    if analyzer_count self =? 0 then _init_process_thread self else self in
  set_analyzer_count (analyzer_count self + 1) self.

(** [finish(self, analyzer_id)] *)
Definition finish (analyzer_id : string) (self : t) : t :=
  set_log (log self ++ map (fun c => (c, CallFinish analyzer_id)) (consumers self)) self.

(** [push(self, data, data_type, run_id, analyzer_id)]: [None] while the
    queue is full (the caller waits). *)
Definition push (data : item) (self : t) : option t :=
  if full self then None else Some (put (Some data) self).

(** The first statements of [stop(self, run_id, analyzer_id)], up to the
    first wait. *)
Definition stop_call (run_id : option UUID) (analyzer_id : string) (self : t) : t :=
  let self := set_analyzer_count (analyzer_count self - 1) self in
  if analyzer_count self =? 0 then
    set_stop_mark (Some (items (puts self))) (set_caller (QueueJoin run_id analyzer_id) self)
  else set_caller (ForwardStop run_id analyzer_id (consumers self)) self.

(** The next step of the thread inside [stop]; [None] while it waits. *)
Definition stop_resume (self : t) : option t :=
  match caller self with
  | Idle | Failed _ => None
  | QueueJoin r a =>
      if (unfinished_tasks self =? 0)%nat
      then Some (set_caller (PutPoison r a) self) else None
  | PutPoison r a =>
      if full self then None
      else Some (set_caller (ThreadJoin r a) (put None self))
  | ThreadJoin r a =>
      match process_thread self with
      | NotStarted => Some (set_caller (Failed RuntimeError) self)
      | Running => None
      | Finished => Some (set_caller (ForwardStop r a (consumers self)) self)
      end
  | ForwardStop r a (c :: rest) =>
      Some (set_caller (ForwardStop r a rest)
              (set_log (log self ++ [(c, CallStop r a)]) self))
  | ForwardStop r a [] => Some (set_caller Idle self)
  end.

(** The thread leaves [_process_data]. *)
Definition leave (self : t) : t :=
  set_process_thread Finished (set_joinable true self).

(** The next step of the thread running [_process_data]; [None] while it
    waits in [queue.get()] and when no such thread runs. *)
Definition work (self : t) : option t :=
  match process_thread self with
  | Running =>
      match worker self with
      | LoopHead =>
          if cancel self then Some (leave self)
          else
            match queue self with
            | [] => None
            | x :: q =>
                let self := set_gets (gets self ++ [x]) (set_queue q self) in
                match x with
                | None => Some (leave self)
                | Some data => Some (set_worker (Forwarding data (consumers self)) self)
                end
            end
      | Forwarding data (c :: rest) =>
          let '(d, dt, r, a) := data in
          Some (set_worker (Forwarding data rest)
                  (set_log (log self ++ [(c, CallPush d dt r a)]) self))
      | Forwarding data [] =>
          (* queue.task_done(): a ValueError ends the thread *)
          match unfinished_tasks self with
          | O => Some (set_process_thread Finished self)
          | S n => Some (set_worker LoopHead (set_unfinished_tasks n self))
          end
      end
  | _ => None
  end.

(** What can happen next: a complete call of [start] or [finish] or the
    beginning of a call of [stop] by the controlling thread, a [push] by
    any thread, or a step of the stopping thread or of the worker. *)
Inductive action :=
| Start (run_id : option UUID) (analyzer_id : string) (types : list DataTypes)
| Finish (analyzer_id : string)
| Push (data : item)
| Stop (run_id : option UUID) (analyzer_id : string)
| Resume
| Work.

(** The state after an action, or [None] when the action cannot happen
    now. *)
Definition exec (a : action) (self : t) : option t :=
  match a with
  | Start r aid types =>
      match caller self with
      | Idle => Some (start r aid types self)
      | _ => None
      end
  | Finish aid =>
      match caller self with
      | Idle => Some (finish aid self)
      | _ => None
      end
  | Push data => push data self
  | Stop r aid =>
      match caller self with
      | Idle => Some (stop_call r aid self)
      | _ => None
      end
  | Resume => stop_resume self
  | Work => work self
  end.

(** Running a schedule. *)
Fixpoint run (acts : list action) (self : t) : option t :=
  match acts with
  | [] => Some self
  | a :: acts' =>
      match exec a self with
      | Some self' => run acts' self'
      | None => None
      end
  end.

(** The states a buffered consumer can be in. *)
Inductive reachable (buffer_size : Z) (cs : list objref) : t -> Prop :=
| reachable_init : reachable buffer_size cs (init buffer_size cs)
| reachable_step s a s' :
    reachable buffer_size cs s -> exec a s = Some s' ->
    reachable buffer_size cs s'.

(** The [push] calls made on the wrapped consumers since the current
    queue object was created. *)
Definition pushes_of (l : list (objref * consumer_call)) : list (objref * item) :=
  omap (fun e =>
          match snd e with
          | CallPush d dt r a => Some (fst e, (d, dt, r, a))
          | _ => None
          end) l.

Definition forwarded (self : t) : list (objref * item) :=
  pushes_of (drop (log_mark self) (log self)).

(** The items consumer [c] received, in order. *)
Definition received (c : objref) (self : t) : list item :=
  map snd (filter (fun e => fst e = c) (forwarded self)).

End BufferedConsumer.

(** ** app.py: [App] *)

Module App.

(** What [daq.get(0)] gives: a line, or the [DAQIOError] exception. *)
Inductive daq_read :=
| Line (s : string)
| DAQIOError.

(** The pulse extractor object ([utils.PulseExtractor], not part of these
    sources): its state and its [__call__(msg)], which may change the
    envelope. *)
Record PulseExtractor := {
  extractor_state : pyval;
  extractor_call : pyval -> envelope -> result bool * envelope * pyval }.

(** An object of the chain [self.analyzers]: one of the two bound methods
    of the app, the pulse extractor, or an analyzer. *)
Inductive callable :=
| GetThresholdsFromMsg
| GetChannelsFromMsg
| Extractor (e : PulseExtractor)
| AnalyzerObj (a : analyzer).

(** [isinstance(x, BaseAnalyzer)] *)
Definition is_analyzer (x : callable) : bool :=
  match x with AnalyzerObj _ => true | _ => false end.

(** The attributes of an [App].  [_settings] is the dict object
    [App._default_settings] of the class. *)
Record t := {
  daq : option daq_handle;
  analyzers : loc;
  _settings : gmap string pyval;
  running : bool;
  last_daq_msg : pyval }.

Definition set_daq (v : option daq_handle) (self : t) : t :=
  {| daq := v; analyzers := analyzers self; _settings := _settings self;
     running := running self; last_daq_msg := last_daq_msg self |}.

Definition set_settings (v : gmap string pyval) (self : t) : t :=
  {| daq := daq self; analyzers := analyzers self; _settings := v;
     running := running self; last_daq_msg := last_daq_msg self |}.

Definition set_running (v : bool) (self : t) : t :=
  {| daq := daq self; analyzers := analyzers self;
     _settings := _settings self; running := v;
     last_daq_msg := last_daq_msg self |}.

Definition set_last_daq_msg (v : pyval) (self : t) : t :=
  {| daq := daq self; analyzers := analyzers self;
     _settings := _settings self; running := running self;
     last_daq_msg := v |}.

(** The interpreter state the app acts on: the app, the world of the
    analyzers, the objects by reference, the lines the transport will
    deliver (one batch for each time [data_available()] turns true), and the
    objects called by [process_incoming], oldest first. *)
Record state := {
  app : t;
  w : world;
  objects : list callable;
  incoming : list (list daq_read);
  invoked : list objref }.

Definition with_app (v : t) (st : state) : state :=
  {| app := v; w := w st; objects := objects st;
     incoming := incoming st; invoked := invoked st |}.

Definition with_w (v : world) (st : state) : state :=
  {| app := app st; w := v; objects := objects st;
     incoming := incoming st; invoked := invoked st |}.

Definition with_objects (v : list callable) (st : state) : state :=
  {| app := app st; w := w st; objects := v; incoming := incoming st;
     invoked := invoked st |}.

Definition with_incoming (v : list (list daq_read)) (st : state) : state :=
  {| app := app st; w := w st; objects := objects st; incoming := v;
     invoked := invoked st |}.

Definition with_invoked (v : list objref) (st : state) : state :=
  {| app := app st; w := w st; objects := objects st;
     incoming := incoming st; invoked := v |}.

Definition _default_settings : gmap string pyval :=
  list_to_map
    [("write_daq_status", VBool false); ("time_window", VFloat 5%float);
     ("meas_duration", VNone); ("gate_width", VFloat 0%float);
     ("veto", VBool false); ("veto_ch0", VBool false);
     ("veto_ch1", VBool false); ("veto_ch2", VBool false);
     ("active_ch0", VBool true); ("active_ch1", VBool true);
     ("active_ch2", VBool true); ("active_ch3", VBool true);
     ("coincidence0", VBool true); ("coincidence1", VBool false);
     ("coincidence2", VBool false); ("coincidence3", VBool false);
     ("threshold_ch0", VInt 300); ("threshold_ch1", VInt 300);
     ("threshold_ch2", VInt 300); ("threshold_ch3", VInt 300)].

(** [update_setting(self, key, value)] for a key that is a string. *)
Definition update_setting (key : string) (value : pyval)
    (settings : gmap string pyval) : gmap string pyval :=
  <[key := value]> settings.


(** Truth value of an object. *)
Definition truthy (v : pyval) : bool :=
  match v with
  | VNone => false
  | VBool b => b
  | VNum (PInt z) => negb (z =? 0)
  | VNum (PFloat f) => negb (PrimFloat.eqb f 0%float)
  | VStr s => negb (String.eqb s "")
  | VList l => match l with [] => false | _ => true end
  | VDict d => match d with [] => false | _ => true end
  | VDatetime _ | VUtcFromTimestamp _ => true
  end.

(** [update_setting(key, int(text))], then the rest of the method. *)
Definition set_int (key : string) (text : result string) (base : Z)
    (rest : gmap string pyval -> result bool * gmap string pyval)
    (settings : gmap string pyval) : result bool * gmap string pyval :=
  match rbind text (int_of_str base) with
  | Raise e => (Raise e, settings)
  | Ok v => rest (update_setting key (VInt v) settings)
  end.

(** [get_thresholds_from_msg(self, msg)] on the raw line. *)
Definition get_thresholds_from_msg (msg : string) (settings : gmap string pyval)
  : result bool * gmap string pyval :=
  if startswith msg "TL" && (9 <? len msg) then
    let msg := split_on "=" msg in
    set_int "threshold_ch0" (rmap (slice_drop_last 2) (index msg 1)) 10 (
    set_int "threshold_ch1" (rmap (slice_drop_last 2) (index msg 2)) 10 (
    set_int "threshold_ch2" (rmap (slice_drop_last 2) (index msg 3)) 10 (
    set_int "threshold_ch3" (index msg 4) 10 (
    fun settings => (Ok false, settings))))) settings
  else (Ok true, settings).

(** [s[i] == c] *)
Definition char_is (s : string) (i : nat) (c : ascii) : result bool :=
  match String.get i s with
  | Some x => Ok (Ascii.eqb x c)
  | None => Raise IndexError
  end.

(** The loop [for i in range(4)] of [get_channels_from_msg] that writes
    the [active_ch] settings. *)
Fixpoint store_active (range : list nat) (channel_config : string)
    (settings : gmap string pyval) : result unit * gmap string pyval :=
  match range with
  | [] => (Ok tt, settings)
  | i :: range' =>
      match char_is channel_config (3 - i) "1" with
      | Raise e => (Raise e, settings)
      | Ok b =>
          store_active range' channel_config
            (update_setting ("active_ch" +:+ fmt_d i) (VBool b) settings)
      end
  end.

(** The two loops over [enumerate(['00', '01', '10', '11'])]. *)
Definition store_coincidence (coincidence_config : string)
    (settings : gmap string pyval) : gmap string pyval :=
  fold_left
    (fun s iq => update_setting ("coincidence" +:+ fmt_d (fst iq))
                   (VBool (String.eqb coincidence_config (snd iq))) s)
    (imap (fun i q => (i, q)) ["00"; "01"; "10"; "11"]) settings.

Definition store_veto (veto_config : string)
    (settings : gmap string pyval) : gmap string pyval :=
  fold_left
    (fun s iq =>
       if String.eqb veto_config (snd iq) then
         match fst iq with
         | O => update_setting "veto" (VBool false) s
         | S j => update_setting ("veto_ch" +:+ fmt_d j) (VBool true) s
         end
       else s)
    (imap (fun i q => (i, q)) ["00"; "01"; "10"; "11"]) settings.

(** The loop that sets the default veto configuration. *)
Definition store_default_veto (settings : gmap string pyval) : gmap string pyval :=
  fold_left
    (fun s i =>
       match i with
       | O => update_setting "veto" (VBool true) s
       | S j => update_setting ("veto_ch" +:+ fmt_d j) (VBool false) s
       end)
    (seq 0 4) settings.

(** [get_channels_from_msg(self, msg)] on the raw line. *)
Definition get_channels_from_msg (msg : string) (settings : gmap string pyval)
  : result bool * gmap string pyval :=
  if startswith msg "DC " && (25 <? len msg) then
    let msg := split_on " " msg in
    match
      rbind (index msg 4) (fun f4 =>
      rbind (index (split_on "=" f4) 1) (fun hi =>
      rbind (index msg 3) (fun f3 =>
      rbind (index (split_on "=" f3) 1) (fun lo =>
      let coincidence_time := hi +:+ lo in
      rbind (index msg 1) (fun f1 =>
      rbind (int_of_str 16 (slice_from 3 f1)) (fun c0 =>
      let msg := zfill 8 (slice_from 2 (bin c0)) in
      rbind (int_of_str 16 coincidence_time) (fun gate =>
      Ok (msg, gate))))))))
    with
    | Raise e => (Raise e, settings)
    | Ok (msg, gate) =>
        let veto_config := slice 0 2 msg in
        let coincidence_config := slice 2 4 msg in
        let channel_config := slice 4 8 msg in
        let settings := update_setting "gate_width" (VInt (gate * 10)) settings in
        let settings := store_default_veto settings in
        match store_active (seq 0 4) channel_config settings with
        | (Raise e, settings) => (Raise e, settings)
        | (Ok _, settings) =>
            let settings := store_coincidence coincidence_config settings in
            let settings := store_veto veto_config settings in
            (Ok false, settings)
        end
    end
  else (Ok true, settings).

(** [x(msg)] for an object [x] of the chain, held under reference [r]. *)
Definition call (r : objref) (x : callable) (msg : envelope) (st : state)
  : result bool * envelope * state :=
  match x with
  | GetThresholdsFromMsg =>
      let '(res, settings) := get_thresholds_from_msg (raw msg) (_settings (app st)) in
      (res, msg, with_app (set_settings settings (app st)) st)
  | GetChannelsFromMsg =>
      let '(res, settings) := get_channels_from_msg (raw msg) (_settings (app st)) in
      (res, msg, with_app (set_settings settings (app st)) st)
  | Extractor e =>
      let '(res, msg, es) := extractor_call e (extractor_state e) msg in
      (res, msg,
       with_objects
         (<[r := Extractor {| extractor_state := es;
                              extractor_call := extractor_call e |}]> (objects st)) st)
  | AnalyzerObj a =>
      let '(res, a, w) := Analyzer.calculate a msg (w st) in
      (res, msg, with_w w (with_objects (<[r := AnalyzerObj a]> (objects st)) st))
  end.

(** The guard of the loop body: [not isinstance(x, BaseAnalyzer) or x.active]. *)
Definition eligible (x : callable) : bool :=
  match x with
  | AnalyzerObj a => Analyzer.active a
  | _ => true
  end.

(** The loop [for analyzer in self.analyzers] of [process_incoming] for one
    envelope, over the references [refs] still to visit. *)
Fixpoint chain (refs : list objref) (msg : envelope) (st : state)
  : result unit * envelope * state :=
  match refs with
  | [] => (Ok tt, msg, st)
  | r :: refs' =>
      match objects st !! r with
      | None => (Raise RuntimeError, msg, st)
      | Some x =>
          if eligible x then
            let '(res, msg, st) := call r x msg (with_invoked (invoked st ++ [r]) st) in
            match res with
            | Ok true => chain refs' msg st
            | Ok false => (Ok tt, msg, st)
            | Raise e => (Raise e, msg, st)
            end
          else chain refs' msg st
      end
  end.

(** The body of the [while] loop of [process_incoming] for the line [s]. *)
Definition process_line (s : string) (st : state) : result unit * state :=
  let st := with_app (set_last_daq_msg (VStr s) (app st)) st in
  let msg := {| raw := s; pulses := NoPulsesKey |} in
  let '(res, _, st) := chain (deref (w st) (analyzers (app st))) msg st in
  (res, st).

(** The [while self.daq.data_available()] loop of [process_incoming] over
    the reads of the current batch; the reads left over are returned. *)
Fixpoint process_reads (reads : list daq_read) (st : state)
  : result unit * list daq_read * state :=
  match reads with
  | [] => (Ok tt, [], st)
  | DAQIOError :: rest => (Ok tt, rest, st)
  | Line s :: rest =>
      match process_line s st with
      | (Ok _, st) => process_reads rest st
      | (Raise e, st) => (Raise e, rest, st)
      end
  end.

(** [process_incoming(self)] *)
Definition process_incoming (st : state) : result unit * state :=
  match incoming st with
  | [] => (Ok tt, st)
  | batch :: later =>
      let '(res, rest, st) := process_reads batch (with_incoming later st) in
      match rest with
      | [] => (res, st)
      | _ => (res, with_incoming (rest :: incoming st) st)
      end
  end.

(** [add_analyzer(self, analyzer)] *)
Definition add_analyzer (x : objref) (st : state) : state :=
  with_w (list_append (analyzers (app st)) x (w st)) st.

(** [add_analyzers(self, analyzers)]: [self.analyzers.extend(analyzers)] *)
Definition add_analyzers (self_analyzers : loc) (analyzers : loc) (w : world) : world :=
  set_lists (<[self_analyzers := deref w self_analyzers ++ deref w analyzers]> (lists w)) w.

(** The first statements of [__init__(self, options, analyzers, logger)]:
    the chain is a new list object holding the two bound methods and a new
    pulse extractor, extended by the elements of [analyzers] (the list
    passed, or the default list object of [__init__]). *)
Definition init_chain (default_analyzers : loc) (analyzers : option loc)
    (extractor : PulseExtractor) (w : world) (objects : list callable)
  : loc * world * list callable :=
  let n := length objects in
  let objects :=
    objects ++ [GetThresholdsFromMsg; GetChannelsFromMsg; Extractor extractor] in
  let '(l, w) := alloc [n; S n; S (S n)] w in
  (l, add_analyzers l (default default_analyzers analyzers) w, objects).

(** [stop(self)] and [close(self)]: the loops over the analyzers. *)
Fixpoint stop_all (refs : list objref) (st : state) : result unit * state :=
  match refs with
  | [] => (Ok tt, st)
  | r :: refs' =>
      match objects st !! r with
      | Some (AnalyzerObj a) =>
          let '(res, a, w) := Analyzer.stop a (w st) in
          let st := with_w w (with_objects (<[r := AnalyzerObj a]> (objects st)) st) in
          match res with
          | Ok _ => stop_all refs' st
          | Raise e => (Raise e, st)
          end
      | _ => stop_all refs' st
      end
  end.

Definition stop (st : state) : result unit * state :=
  if running (app st) then
    let st := with_app (set_running false (app st)) st in
    stop_all (deref (w st) (analyzers (app st))) st
  else (Ok tt, st).

Fixpoint finish_all (refs : list objref) (st : state) : state :=
  match refs with
  | [] => st
  | r :: refs' =>
      match objects st !! r with
      | Some (AnalyzerObj a) =>
          let '(a, w) := Analyzer.finish a (w st) in
          finish_all refs' (with_w w (with_objects (<[r := AnalyzerObj a]> (objects st)) st))
      | _ => finish_all refs' st
      end
  end.

Definition close (st : state) : result unit * state :=
  match stop st with
  | (Ok _, st) => (Ok tt, finish_all (deref (w st) (analyzers (app st))) st)
  | (Raise e, st) => (Raise e, st)
  end.

End App.

(** ** Scenarios and observations used by the statements *)

(** The call [call] made on each of the consumers [cs], in their order. *)
Definition fan_out (cs : list objref) (call : consumer_call)
  : list (objref * consumer_call) :=
  map (fun c => (c, call)) cs.

(** [a.start(r, t); a.disabled = True; a.disabled = False; a.stop()] *)
Definition start_disable_enable_stop (a : analyzer) (r : UUID)
    (t : option daq_handle) (w : world) : result unit * analyzer * world :=
  let '(a, w) := Analyzer.start a (Some r) t w in
  let '(a, w) := Analyzer.disable a w in
  let '(a, w) := Analyzer.enable a w in
  Analyzer.stop a w.

(** An analyzer is never both active and disabled. *)
Definition consistent (a : analyzer) : Prop :=
  Analyzer.active a && Analyzer.disabled a = false.

(** A world with one list object holding the consumers 7 and 9, a
    provider, and analyzers registered with that list. *)
Definition example_world : world :=
  {| lists := [[7; 9]%nat]; consumer_log := []; daq_log := [];
     utc_clock := fun n => 1000 * Z.of_nat n; utc_reads := 0;
     time_clock := fun _ => 1000%float; time_reads := 0 |}.

Definition example_daq : daq_handle := {| daq_id := 1; is_provider := true |}.

Definition example_decay : analyzer :=
  ADecay (DecayAnalyzer.init 0%nat (fun _ _ _ _ _ _ _ _ _ => None) example_world).1.

Definition example_rate : analyzer :=
  ARate (RateAnalyzer.init 0%nat 1%float example_world).1.

(** The values a counter of the card takes: eight hexadecimal digits. *)
Definition scalar_range (z : Z) : Prop := Z.abs z < 2 ^ 32.

(** The shape [__init__], [start], [query_daq_for_scalars] and [calculate]
    give the attributes of a rate analyzer: two buffers of
    [SCALAR_BUF_SIZE] counters, and times that are the initial [0] or
    floats. *)
Definition zero_or_float (x : pynum) : Prop :=
  x = PInt 0 \/ exists f, x = PFloat f.

Record rate_shape (self : RateAnalyzer.t) : Prop := {
  shape_previous : length (RateAnalyzer.previous_scalars self) = RateAnalyzer.SCALAR_BUF_SIZE;
  shape_previous_range : Forall scalar_range (RateAnalyzer.previous_scalars self);
  shape_buffer : length (RateAnalyzer.scalar_buffer self) = RateAnalyzer.SCALAR_BUF_SIZE;
  shape_last_query_time : zero_or_float (RateAnalyzer.last_query_time self);
  shape_time_window : zero_or_float (RateAnalyzer.time_window self) }.

(** A line is a scalar dump when [calculate] does not return at its first
    test. *)
Definition is_scalar_dump (msg : string) : bool :=
  (2 <=? len msg) && startswith msg "DS".

(** A rate analyzer in its second cycle with the given previous counters
    and query times. *)
Definition rate_in_cycle (previous : list Z) (last_query query : float)
  : RateAnalyzer.t :=
  RateAnalyzer.set_previous_scalars previous
    (RateAnalyzer.set_query_time query
       (RateAnalyzer.set_last_query_time (PFloat last_query)
          (RateAnalyzer.init 0%nat 1%float example_world).1)).

(** A scalar dump with the counters 15, 12, 10, 20 and 13, and one whose
    second counter reads zero. *)
Definition example_dump : envelope :=
  {| raw := "DS S0=0000000F S1=0000000C S2=0000000A S3=00000014 S4=0000000D";
     pulses := NoPulsesKey |}.

Definition example_corrupt_dump : envelope :=
  {| raw := "DS S0=0000000F S1=00000000 S2=0000000A S3=00000014 S4=0000000D";
     pulses := NoPulsesKey |}.

(** The width the specification gives a pulse: falling edge minus leading
    edge, and [0.] for a pulse without falling edge. *)
Definition spec_pulse_width (p : pulse) : result pynum :=
  match p with
  | (le, Some fe) => py_sub fe le
  | (le, None) => Ok (PFloat 0%float)
  end.

(** The dict of width lists for the data channels [0 .. 3]: channel [i]
    has the [i]-th of the lists [wss], the channels beyond have none. *)
Definition spec_widths (wss : list (list pynum)) : PulseAnalyzer.widths_dict :=
  zip (seq 0 (length wss)) wss ++
  map (fun i => (i, [])) (seq (length wss) (4 - length wss)).

(** The commands put on the transport between two worlds, oldest first. *)
Definition commands_since (w0 w1 : world) : list string :=
  map snd (drop (length (daq_log w0)) (daq_log w1)).

(** The value written last to the register [reg] by the commands [cmds],
    a command of the form [WC reg value] being a write of [value] to [reg]. *)
Fixpoint last_write (reg : string) (cmds : list string) : option string :=
  match cmds with
  | [] => None
  | c :: cmds' =>
      match last_write reg cmds' with
      | Some v => Some v
      | None =>
          if startswith c ("WC " +:+ reg +:+ " ") then Some (slice_from 6 c) else None
      end
  end.

(** Data of the shape the analyzers publish under a data type: what the
    argument expressions of [AbstractMuonicConsumer.push] need in order to
    be evaluated. *)
Definition well_shaped (data_type : DataTypes) (data : pyval) : bool :=
  match data_type, data with
  | RAW, _ => true
  | RATE, VDict d => match dict_get d "rates" with VList _ => true | _ => false end
  | _, VDict _ => true
  | _, _ => false
  end.

(** The chain of the app begins with the two bound methods, held under the
    references [th] and [ch], followed by the objects [rest]. *)
Record chain_head (st : App.state) (th ch : objref) (rest : list objref) : Prop := {
  head_refs : deref (App.w st) (App.analyzers (App.app st)) = th :: ch :: rest;
  head_thresholds : App.objects st !! th = Some App.GetThresholdsFromMsg;
  head_channels : App.objects st !! ch = Some App.GetChannelsFromMsg }.

(** An app whose chain is the two bound methods, a pulse extractor that
    finds no pulses, and an active rate analyzer. *)
Definition example_app : App.state :=
  {| App.app :=
       {| App.daq := Some example_daq; App.analyzers := 1%nat;
          App._settings := App._default_settings; App.running := true;
          App.last_daq_msg := VBool false |};
     App.w := set_lists [[7; 9]; [0; 1; 2; 3]]%nat example_world;
     App.objects :=
       [App.GetThresholdsFromMsg; App.GetChannelsFromMsg;
        App.Extractor {| App.extractor_state := VNone;
                         App.extractor_call := fun s msg => (Ok true, msg, s) |};
        App.AnalyzerObj
          (Analyzer.start example_rate (Some 5%N) (Some example_daq) example_world).1];
     App.incoming := [];
     App.invoked := [] |}.

(** ** What holds in every state of a buffered consumer *)

Module BufferedInvariant.
Import BufferedConsumer.

(** The pushes that deliver one item to each of the consumers [cs]. *)
Definition deliver (cs : list objref) (it : item) : list (objref * item) :=
  map (fun c => (c, it)) cs.

(** Whether the worker holds an item it has taken and not yet marked done,
    and whether it has taken the poison. *)
Definition in_flight (s : t) : nat :=
  match worker s with LoopHead => 0 | Forwarding _ _ => 1 end.

Definition has_poison (l : list (option item)) : bool :=
  existsb (fun x => match x with None => true | Some _ => false end) l.

Definition poison_taken (s : t) : nat :=
  if has_poison (gets s) then 1 else 0.

(** The pushes made so far, by where the worker is. *)
Definition forwarded_ok (cs : list objref) (s : t) : Prop :=
  match worker s with
  | LoopHead => forwarded s = flat_map (deliver cs) (items (gets s))
  | Forwarding it rest =>
      exists g served,
        gets s = g ++ [Some it] /\ cs = served ++ rest /\
        forwarded s = flat_map (deliver cs) (items g) ++ deliver served it
  end.

(** The poison has been put after the items [pre ++ racing], [pre] being
    the items put before the call of [stop] (the value [mark] of
    [stop_mark]); [ps] is the history of the queue. *)
Definition poisoned (mark : option (list item)) (ps : list (option item))
    (pre racing : list item) : Prop :=
  exists after,
    mark = Some pre /\
    ps = map Some (pre ++ racing) ++ None :: map Some after.

(** How the worker thread, the thread inside [stop] and the reference
    count go together. *)
Definition mode_ok (cs : list objref) (s : t) : Prop :=
  match process_thread s, caller s with
  | NotStarted, (Idle | ForwardStop _ _ _) => analyzer_count s <= 0
  | Running, (Idle | ForwardStop _ _ _) => 1 <= analyzer_count s /\ has_poison (puts s) = false
  | Running, QueueJoin _ _ =>
      analyzer_count s = 0 /\ has_poison (puts s) = false /\
      exists pre, stop_mark s = Some pre /\ pre `prefix_of` items (puts s)
  | Running, PutPoison _ _ =>
      analyzer_count s = 0 /\ has_poison (puts s) = false /\
      exists pre, stop_mark s = Some pre /\ pre `prefix_of` items (puts s) /\
                  flat_map (deliver cs) pre `prefix_of` forwarded s
  | Running, ThreadJoin _ _ =>
      analyzer_count s = 0 /\ has_poison (gets s) = false /\
      exists pre racing, poisoned (stop_mark s) (puts s) pre racing /\
                         flat_map (deliver cs) pre `prefix_of` forwarded s
  | Finished, (ThreadJoin _ _ | ForwardStop _ _ _ | Idle) =>
      analyzer_count s <= 0 /\
      exists pre racing, poisoned (stop_mark s) (puts s) pre racing /\
                         gets s = map Some (pre ++ racing) ++ [None]
  | _, _ => False
  end.

Record inv (buffer_size : Z) (cs : list objref) (s : t) : Prop := {
  inv_consumers : consumers s = cs;
  inv_buffer_size : _buffer_size s = buffer_size;
  inv_cancel : cancel s = false;
  inv_fifo : puts s = gets s ++ queue s;
  inv_mark : (log_mark s <= length (log s))%nat;
  inv_worker : process_thread s <> Running -> worker s = LoopHead;
  inv_count :
    unfinished_tasks s = (length (queue s) + in_flight s + poison_taken s)%nat;
  inv_forwarded : forwarded_ok cs s;
  inv_mode : mode_ok cs s }.

(** The actions by which [start] is called, and those taken by the worker
    and by the thread inside [stop]. *)
Definition is_start (a : action) : bool :=
  match a with Start _ _ _ => true | _ => false end.

Definition is_own_step (a : action) : bool :=
  match a with Resume | Work => true | _ => false end.

(** The items a schedule pushes, and whether the schedule runs with the
    count of analyzers at one or more after each of its actions. *)
Definition pushed (acts : list action) : list item :=
  omap (fun a => match a with Push data => Some data | _ => None end) acts.

Fixpoint stays_up (acts : list action) (s : t) : bool :=
  match acts with
  | [] => true
  | a :: acts' =>
      match exec a s with
      | Some s' => (1 <=? analyzer_count s') && stays_up acts' s'
      | None => false
      end
  end.

(** [s'] is reached from [s] by steps of the worker and of the thread
    inside [stop] alone. *)
Definition steps_to (s s' : t) : Prop :=
  exists acts, forallb is_own_step acts = true /\ run acts s = Some s'.

(** Left to themselves, the worker exits and [stop] returns. *)
Definition completes (s : t) : Prop :=
  exists s', steps_to s s' /\ process_thread s' = Finished /\ caller s' = Idle.

(** A consumer with room for one item in front of two consumers; one
    analyzer pushes an item, the worker forwards it, the analyzer pushes a
    second item and stops, and the worker and [stop] run to their ends. *)
Definition example_pushes : list item :=
  [(VStr "first", RAW, Some 7%N, "DummyAnalyzer");
   (VStr "second", RAW, Some 7%N, "DummyAnalyzer")].

Definition example_before_stop : list action :=
  [Push (VStr "first", RAW, Some 7%N, "DummyAnalyzer"); Work; Work; Work; Work;
   Push (VStr "second", RAW, Some 7%N, "DummyAnalyzer")].

Definition example_after_stop : list action :=
  [Work; Work; Work; Work; Resume; Resume; Work; Resume; Resume; Resume; Resume].

Definition example_launch : action := Start (Some 7%N) "DummyAnalyzer" [RAW].

Definition example_stopping : t :=
  Eval vm_compute in
    match run (example_launch :: example_before_stop) (init 1 [0; 1]%nat) with
    | Some s => s
    | None => init 1 [0; 1]%nat
    end.

Definition example_stopped : t :=
  Eval vm_compute in
    match run (Stop (Some 7%N) "DummyAnalyzer" :: example_after_stop) example_stopping with
    | Some s => s
    | None => example_stopping
    end.

End BufferedInvariant.

(** ** More observations used by the statements *)

(** A call of [push]. *)
Definition is_push (c : consumer_call) : bool :=
  match c with CallPush _ _ _ _ => true | _ => false end.

(** An active rate analyzer after a complete cycle: previous counters
    [10, 10, 10, 10, 10], the dump [example_dump], and two seconds between
    the queries. *)
Definition example_rate_cycle : RateAnalyzer.t :=
  let r := rate_in_cycle [10; 10; 10; 10; 10] 1000%float 1002%float in
  let b := (BaseAnalyzer.start (RateAnalyzer.base r) (Some 5%N) (Some example_daq)
              example_world).1 in
  (RateAnalyzer.calculate (RateAnalyzer.set_base b r) example_dump).2.

(** A string without whitespace. *)
Definition no_space (s : string) : bool :=
  forallb (fun c => negb (isspace c)) (chars s).

(** The scalar dump whose counter fields hold the texts [h0 .. h4]. *)
Definition scalar_dump (h0 h1 h2 h3 h4 : string) : string :=
  "DS S0=" +:+ h0 +:+ " S1=" +:+ h1 +:+ " S2=" +:+ h2 +:+ " S3=" +:+ h3
  +:+ " S4=" +:+ h4.

(** What the loop of [start] adds for an analyzer: a handle for each type
    it could open a file for, in order; each handle is that of a new file,
    open and empty, named for the analyzer, the run and the type. *)
Definition opened_for (self : FileConsumer.t) (run_id : option UUID) (aid : string)
    (kh : DataTypes * nat) (f : file_obj) : Prop :=
  closed f = false /\ written f = [] /\
  dir_name (name f) = (FileConsumer.data_dir self, aid) /\
  name_run_id (name f) = run_id /\ name_data_type (name f) = kh.1.

(** A file object after [close()]. *)
Definition closed_copy (f : file_obj) : file_obj :=
  {| name := name f; closed := true; written := written f |}.

(** Lines of the card as the scanners of the app expect them, and the
    settings the scanners write. *)
Definition lacks (c : ascii) (s : string) : bool :=
  forallb (fun x => negb (Ascii.eqb x c)) (chars s).


Definition channel_line (c0 c1 c2 c3 : string) : string :=
  "DC C0=" +:+ c0 +:+ " C1=" +:+ c1 +:+ " C2=" +:+ c2 +:+ " C3=" +:+ c3.

Definition threshold_keys : list string :=
  ["threshold_ch0"; "threshold_ch1"; "threshold_ch2"; "threshold_ch3"].


(** * Properties *)

(** ** The analyzer life cycle *)

Lemma base_set_base b a : Analyzer.base (Analyzer.set_base b a) = b.
Proof. destruct a; reflexivity. Qed.

Lemma base_start a r t w :
  Analyzer.base (Analyzer.start a r t w).1 = (BaseAnalyzer.start (Analyzer.base a) r t w).1.
Proof.
  destruct a; simpl.
  all: try (destruct (BaseAnalyzer.start _ r t w) as [b' w'] eqn:E; simpl; try reflexivity).
  - unfold RateAnalyzer.start. rewrite E. simpl.
    unfold RateAnalyzer.init_update_thread. simpl.
    destruct (RateAnalyzer.update_thread r0), (RateAnalyzer._joinable r0); reflexivity.
  - unfold DecayAnalyzer.start. rewrite E. simpl.
    repeat match goal with |- context [BaseAnalyzer.daq_put ?b ?m ?w] => destruct (BaseAnalyzer.daq_put b m w) end. reflexivity.
  - unfold VelocityAnalyzer.start. rewrite E. simpl.
    repeat match goal with |- context [BaseAnalyzer.daq_put ?b ?m ?w] => destruct (BaseAnalyzer.daq_put b m w) end. reflexivity.
  - unfold PulseAnalyzer.start. rewrite E. 
    repeat match goal with |- context [BaseAnalyzer.daq_put ?b ?m ?w] => destruct (BaseAnalyzer.daq_put b m w) end. reflexivity.
Qed.


Ltac unfold_analyzers :=
  unfold Analyzer.enable, Analyzer.disable, Analyzer.set_disabled, Analyzer.start, Analyzer.stop, Analyzer.finish,
    RateAnalyzer.start, RateAnalyzer.stop, RateAnalyzer.init_update_thread,
    DecayAnalyzer.start, DecayAnalyzer.stop, DecayAnalyzer.finish,
    VelocityAnalyzer.start, VelocityAnalyzer.stop,
    PulseAnalyzer.start, PulseAnalyzer.stop,
    BaseAnalyzer.start, BaseAnalyzer.stop, BaseAnalyzer.disable, BaseAnalyzer.finish,
    BaseAnalyzer.daq_put, BaseAnalyzer.notify in *.

Ltac case_base b :=
  destruct b as [nm tys dq act dis lr ld cs cr]; simpl in *.

Lemma start_consumer_log a r t w :
  consumer_log (Analyzer.start a r t w).2 = consumer_log (BaseAnalyzer.start (Analyzer.base a) r t w).2.
Proof.
  destruct a as [b|b|x|x|x|b]; try destruct x as [b]; case_base b; unfold_analyzers; simpl.
  all: destruct dis, act; simpl; try reflexivity.
  all: try (destruct t as [[i []]|]; simpl; reflexivity).
  all: try (destruct dq as [[i []]|]; simpl; reflexivity).
  all: try (destruct update_thread, _joinable; reflexivity).
Qed.

Lemma rate_calculate_base r m : RateAnalyzer.base (RateAnalyzer.calculate r m).2 = RateAnalyzer.base r.
Proof.
  unfold RateAnalyzer.calculate.
  repeat case_match; simpl; reflexivity.
Qed.

Lemma calculate_base a m w : Analyzer.base (Analyzer.calculate a m w).1.2 = Analyzer.base a.
Proof.
  destruct a as [b|b|x|x|x|b]; simpl.
  - reflexivity.
  - destruct (DummyAnalyzer.calculate b m w); reflexivity.
  - pose proof (rate_calculate_base x m). destruct (RateAnalyzer.calculate x m); simpl in *; done.
  - unfold DecayAnalyzer.calculate. repeat case_match; simplify_eq/=; reflexivity.
  - unfold VelocityAnalyzer.calculate. repeat case_match; simplify_eq/=; reflexivity.
  - destruct (PulseAnalyzer.calculate b m w); reflexivity.
Qed.

Lemma observed_app c w l :
  observed c (set_consumer_log (consumer_log w ++ l) w) = observed c w ++ map snd (filter (fun e => fst e = c) l).
Proof. unfold observed. simpl. by rewrite filter_app, map_app. Qed.

Lemma filter_fan_out c cs call :
  NoDup cs -> c ∈ cs ->
  map snd (filter (fun e : objref * consumer_call => fst e = c) (fan_out cs call)) = [call].
Proof.
  induction 1 as [|x cs Hx Hnd IH]; intros Hin; [by apply elem_of_nil in Hin|].
  unfold fan_out in *. simpl. rewrite filter_cons. simpl.
  destruct (decide (x = c)) as [->|Hne].
  - simpl. f_equal. 
    assert (filter (λ e : objref * consumer_call, e.1 = c) (map (λ c0, (c0, call)) cs) = []) as ->; [|done].
    clear IH Hin Hnd. induction cs as [|y cs IH]; [done|]. simpl. rewrite filter_cons. simpl.
    rewrite not_elem_of_cons in Hx. destruct Hx as [Hy Hx]. destruct (decide (y = c)); [congruence|]. by apply IH.
  - apply IH. apply elem_of_cons in Hin. destruct Hin; [congruence|done].
Qed.

Ltac case_analyzer a :=
  let b := fresh "b" in let x := fresh "x" in
  destruct a as [b|b|x|x|x|b]; try destruct x as [b];
  destruct b as [nm tys dq act dis lr ld cs cr]; simpl in *.


Lemma start_super a r t w :
  Analyzer.base (Analyzer.start a r t w).1 = (BaseAnalyzer.start (Analyzer.base a) r t w).1 /\
  consumer_log (Analyzer.start a r t w).2 = consumer_log (BaseAnalyzer.start (Analyzer.base a) r t w).2 /\
  lists (Analyzer.start a r t w).2 = lists w.
Proof.
  case_analyzer a; unfold_analyzers; simpl.
  all: destruct dis, act; simpl; try done.
  all: try (destruct t as [[i []]|]; simpl; done).
  all: try (destruct dq as [[i []]|]; simpl; done).
  all: try (destruct update_thread, _joinable; done).
Qed.

Lemma stop_super a w :
  Analyzer.base (Analyzer.stop a w).1.2 = (BaseAnalyzer.stop (Analyzer.base a) w).1 /\
  consumer_log (Analyzer.stop a w).2 = consumer_log (BaseAnalyzer.stop (Analyzer.base a) w).2 /\
  lists (Analyzer.stop a w).2 = lists w.
Proof.
  case_analyzer a; unfold_analyzers; simpl.
  all: destruct dis, act; simpl; try done.
  all: try (destruct dq as [[i []]|]; simpl; done).
  all: try (destruct update_thread; done).
Qed.

Lemma finish_super a w :
  Analyzer.base (Analyzer.finish a w).1 = Analyzer.base a.
Proof. case_analyzer a; reflexivity. Qed.

Lemma disable_super a w :
  Analyzer.base (Analyzer.set_disabled a (VBool true) w).1 = (BaseAnalyzer.disable (Analyzer.base a) w).1 /\
  (Analyzer.set_disabled a (VBool true) w).2 = (BaseAnalyzer.disable (Analyzer.base a) w).2.
Proof.
  unfold Analyzer.set_disabled. destruct (BaseAnalyzer.disable _ w) as [b' w']. simpl.
  by rewrite base_set_base.
Qed.

Lemma enable_super a w :
  match BaseAnalyzer._last_run_id (Analyzer.base a) with
  | Some run_id =>
      Analyzer.base (Analyzer.set_disabled a (VBool false) w).1 =
        (BaseAnalyzer.start (BaseAnalyzer.set_disabled false (Analyzer.base a))
           (Some run_id) (BaseAnalyzer._last_daq (Analyzer.base a)) w).1 /\
      consumer_log (Analyzer.set_disabled a (VBool false) w).2 =
        consumer_log
          (BaseAnalyzer.start (BaseAnalyzer.set_disabled false (Analyzer.base a))
             (Some run_id) (BaseAnalyzer._last_daq (Analyzer.base a)) w).2 /\
      lists (Analyzer.set_disabled a (VBool false) w).2 = lists w
  | None =>
      Analyzer.base (Analyzer.set_disabled a (VBool false) w).1 =
        BaseAnalyzer.set_disabled false (Analyzer.base a) /\
      (Analyzer.set_disabled a (VBool false) w).2 = w
  end.
Proof.
  unfold Analyzer.set_disabled.
  pose proof (base_set_base (BaseAnalyzer.set_disabled false (Analyzer.base a)) a) as Hb.
  set (a' := Analyzer.set_base _ a) in *. rewrite Hb.
  change (BaseAnalyzer._last_run_id (BaseAnalyzer.set_disabled false (Analyzer.base a)))
    with (BaseAnalyzer._last_run_id (Analyzer.base a)).
  change (BaseAnalyzer._last_daq (BaseAnalyzer.set_disabled false (Analyzer.base a)))
    with (BaseAnalyzer._last_daq (Analyzer.base a)).
  destruct (BaseAnalyzer._last_run_id (Analyzer.base a)) as [run_id|].
  - pose proof (start_super a' (Some run_id) (BaseAnalyzer._last_daq (Analyzer.base a)) w) as H.
    rewrite Hb in H. exact H.
  - done.
Qed.

(** C10: every operation of an analyzer ([start], [stop], setting
    [disabled], [finish], [calculate]; [publish] does not touch the
    analyzer) keeps it from being active and disabled at once.  Setting
    [disabled] to [True] on an active analyzer deactivates it, clears its
    run id and transport and remembers both; [start] on a disabled analyzer
    only remembers its arguments: the active flag keeps its value and no
    consumer is called. *)
Theorem lifecycle_keeps_consistent (a : analyzer) (w : world) :
  consistent a ->
  (forall r t, consistent (Analyzer.start a r t w).1) /\
  consistent (Analyzer.stop a w).1.2 /\
  (forall val, consistent (Analyzer.set_disabled a val w).1) /\
  consistent (Analyzer.finish a w).1 /\
  (forall msg, consistent (Analyzer.calculate a msg w).1.2) /\
  (Analyzer.active a = true ->
   let a' := (Analyzer.set_disabled a (VBool true) w).1 in
   Analyzer.active a' = false /\ Analyzer.disabled a' = true /\
   Analyzer.current_run_id a' = None /\ Analyzer.daq a' = None /\
   BaseAnalyzer._last_run_id (Analyzer.base a') = Analyzer.current_run_id a /\
   BaseAnalyzer._last_daq (Analyzer.base a') = Analyzer.daq a) /\
  (Analyzer.disabled a = true ->
   forall r t,
     let res := Analyzer.start a r t w in
     Analyzer.active res.1 = Analyzer.active a /\
     BaseAnalyzer._last_run_id (Analyzer.base res.1) = r /\
     BaseAnalyzer._last_daq (Analyzer.base res.1) = t /\
     consumer_log res.2 = consumer_log w).
Proof.
  unfold consistent, Analyzer.active, Analyzer.disabled, Analyzer.current_run_id, Analyzer.daq.
  intros Hc. repeat apply conj.
  - intros r t. destruct (start_super a r t w) as [-> _]. unfold BaseAnalyzer.start.
    destruct (Analyzer.base a) as [nm tys dq act dis lr ld cs cr]; simpl in *.
    destruct dis, act; simpl in *; congruence.
  - destruct (stop_super a w) as [-> _]. unfold BaseAnalyzer.stop.
    destruct (Analyzer.base a) as [nm tys dq act dis lr ld cs cr]; simpl in *.
    destruct dis, act; simpl in *; congruence.
  - intros [| [] | | | | | | ]; try exact Hc.
    + destruct (disable_super a w) as [-> _]. unfold BaseAnalyzer.disable.
      destruct (Analyzer.base a) as [nm tys dq act dis lr ld cs cr]; simpl in *.
      destruct act; reflexivity.
    + pose proof (enable_super a w) as H.
      destruct (BaseAnalyzer._last_run_id (Analyzer.base a)); destruct H as [-> _].
      * unfold BaseAnalyzer.start. simpl.
        destruct (BaseAnalyzer._active (Analyzer.base a)); simpl; try reflexivity; apply andb_false_r.
      * apply andb_false_r.
  - by rewrite finish_super.
  - intros msg. by rewrite calculate_base.
  - intros Ha. cbv zeta. destruct (disable_super a w) as [-> _]. unfold BaseAnalyzer.disable.
    rewrite Ha. done.
  - intros Hd r t. cbv zeta. destruct (start_super a r t w) as (-> & -> & _).
    unfold BaseAnalyzer.start. rewrite Hd. done.
Qed.

#[local] Arguments Analyzer.start : simpl never.
#[local] Arguments Analyzer.stop : simpl never.
#[local] Arguments Analyzer.set_disabled : simpl never.
#[local] Arguments Analyzer.base : simpl never.

Lemma notify_lists b call w : lists (BaseAnalyzer.notify b call w) = lists w.
Proof. reflexivity. Qed.

Lemma observed_log c w w' l :
  consumer_log w' = consumer_log w ++ l ->
  observed c w' = observed c w ++ map snd (filter (fun e => fst e = c) l).
Proof. unfold observed. intros ->. by rewrite filter_app, map_app. Qed.

Lemma start_disable_enable_stop_log (a : analyzer) (w : world) (r : UUID)
    (t : option daq_handle) :
  Analyzer.active a = false -> Analyzer.disabled a = false ->
  (start_disable_enable_stop a r t w).1.1 = Ok tt /\
  Analyzer.active (start_disable_enable_stop a r t w).1.2 = false /\
  consumer_log (start_disable_enable_stop a r t w).2 =
    consumer_log w ++
    fan_out (consumers_of a w)
      (CallStart (Some r) (BaseAnalyzer.class_name (Analyzer.base a))
         (BaseAnalyzer.RESULT_DATA_TYPES (Analyzer.base a))) ++
    fan_out (consumers_of a w)
      (CallStop (Some r) (BaseAnalyzer.class_name (Analyzer.base a))) ++
    fan_out (consumers_of a w)
      (CallStart (Some r) (BaseAnalyzer.class_name (Analyzer.base a))
         (BaseAnalyzer.RESULT_DATA_TYPES (Analyzer.base a))) ++
    fan_out (consumers_of a w)
      (CallStop (Some r) (BaseAnalyzer.class_name (Analyzer.base a))).
Proof.
  unfold Analyzer.active, Analyzer.disabled, consumers_of,
    start_disable_enable_stop, fan_out, deref.
  intros Ha Hd; case_analyzer a; subst act dis.
  all: try (destruct t as [[i []]|]).
  all: try (destruct update_thread, _joinable).
  all: cbv -[app map].
  all: rewrite <- ?app_assoc; done.
Qed.

(** C1: for an analyzer of any class that is active with run id [r] and
    transport [t], disabling and enabling again leaves it active, enabled,
    with run id [r] and transport [t].  Over start, disable, enable, stop
    from an inactive enabled analyzer, every registered consumer receives
    [start] with [r], [stop] with [r] (at the disable), [start] with [r]
    (at the enable) and [stop] with [r], in this order and nothing else: one
    start and one stop for each of the two activation windows. *)
Theorem disable_enable_roundtrip (a : analyzer) (w : world) (r : UUID)
    (t : option daq_handle) :
  (Analyzer.active a = true -> Analyzer.current_run_id a = Some r ->
   Analyzer.daq a = t ->
   let d := Analyzer.disable a w in
   let e := Analyzer.enable d.1 d.2 in
   Analyzer.active e.1 = true /\ Analyzer.disabled e.1 = false /\
   Analyzer.current_run_id e.1 = Some r /\ Analyzer.daq e.1 = t) /\
  (Analyzer.active a = false -> Analyzer.disabled a = false ->
   let name := BaseAnalyzer.class_name (Analyzer.base a) in
   let types := BaseAnalyzer.RESULT_DATA_TYPES (Analyzer.base a) in
   let out := start_disable_enable_stop a r t w in
   out.1.1 = Ok tt /\
   Analyzer.active out.1.2 = false /\
   forall c, NoDup (consumers_of a w) -> c ∈ consumers_of a w ->
     observed c out.2 =
       observed c w ++
       [CallStart (Some r) name types; CallStop (Some r) name;
        CallStart (Some r) name types; CallStop (Some r) name]).
Proof.
  split.
  - unfold Analyzer.active, Analyzer.disabled, Analyzer.current_run_id, Analyzer.daq.
    intros Ha Hr Ht. case_analyzer a; subst act cr t.
    all: try (destruct dq as [[i []]|]).
    all: try (destruct update_thread, _joinable).
    all: cbv; done.
  - intros Ha Hd. cbv zeta.
    destruct (start_disable_enable_stop_log a w r t Ha Hd) as (H1 & H2 & H3).
    repeat (split; [assumption|]).
    intros c Hnd Hc. rewrite (observed_log c w _ _ H3).
    rewrite !filter_app, !map_app, !filter_fan_out by done. done.
Qed.

Lemma disable_enable_roundtrip_witness :
  (let a := (Analyzer.start example_rate (Some 5%N) (Some example_daq) example_world).1 in
   let d := Analyzer.disable a example_world in
   let e := Analyzer.enable d.1 d.2 in
   Analyzer.active e.1 = true /\ Analyzer.disabled e.1 = false /\
   Analyzer.current_run_id e.1 = Some 5%N /\ Analyzer.daq e.1 = Some example_daq) /\
  (let out := start_disable_enable_stop example_decay 5%N (Some example_daq) example_world in
   out.1.1 = Ok tt /\
   Analyzer.active out.1.2 = false /\
   forall c, NoDup (consumers_of example_decay example_world) ->
     c ∈ consumers_of example_decay example_world ->
     observed c out.2 =
       observed c example_world ++
       [CallStart (Some 5%N) "DecayAnalyzer" [DECAY]; CallStop (Some 5%N) "DecayAnalyzer";
        CallStart (Some 5%N) "DecayAnalyzer" [DECAY]; CallStop (Some 5%N) "DecayAnalyzer"]).
Proof.
  split.
  - apply (proj1 (disable_enable_roundtrip
                    (Analyzer.start example_rate (Some 5%N) (Some example_daq) example_world).1
                    example_world 5%N (Some example_daq))); reflexivity.
  - apply (proj2 (disable_enable_roundtrip example_decay example_world 5%N (Some example_daq)));
      reflexivity.
Defined.

Lemma lifecycle_keeps_consistent_witness :
  consistent (Analyzer.start example_rate (Some 5%N) (Some example_daq) example_world).1 /\
  consistent (Analyzer.set_disabled example_rate (VBool true) example_world).1.
Proof.
  split.
  - apply (proj1 (lifecycle_keeps_consistent example_rate example_world eq_refl)).
  - apply (proj1 (proj2 (proj2 (lifecycle_keeps_consistent example_rate example_world eq_refl)))).
Defined.

(** ** The rate analyzer *)

Lemma digit_val_nonneg c d : digit_val c = Some d -> 0 <= d.
Proof.
  unfold digit_val. intros H.
  repeat (case_match; simplify_eq); lia.
Qed.

Lemma int_digits_bound base s : 
  1 <= base ->
  forall acc after v rest,
    0 <= acc -> int_digits base s acc after = Some (v, rest) ->
    0 <= v < (acc + 1) * base ^ Z.of_nat (length s).
Proof.
  intros Hb. induction s as [|c s IH]; intros acc after v rest Hacc H; simpl in H.
  - destruct after; simplify_eq. simpl. lia.
  - assert (Hpow : base ^ Z.of_nat (length (c :: s)) = base * base ^ Z.of_nat (length s)).
    { simpl length. rewrite Nat2Z.inj_succ, Z.pow_succ_r by lia. done. }
    assert (Hp : 0 < base ^ Z.of_nat (length s)) by (apply Z.pow_pos_nonneg; lia).
    assert (Hstop : 0 <= acc < (acc + 1) * base ^ Z.of_nat (length (c :: s))).
    { rewrite Hpow. nia. }
    destruct (Ascii.eqb c "_").
    { destruct after; [|done]. apply IH in H; [|done]. rewrite Hpow. nia. }
    destruct (digit_val c) as [d|] eqn:Hd.
    + apply digit_val_nonneg in Hd.
      destruct (d <? base) eqn:Hlt.
      * apply Z.ltb_lt in Hlt. apply IH in H; [|nia]. rewrite Hpow. nia.
      * destruct after; simplify_eq. done.
    + destruct after; simplify_eq. done.
Qed.

Lemma skip_space_length s : (length (skip_space s) <= length s)%nat.
Proof. induction s as [|c s IH]; simpl; [lia|]. destruct (isspace c); simpl; lia. Qed.

Lemma length_chars s : length (chars s) = String.length s.
Proof. unfold chars. induction s; simpl; congruence. Qed.

Lemma int_of_str_bound s v :
  int_of_str 16 s = Ok v -> Z.abs v < 16 ^ Z.of_nat (String.length s).
Proof.
  unfold int_of_str. rewrite <- length_chars.
  pose proof (skip_space_length (chars s)) as Hsk.
  set (s0 := skip_space (chars s)) in *.
  set (p := match s0 with [] => _ | _ => _ end).
  assert (Hp : (length p.2 <= length s0)%nat).
  { subst p. destruct s0 as [|c r]; simpl; [lia|]. repeat case_match; simpl; lia. }
  destruct p as [neg s1]. simpl in Hp.
  set (s2 := if 16 =? 16 then _ else _).
  assert (Hs2 : (length s2 <= length s1)%nat).
  { subst s2. simpl. repeat case_match; simpl in *; lia. }
  destruct (int_digits 16 s2 0 false) as [[x rest]|] eqn:Hd; [|done].
  apply int_digits_bound in Hd; [|lia..].
  destruct (skip_space rest); [|done]. intros [= <-].
  assert (16 ^ Z.of_nat (length s2) <= 16 ^ Z.of_nat (length (chars s))).
  { apply Z.pow_le_mono_r; lia. }
  destruct neg; lia.
Qed.

Lemma length_str l : String.length (str l) = length l.
Proof. unfold str. induction l; simpl; congruence. Qed.

Lemma length_slice_from i s : String.length (slice_from i s) = (String.length s - i)%nat.
Proof.
  unfold slice_from. rewrite <- (length_chars s), <- length_drop.
  apply length_str.
Qed.

Lemma extract_item_shape range item scalars new :
  RateAnalyzer.extract_item range item scalars = Ok new ->
  length new = length scalars /\ (Forall scalar_range scalars -> Forall scalar_range new).
Proof.
  revert scalars. induction range as [|i range IH]; intros scalars H; simpl in H.
  - by simplify_eq.
  - destruct (startswith item ("S" +:+ fmt_d i) && (len item =? 11)) eqn:Hg.
    + destruct (int_of_str 16 (slice_from 3 item)) as [v|] eqn:Hv; [|done]. simpl in H.
      apply IH in H as [Hl Hf]. rewrite length_insert in Hl. split; [done|].
      intros Hs. apply Hf. apply Forall_insert; [done|].
      apply int_of_str_bound in Hv. rewrite length_slice_from in Hv.
      apply andb_true_iff in Hg as [_ Hlen]. apply Z.eqb_eq in Hlen. unfold len in Hlen.
      replace (String.length item - 3)%nat with 8%nat in Hv by lia.
      unfold scalar_range. exact Hv.
    + by apply IH.
Qed.

Lemma extract_items_shape items scalars new :
  RateAnalyzer.extract_items items scalars = Ok new ->
  length new = length scalars /\ (Forall scalar_range scalars -> Forall scalar_range new).
Proof.
  revert scalars. induction items as [|item items IH]; intros scalars H;
    cbn [RateAnalyzer.extract_items] in H.
  - by simplify_eq.
  - destruct (RateAnalyzer.extract_item _ item scalars) as [s'|] eqn:Hi; [|done].
    cbn [rbind] in H.
    apply extract_item_shape in Hi as [Hl Hf]. apply IH in H as [Hl' Hf'].
    split; [congruence|auto].
Qed.

Lemma extract_scalars_shape msg new :
  RateAnalyzer.extract_scalars_from_message msg = Ok new ->
  length new = RateAnalyzer.SCALAR_BUF_SIZE /\ Forall scalar_range new.
Proof.
  intros H. apply extract_items_shape in H as [Hl Hf]. split; [done|].
  apply Hf. unfold RateAnalyzer.new_scalar_buffer. simpl.
  repeat constructor; unfold scalar_range; simpl; lia.
Qed.

Lemma float_of_int_in_range z :
  Z.abs z < 2 ^ 33 -> float_of_int z = Ok (nearest_float z).
Proof.
  intros H. unfold float_of_int.
  assert (Hc : 2 ^ 33 < 2 ^ 1024 - 2 ^ 970) by (vm_compute; reflexivity).
  destruct (Z.ltb_spec (Z.abs z) (2 ^ 1024 - 2 ^ 970)); [done|lia].
Qed.

Lemma truediv_float_in_range z y :
  PrimFloat.eqb y 0 = false -> Z.abs z < 2 ^ 33 ->
  truediv_float (PInt z) y = Ok (PrimFloat.div (nearest_float z) y).
Proof.
  intros Hy Hz. unfold truediv_float, to_float.
  rewrite float_of_int_in_range by done. cbn [rbind]. by rewrite Hy.
Qed.

Lemma length_5 {A} (l : list A) :
  length l = 5%nat -> exists a b c d e, l = [a; b; c; d; e].
Proof.
  intros H. do 5 (destruct l as [|? l]; [done|]). destruct l; [|done]. eauto 10.
Qed.

Lemma py_add_zero_or_float x f :
  zero_or_float x -> exists g, py_add x (PFloat f) = Ok (PFloat g).
Proof.
  intros [->|[g ->]]; [|simpl; eauto].
  unfold py_add, to_float.
  rewrite float_of_int_in_range by (vm_compute; reflexivity). simpl. eauto.
Qed.

(** C3: on a cycle that is not the first, for a scalar dump whose five
    counters are positive and a time window
    [query_time - last_query_time] that is not zero, [calculate] returns
    [True], stores the new counters as the previous ones, and stores for
    each counter the rate [(new - previous) / time_window] (the difference
    converted to a float, float division).  With previous counters
    [10, 10, 10, 10, 10], new counters [15, 12, 10, 20, 13] and a window of
    [2.0] the rates are [2.5, 1.0, 0.0, 5.0, 1.5]. *)
Theorem rate_cycle_rates (self : RateAnalyzer.t) (msg : envelope) (new : list Z)
    (time_window : float) :
  rate_shape self ->
  is_scalar_dump (raw msg) = true ->
  RateAnalyzer.extract_scalars_from_message (raw msg) = Ok new ->
  RateAnalyzer.first_cycle self = false ->
  Forall (fun s => 0 < s) new ->
  float_sub (RateAnalyzer.query_time self) (RateAnalyzer.last_query_time self)
    = Ok time_window ->
  PrimFloat.eqb time_window 0 = false ->
  let previous := RateAnalyzer.previous_scalars self in
  let diffs := zip_with Z.sub new previous in
  let rate d := PrimFloat.div (nearest_float d) time_window in
  let out := RateAnalyzer.calculate self msg in
  out.1 = Ok true /\
  RateAnalyzer.previous_scalars out.2 = new /\
  RateAnalyzer.rates out.2 =
    Some (map (fun d => PFloat (rate d)) diffs ++ [PFloat time_window] ++ map PInt diffs) /\
  dict_get (RateAnalyzer.last_data out.2) "rates" =
    VList (map (fun d => VFloat (rate d)) diffs) /\
  (previous = [10; 10; 10; 10; 10] -> new = [15; 12; 10; 20; 13] ->
   time_window = 2%float ->
   dict_get (RateAnalyzer.last_data out.2) "rates" =
     VList [VFloat 2.5; VFloat 1; VFloat 0; VFloat 5; VFloat 1.5]).
Proof.
  intros [Hp Hpr Hb Hq Ht] Hds Hnew Hfc Hpos Htw Hnz.
  destruct (extract_scalars_shape _ _ Hnew) as [Hn Hnr].
  destruct (py_add_zero_or_float _ time_window Ht) as [total Htot].
  apply length_5 in Hp as (p0 & p1 & p2 & p3 & p4 & Hp).
  apply length_5 in Hb as (b0 & b1 & b2 & b3 & b4 & Hb).
  apply length_5 in Hn as (n0 & n1 & n2 & n3 & n4 & ->).
  cbv zeta. rewrite Hp in *.
  assert (Hout : exists self',
    RateAnalyzer.calculate self msg = (Ok true, self') /\
    RateAnalyzer.previous_scalars self' = [n0; n1; n2; n3; n4] /\
    RateAnalyzer.rates self' =
      Some (map (fun d => PFloat (PrimFloat.div (nearest_float d) time_window))
              (zip_with Z.sub [n0; n1; n2; n3; n4] [p0; p1; p2; p3; p4])
            ++ [PFloat time_window]
            ++ map PInt (zip_with Z.sub [n0; n1; n2; n3; n4] [p0; p1; p2; p3; p4])) /\
    dict_get (RateAnalyzer.last_data self') "rates" =
      VList (map (fun d => VFloat (PrimFloat.div (nearest_float d) time_window))
               (zip_with Z.sub [n0; n1; n2; n3; n4] [p0; p1; p2; p3; p4]))).
  { unfold RateAnalyzer.calculate. unfold is_scalar_dump in Hds. rewrite Hds, Hnew, Hfc.
    cbn [negb]. rewrite Hp.
    repeat match goal with H : Forall _ (_ :: _) |- _ => inversion H; clear H; subst end.
    unfold scalar_range in *.
    cbn [RateAnalyzer.diff_loop seq RateAnalyzer.SCALAR_BUF_SIZE RateAnalyzer.new_scalar_buffer
         replicate lookup list_lookup].
    repeat match goal with H : 0 < ?n |- _ =>
      apply Z.ltb_lt in H; rewrite H; clear H end.
    cbn -[RateAnalyzer.calculate float_sub mapM py_add RateAnalyzer.add_diffs truediv_float Z.sub].
    rewrite Htw.
    assert (H233 : 2 ^ 33 = 2 ^ 32 + 2 ^ 32) by reflexivity.
    cbn [mapM]. rewrite !(truediv_float_in_range _ _ Hnz) by lia.
    cbn [rbind].
    cbn [RateAnalyzer.time_window RateAnalyzer.set_rates RateAnalyzer.set_previous_scalars].
    rewrite Htot.
    cbn [RateAnalyzer.scalar_buffer RateAnalyzer.set_time_window RateAnalyzer.set_rates
         RateAnalyzer.set_previous_scalars].
    rewrite Hb. cbn.
    eexists. split; [reflexivity|].
    repeat case_match; repeat split; reflexivity. }
  destruct Hout as (self' & -> & H1 & H2 & H3).
  cbn [fst snd]. split; [reflexivity|]. repeat (split; [assumption|]).
  intros [= -> -> -> -> ->] [= -> -> -> -> ->] ->.
  rewrite H3. vm_compute. reflexivity.
Qed.

Lemma rate_cycle_rates_witness :
  dict_get (RateAnalyzer.last_data
              (RateAnalyzer.calculate
                 (rate_in_cycle [10; 10; 10; 10; 10] 1000%float 1002%float)
                 example_dump).2) "rates" =
    VList [VFloat 2.5; VFloat 1; VFloat 0; VFloat 5; VFloat 1.5].
Proof.
  refine (proj2 (proj2 (proj2 (proj2
    (rate_cycle_rates (rate_in_cycle [10; 10; 10; 10; 10] 1000%float 1002%float)
       example_dump [15; 12; 10; 20; 13] 2%float _ _ _ _ _ _ _)))) _ _ _);
    try reflexivity.
  - split; try reflexivity.
    + repeat constructor; unfold scalar_range; simpl; lia.
    + right; eexists; reflexivity.
    + left; reflexivity.
  - repeat constructor.
Defined.

(** [calculate] on a scalar dump whose counters are positive up to index
    [k] and not positive there: the cycle's results are not stored, and the
    previous counters below [k] are overwritten. *)
Lemma diff_loop_returns (new previous : list Z) (k : nat) (bad : Z) :
  length new = 5%nat -> length previous = 5%nat ->
  Forall (fun s => 0 < s) (take k new) -> new !! k = Some bad -> bad <= 0 ->
  RateAnalyzer.diff_loop (seq 0 5) new RateAnalyzer.new_scalar_buffer previous =
    (RateAnalyzer.Returned,
     take k (zip_with Z.sub new previous) ++ drop k RateAnalyzer.new_scalar_buffer,
     take k new ++ drop k previous).
Proof.
  intros Hn Hp Hpos Hk Hbad.
  apply length_5 in Hn as (n0 & n1 & n2 & n3 & n4 & ->).
  apply length_5 in Hp as (p0 & p1 & p2 & p3 & p4 & ->).
  assert (Hb : (0 <? bad) = false) by (apply Z.ltb_ge; lia).
  do 5 (destruct k as [|k];
        [simpl in Hk, Hpos; injection Hk as ->;
         repeat match goal with H : Forall _ (_ :: _) |- _ =>
           inversion H; clear H; subst end;
         repeat match goal with H : 0 < ?n |- _ =>
           apply Z.ltb_lt in H end;
         simpl;
         repeat match goal with H : (0 <? ?n) = _ |- _ => rewrite H; clear H end;
         reflexivity|]).
  done.
Qed.

Lemma rate_corrupt_cycle (self : RateAnalyzer.t) (msg : envelope) (new : list Z)
    (k : nat) (bad : Z) :
  length (RateAnalyzer.previous_scalars self) = 5%nat ->
  is_scalar_dump (raw msg) = true ->
  RateAnalyzer.extract_scalars_from_message (raw msg) = Ok new ->
  RateAnalyzer.first_cycle self = false ->
  Forall (fun s => 0 < s) (take k new) -> new !! k = Some bad -> bad <= 0 ->
  RateAnalyzer.calculate self msg =
    (Ok true,
     RateAnalyzer.set_previous_scalars
       (take k new ++ drop k (RateAnalyzer.previous_scalars self)) self).
Proof.
  intros Hp Hds Hnew Hfc Hpos Hk Hbad.
  destruct (extract_scalars_shape _ _ Hnew) as [Hn _].
  unfold RateAnalyzer.calculate. unfold is_scalar_dump in Hds. rewrite Hds, Hnew, Hfc.
  cbn [negb]. change (seq 0 RateAnalyzer.SCALAR_BUF_SIZE) with (seq 0 5).
  by rewrite (diff_loop_returns new _ k bad).
Qed.

(** C2 (the code departs from the claim): a scalar dump whose second counter
    reads zero, processed on a cycle that is not the first, stores no rates
    and no result, yet the previous count of the first channel is
    overwritten with the new one: the previous counters [10, 10, 10, 10, 10]
    become [15, 10, 10, 10, 10]. *)
Theorem corrupt_cycle_overwrites_previous :
  let self := rate_in_cycle [10; 10; 10; 10; 10] 1000%float 1002%float in
  let out := RateAnalyzer.calculate self example_corrupt_dump in
  RateAnalyzer.extract_scalars_from_message (raw example_corrupt_dump)
    = Ok [15; 0; 10; 20; 13] /\
  out.1 = Ok true /\
  RateAnalyzer.rates out.2 = RateAnalyzer.rates self /\
  RateAnalyzer.last_data out.2 = RateAnalyzer.last_data self /\
  RateAnalyzer.previous_scalars self = [10; 10; 10; 10; 10] /\
  RateAnalyzer.previous_scalars out.2 = [15; 10; 10; 10; 10].
Proof. vm_compute. repeat split; reflexivity. Qed.

(** ** The pulse-width analyzer *)

Lemma dict_append_at (pre post : PulseAnalyzer.widths_dict) i l x :
  Forall (fun kv => fst kv <> i) pre ->
  PulseAnalyzer.dict_append (pre ++ (i, l) :: post) i x =
    Ok (pre ++ (i, l ++ [x]) :: post).
Proof.
  induction pre as [|[k l'] pre IH]; intros Hpre; simpl.
  - by rewrite Nat.eqb_refl.
  - inversion Hpre as [|? ? Hk Hpre']; subst. simpl in Hk.
    destruct (Nat.eqb_spec k i); [done|]. by rewrite IH.
Qed.

Lemma channel_loop_at (pre post : PulseAnalyzer.widths_dict) i ps :
  Forall (fun kv => fst kv <> i) pre ->
  forall l ws,
    mapM spec_pulse_width ps = Ok ws ->
    PulseAnalyzer.channel_loop i ps (pre ++ (i, l) :: post) =
      Ok (pre ++ (i, l ++ ws) :: post).
Proof.
  intros Hpre. induction ps as [|[le fe] ps IH]; intros l ws H; cbn [mapM] in H.
  - injection H as <-. by rewrite app_nil_r.
  - destruct (spec_pulse_width (le, fe)) as [x|] eqn:Hx; [|done]. cbn [rbind] in H.
    destruct (mapM spec_pulse_width ps) as [ws'|] eqn:Hws; [|done]. cbn [rbind] in H.
    injection H as <-. cbn [PulseAnalyzer.channel_loop].
    assert (Hstep : match fe with
                    | Some fe0 => rbind (py_sub fe0 le)
                                    (PulseAnalyzer.dict_append (pre ++ (i, l) :: post) i)
                    | None => PulseAnalyzer.dict_append (pre ++ (i, l) :: post) i (PFloat 0)
                    end = Ok (pre ++ (i, l ++ [x]) :: post)).
    { destruct fe as [fe|]; simpl in Hx.
      - rewrite Hx. cbn [rbind]. by apply dict_append_at.
      - injection Hx as <-. by apply dict_append_at. }
    rewrite Hstep. cbn [rbind]. rewrite (IH _ ws' eq_refl).
    by rewrite <- app_assoc.
Qed.

Lemma channels_loop_at (chs : list (list pulse)) :
  forall i n pre wss,
    Forall (fun kv => (fst kv < i)%nat) pre ->
    mapM (mapM spec_pulse_width) chs = Ok wss ->
    (length chs <= n)%nat ->
    PulseAnalyzer.channels_loop i (map Channel chs)
      (pre ++ map (fun k => (k, [])) (seq i n)) =
      Ok (pre ++ zip (seq i (length wss)) wss ++
          map (fun k => (k, [])) (seq (i + length wss) (n - length wss))).
Proof.
  induction chs as [|ps chs IH]; intros i n pre wss Hpre H Hn; cbn [mapM] in H.
  - injection H as <-. simpl. by rewrite Nat.add_0_r, Nat.sub_0_r.
  - destruct (mapM spec_pulse_width ps) as [ws|] eqn:Hws; [|done]. cbn [rbind] in H.
    destruct (mapM (mapM spec_pulse_width) chs) as [wss'|] eqn:Hwss; [|done]. cbn [rbind] in H.
    injection H as <-. simpl in Hn. destruct n as [|n]; [lia|].
    cbn [map PulseAnalyzer.channels_loop seq].
    rewrite (channel_loop_at pre _ i ps) with (ws := ws); [|by eapply Forall_impl; [done|simpl; lia]|done].
    cbn [rbind app].
    replace (pre ++ (i, ws) :: map (fun k => (k, [])) (seq (S i) n))
      with ((pre ++ [(i, ws)]) ++ map (fun k : nat => (k, @nil pynum)) (seq (S i) n))
      by (by rewrite <- app_assoc).
    rewrite (IH (S i) n (pre ++ [(i, ws)]) wss'); [| |done|lia].
    + rewrite <- app_assoc. simpl. by rewrite Nat.add_succ_r.
    + apply Forall_app. split.
      * eapply Forall_impl; [done|simpl; lia].
      * repeat constructor.
Qed.

(** C8: for an envelope with extracted pulses (a trigger entry followed by
    at most four data channels), [calculate] publishes one dict holding, for
    each data channel, the widths [falling - leading] of its pulses in
    order, [0.] standing for a missing falling edge, together with one
    timestamp read once for the whole line; an active analyzer pushes it to
    each of its consumers once.  The pulses [(100, 150), (200, None)] on
    channel 0 give the widths [50, 0.]. *)
Theorem pulse_widths_published (self : BaseAnalyzer.t) (msg : envelope) (w : world)
    (trigger : pulse_item) (channels : list (list pulse)) (wss : list (list pynum)) :
  pulses msg = Pulses (trigger :: map Channel channels) ->
  (length channels <= 4)%nat ->
  mapM (mapM spec_pulse_width) channels = Ok wss ->
  let data :=
    VDict [(VStr "pulse_widths", PulseAnalyzer.widths_value (spec_widths wss));
           (VStr "event_time", VDatetime (utcnow w).1)] in
  PulseAnalyzer.calculate self msg w =
    (Ok true, BaseAnalyzer.publish self data PULSE (utcnow w).2) /\
  (BaseAnalyzer._active self = true ->
   consumer_log (PulseAnalyzer.calculate self msg w).2 =
     consumer_log w ++
     fan_out (deref w (BaseAnalyzer.consumers self))
       (CallPush data PULSE (BaseAnalyzer.current_run_id self)
          (BaseAnalyzer.class_name self))) /\
  (channels = [[(PInt 100, Some (PInt 150)); (PInt 200, None)]] ->
   spec_widths wss =
     [(0%nat, [PInt 50; PFloat 0]); (1%nat, []); (2%nat, []); (3%nat, [])]).
Proof.
  intros Hp Hn Hw. cbv zeta.
  assert (Hcalc : PulseAnalyzer.calculate self msg w =
    (Ok true,
     BaseAnalyzer.publish self
       (VDict [(VStr "pulse_widths", PulseAnalyzer.widths_value (spec_widths wss));
               (VStr "event_time", VDatetime (utcnow w).1)]) PULSE (utcnow w).2)).
  { unfold PulseAnalyzer.calculate. rewrite Hp.
    change (drop 1 (trigger :: map Channel channels)) with (map Channel channels).
    pose proof (channels_loop_at channels 0 4 [] wss (Forall_nil_2 _) Hw Hn) as H.
    change PulseAnalyzer.empty_widths
      with ([] ++ map (fun k => (k, @nil pynum)) (seq 0 4)).
    destruct (utcnow w) as [ts w1]. rewrite H. reflexivity. }
  split; [exact Hcalc|split].
  - intros Ha. rewrite Hcalc. unfold BaseAnalyzer.publish. rewrite Ha. reflexivity.
  - intros ->. vm_compute in Hw. injection Hw as <-. reflexivity.
Qed.

Lemma pulse_widths_published_witness :
  PulseAnalyzer.calculate (PulseAnalyzer.init 0%nat)
    {| raw := "";
       pulses := Pulses [TriggerTime (PFloat 0);
                         Channel [(PInt 100, Some (PInt 150)); (PInt 200, None)]] |}
    example_world =
  (Ok true,
   BaseAnalyzer.publish (PulseAnalyzer.init 0%nat)
     (VDict [(VStr "pulse_widths",
              PulseAnalyzer.widths_value (spec_widths [[PInt 50; PFloat 0]]));
             (VStr "event_time", VDatetime (utcnow example_world).1)])
     PULSE (utcnow example_world).2).
Proof.
  refine (proj1 (pulse_widths_published (PulseAnalyzer.init 0%nat)
                   {| raw := "";
                      pulses := Pulses [TriggerTime (PFloat 0);
                                        Channel [(PInt 100, Some (PInt 150));
                                                 (PInt 200, None)]] |}
                   example_world
                   (TriggerTime (PFloat 0))
                   [[(PInt 100, Some (PInt 150)); (PInt 200, None)]]
                   [[PInt 50; PFloat 0]] eq_refl _ eq_refl)).
  simpl. lia.
Defined.

(** ** The decay analyzer *)

Lemma str_chars s : str (chars s) = s.
Proof. apply string_of_list_ascii_of_string. Qed.

Lemma drop_app_length' {A} (l k : list A) : drop (length l) (l ++ k) = k.
Proof. by rewrite drop_app_length. Qed.

Lemma startswith_append p t : startswith (p +:+ t) p = true.
Proof.
  unfold startswith. induction p as [|c p IH]; simpl.
  - by destruct t.
  - by destruct (ascii_dec c c).
Qed.

Lemma last_write_03 t03 t02 :
  last_write "03"
    ["DC"; "CE"; "WC 03 04"; "WC 02 0A"; "WC 00 0F"; "WC 03 " +:+ t03; "WC 02 " +:+ t02]
  = Some t03.
Proof.
  cbn [last_write].
  change (startswith ("WC 02 " +:+ t02) ("WC " +:+ "03" +:+ " ")) with false.
  change ("WC " +:+ "03" +:+ " ") with "WC 03 ".
  rewrite (startswith_append "WC 03 " t03).
  change (slice_from 6 ("WC 03 " +:+ t03)) with (str (chars t03)).
  by rewrite str_chars.
Qed.

Lemma last_write_02 t03 t02 :
  last_write "02"
    ["DC"; "CE"; "WC 03 04"; "WC 02 0A"; "WC 00 0F"; "WC 03 " +:+ t03; "WC 02 " +:+ t02]
  = Some t02.
Proof.
  cbn [last_write].
  change ("WC " +:+ "02" +:+ " ") with "WC 02 ".
  rewrite (startswith_append "WC 02 " t02).
  change (slice_from 6 ("WC 02 " +:+ t02)) with (str (chars t02)).
  by rewrite str_chars.
Qed.

Lemma decay_start_log (self : DecayAnalyzer.t) run_id (h : daq_handle) w :
  BaseAnalyzer._disabled (DecayAnalyzer.base self) = false ->
  is_provider h = true ->
  let s1 := DecayAnalyzer.start self run_id (Some h) w in
  daq_log s1.2 =
    daq_log w ++ map (pair (daq_id h)) ["DC"; "CE"; "WC 03 04"; "WC 02 0A"; "WC 00 0F"] /\
  BaseAnalyzer.daq (DecayAnalyzer.base s1.1) = Some h /\
  DecayAnalyzer.previous_coinc_time_03 s1.1 = DecayAnalyzer.previous_coinc_time_03 self /\
  DecayAnalyzer.previous_coinc_time_02 s1.1 = DecayAnalyzer.previous_coinc_time_02 self.
Proof.
  intros Hd Hp. cbv zeta.
  destruct self as [b]; destruct b as [nm tys dq act dis lr ld cs cr]; simpl in Hd; subst dis.
  destruct h as [i p]; simpl in Hp; subst p.
  unfold DecayAnalyzer.start, BaseAnalyzer.start, BaseAnalyzer.daq_put.
  destruct act; cbn -[append]; rewrite <- ?app_assoc; done.
Qed.

Lemma decay_stop_log (self : DecayAnalyzer.t) (h : daq_handle) w :
  BaseAnalyzer.daq (DecayAnalyzer.base self) = Some h ->
  is_provider h = true ->
  daq_log (DecayAnalyzer.stop self w).2 =
    daq_log w ++
    map (pair (daq_id h))
      ["WC 03 " +:+ DecayAnalyzer.previous_coinc_time_03 self;
       "WC 02 " +:+ DecayAnalyzer.previous_coinc_time_02 self].
Proof.
  intros Hd Hp.
  destruct self as [b]; destruct b as [nm tys dq act dis lr ld cs cr]; simpl in Hd; subst dq.
  destruct h as [i p]; simpl in Hp; subst p.
  unfold DecayAnalyzer.stop, BaseAnalyzer.stop, BaseAnalyzer.daq_put.
  destruct act, dis; cbn -[append]; rewrite <- ?app_assoc; done.
Qed.

(** C7: for an enabled decay analyzer started with a provider as
    transport, with remembered register values [t03] and [t02]: [start]
    sends [DC], [CE], [WC 03 04], [WC 02 0A], [WC 00 0F]; [stop] sends
    [WC 03 t03] and [WC 02 t02], to the same provider; so the last values
    written to the registers 03 and 02 over start and stop are [t03] and
    [t02]. *)
Theorem decay_start_stop_restores (self : DecayAnalyzer.t) (run_id : option UUID)
    (h : daq_handle) (w : world) :
  BaseAnalyzer._disabled (DecayAnalyzer.base self) = false ->
  is_provider h = true ->
  let t03 := DecayAnalyzer.previous_coinc_time_03 self in
  let t02 := DecayAnalyzer.previous_coinc_time_02 self in
  let s1 := DecayAnalyzer.start self run_id (Some h) w in
  let s2 := DecayAnalyzer.stop s1.1 s1.2 in
  commands_since w s1.2 = ["DC"; "CE"; "WC 03 04"; "WC 02 0A"; "WC 00 0F"] /\
  commands_since s1.2 s2.2 = ["WC 03 " +:+ t03; "WC 02 " +:+ t02] /\
  Forall (fun e => fst e = daq_id h) (drop (length (daq_log w)) (daq_log s2.2)) /\
  last_write "03" (commands_since w s2.2) = Some t03 /\
  last_write "02" (commands_since w s2.2) = Some t02.
Proof.
  intros Hd Hp. cbv zeta.
  destruct (decay_start_log self run_id h w Hd Hp) as (H1 & Hq & H3 & H2).
  pose proof (decay_stop_log _ h (DecayAnalyzer.start self run_id (Some h) w).2 Hq Hp) as Hs.
  rewrite H3, H2 in Hs. unfold commands_since.
  rewrite Hs, H1, <- ?app_assoc, !drop_app_length.
  rewrite (app_assoc (daq_log w)), drop_app_length.
  repeat split; try reflexivity.
  - repeat constructor.
  - cbn [map snd app]. apply last_write_03.
  - cbn [map snd app]. apply last_write_02.
Qed.

Lemma decay_start_stop_restores_witness :
  commands_since
    (DecayAnalyzer.start (DecayAnalyzer.init 0%nat (fun _ _ _ _ _ _ _ _ _ => None) example_world).1
       (Some 5%N) (Some example_daq) example_world).2
    (DecayAnalyzer.stop
       (DecayAnalyzer.start (DecayAnalyzer.init 0%nat (fun _ _ _ _ _ _ _ _ _ => None) example_world).1
          (Some 5%N) (Some example_daq) example_world).1
       (DecayAnalyzer.start (DecayAnalyzer.init 0%nat (fun _ _ _ _ _ _ _ _ _ => None) example_world).1
          (Some 5%N) (Some example_daq) example_world).2).2
  = ["WC 03 00"; "WC 02 0A"].
Proof.
  exact (proj1 (proj2 (decay_start_stop_restores
    (DecayAnalyzer.init 0%nat (fun _ _ _ _ _ _ _ _ _ => None) example_world).1
    (Some 5%N) example_daq example_world eq_refl eq_refl))).
Defined.

(** A configuration acknowledgment seen by [calculate] is what [stop]
    writes back. *)
Lemma decay_remembers_acknowledgment (self : DecayAnalyzer.t) (w : world) :
  let out := DecayAnalyzer.calculate self
               {| raw := "DC C0=23 C1=71 C2=0B C3=07"; pulses := NoPulsesKey |} w in
  DecayAnalyzer.previous_coinc_time_03 out.1.2 = "07" /\
  DecayAnalyzer.previous_coinc_time_02 out.1.2 = "0B".
Proof. split; reflexivity. Qed.

(** ** The file consumer *)

Lemma stop_removes_record (self self' : FileConsumer.t) run_id aid fs fs' :
  FileConsumer.stop self run_id aid fs = (Ok tt, self', fs') ->
  FileConsumer.open_files self' !! aid = None.
Proof.
  unfold FileConsumer.stop, FileConsumer.close_files.
  destruct (FileConsumer.open_files self !! aid); [|done].
  intros [= <- _]. simpl. apply lookup_delete_eq.
Qed.

(** C6: once [stop(run_id, analyzer_id)] has returned, each typed handler
    called for that analyzer id returns without an exception and leaves the
    files as they are, whatever its arguments; so does [push] for each data
    type, on data of the shape published under that type. *)
Theorem file_push_after_stop (self self' : FileConsumer.t) (run_id : option UUID)
    (aid : string) (fs fs' : filesystem) :
  FileConsumer.stop self run_id aid fs = (Ok tt, self', fs') ->
  (forall data, FileConsumer.push_raw self' data aid fs' = (Ok tt, fs')) /\
  (forall rates counts time_window query_time,
     FileConsumer.push_rate self' rates counts time_window query_time aid fs'
       = (Ok tt, fs')) /\
  (forall flight_time event_time,
     FileConsumer.push_velocity self' flight_time event_time aid fs' = (Ok tt, fs')) /\
  (forall decay_time event_time,
     FileConsumer.push_decay self' decay_time event_time aid fs' = (Ok tt, fs')) /\
  (forall pulse_widths event_time,
     FileConsumer.push_pulse self' pulse_widths event_time aid fs' = (Ok tt, fs')) /\
  (forall data_type data run_id',
     well_shaped data_type data = true ->
     FileConsumer.push self' data data_type run_id' aid fs' = (Ok tt, fs')).
Proof.
  intros Hstop. pose proof (stop_removes_record _ _ _ _ _ _ Hstop) as Hnone.
  assert (Hraw : forall data, FileConsumer.push_raw self' data aid fs' = (Ok tt, fs'))
    by (intros; unfold FileConsumer.push_raw; by rewrite Hnone).
  assert (Hrate : forall r c t q, FileConsumer.push_rate self' r c t q aid fs' = (Ok tt, fs'))
    by (intros; unfold FileConsumer.push_rate; by rewrite Hnone).
  assert (Hvel : forall f e, FileConsumer.push_velocity self' f e aid fs' = (Ok tt, fs'))
    by (intros; unfold FileConsumer.push_velocity; by rewrite Hnone).
  assert (Hdec : forall d e, FileConsumer.push_decay self' d e aid fs' = (Ok tt, fs'))
    by (intros; unfold FileConsumer.push_decay; by rewrite Hnone).
  assert (Hpul : forall p e, FileConsumer.push_pulse self' p e aid fs' = (Ok tt, fs'))
    by (intros; unfold FileConsumer.push_pulse; by rewrite Hnone).
  repeat (split; [assumption|]).
  intros data_type data run_id' Hshape. unfold FileConsumer.push.
  destruct data_type; [apply Hraw|..];
    destruct data as [| | | | |d| |]; try discriminate Hshape; cbn [FileConsumer.get rbind].
  - simpl in Hshape. destruct (dict_get d "rates"); try discriminate Hshape.
    cbn [FileConsumer.as_list rbind]. apply Hrate.
  - apply Hpul.
  - apply Hdec.
  - apply Hvel.
Qed.

Lemma file_push_after_stop_witness :
  let started :=
    FileConsumer.start (FileConsumer.init "data") (Some 5%N) "RateAnalyzer" [RATE]
      example_world {| files := []; can_open := fun _ => true |} in
  let stopped := FileConsumer.stop started.1.1 (Some 5%N) "RateAnalyzer" started.2 in
  FileConsumer.push stopped.1.2
    (VDict [(VStr "rates", VList [VFloat 2.5]); (VStr "counts", VList [VInt 15])])
    RATE (Some 5%N) "RateAnalyzer" stopped.2 = (Ok tt, stopped.2).
Proof.
  intros started stopped.
  assert (H : FileConsumer.stop started.1.1 (Some 5%N) "RateAnalyzer" started.2
              = (Ok tt, stopped.1.2, stopped.2)) by (vm_compute; reflexivity).
  exact (proj2 (proj2 (proj2 (proj2 (proj2
    (file_push_after_stop started.1.1 stopped.1.2 (Some 5%N) "RateAnalyzer"
       started.2 stopped.2 H))))) RATE
    (VDict [(VStr "rates", VList [VFloat 2.5]); (VStr "counts", VList [VInt 15])])
    (Some 5%N) eq_refl).
Defined.

(** Before [stop], the same push writes a line: the handlers do reach the
    file while the record exists. *)
Lemma file_push_before_stop_writes :
  let started :=
    FileConsumer.start (FileConsumer.init "data") (Some 5%N) "DummyAnalyzer" [RAW]
      example_world {| files := []; can_open := fun _ => true |} in
  let pushed :=
    FileConsumer.push started.1.1 (VStr "DS") RAW (Some 5%N) "DummyAnalyzer" started.2 in
  pushed.1 = Ok tt /\
  map written (files pushed.2) = [[RawLine "DS"]].
Proof. vm_compute. split; reflexivity. Qed.

(** ** Default arguments *)

Lemma list_append_deref (l : loc) (x : objref) (w : world) :
  (l < length (lists w))%nat ->
  deref (list_append l x w) l = deref w l ++ [x].
Proof.
  intros Hl. unfold deref, list_append. simpl.
  by rewrite list_lookup_insert_eq.
Qed.

Lemma load_analyzers_allocates (w0 : world) :
  let d := (load_analyzers w0).1 in
  let w := (load_analyzers w0).2 in
  length (lists w) = (length (lists w0) + 6)%nat /\
  default_BaseAnalyzer d = length (lists w0) /\
  default_DummyAnalyzer d = (length (lists w0) + 1)%nat /\
  default_RateAnalyzer d = (length (lists w0) + 2)%nat /\
  default_DecayAnalyzer d = (length (lists w0) + 3)%nat /\
  default_VelocityAnalyzer d = (length (lists w0) + 4)%nat /\
  default_PulseAnalyzer d = (length (lists w0) + 5)%nat /\
  forall k, (k < 6)%nat -> deref w (length (lists w0) + k)%nat = [].
Proof.
  cbv zeta. unfold load_analyzers, alloc, deref. simpl.
  rewrite !length_app. simpl. repeat split; try lia.
  intros k Hk. rewrite <- !app_assoc. simpl.
  rewrite lookup_app_r by lia.
  replace (length (lists w0) + k - length (lists w0))%nat with k by lia.
  do 6 (destruct k as [|k]; [reflexivity|]). lia.
Qed.

(** C9 (the code departs from the claim): two analyzers of one class
    constructed without a [consumers] argument hold the same list object,
    the default value of the parameter; a consumer appended to the
    consumers of one is a consumer of the other. *)
Theorem default_consumers_are_shared (w0 : world) (c : objref) :
  let d := (load_analyzers w0).1 in
  let w := (load_analyzers w0).2 in
  let a := New.PulseAnalyzer d None in
  let b := New.PulseAnalyzer d None in
  let a' := New.BaseAnalyzer d None in
  let b' := New.BaseAnalyzer d None in
  consumers_of b w = [] /\
  consumers_of b (add_consumer a c w) = [c] /\
  consumers_of b' w = [] /\
  consumers_of b' (add_consumer a' c w) = [c].
Proof.
  cbv zeta. destruct (load_analyzers_allocates w0) as (Hlen & Hb & _ & _ & _ & _ & Hp & He).
  unfold consumers_of, add_consumer, New.PulseAnalyzer, New.BaseAnalyzer, Analyzer.base,
    PulseAnalyzer.init, BaseAnalyzer.init.
  cbn [BaseAnalyzer.consumers default from_option].
  rewrite Hb, Hp.
  rewrite !list_append_deref by lia.
  rewrite (He 5%nat), <- (Nat.add_0_r (length (lists w0))), (He 0%nat) by lia. done.
Qed.

(** With an explicit list for each, the consumers are separate. *)
Lemma explicit_consumers_are_separate (w : world) (la lb : loc) (c : objref) d :
  la <> lb ->
  consumers_of (New.BaseAnalyzer d (Some lb)) (add_consumer (New.BaseAnalyzer d (Some la)) c w)
    = consumers_of (New.BaseAnalyzer d (Some lb)) w.
Proof.
  intros Hne. unfold consumers_of, add_consumer, deref, list_append. simpl.
  by rewrite list_lookup_insert_ne.
Qed.

(** ** The dispatcher *)

Lemma call_invoked r x msg st :
  App.invoked (App.call r x msg st).2 = App.invoked st.
Proof.
  destruct x; unfold App.call.
  - by destruct (App.get_thresholds_from_msg _ _).
  - by destruct (App.get_channels_from_msg _ _).
  - by destruct (App.extractor_call _ _ _) as [[? ?] ?].
  - by destruct (Analyzer.calculate _ _ _) as [[? ?] ?].
Qed.

Lemma chain_invoked refs : forall msg st,
  exists l, App.invoked (App.chain refs msg st).2 = App.invoked st ++ l.
Proof.
  induction refs as [|r refs IH]; intros msg st; simpl.
  - exists []. by rewrite app_nil_r.
  - destruct (App.objects st !! r) as [x|]; [|exists []; by rewrite app_nil_r].
    destruct (App.eligible x); [|apply IH].
    pose proof (call_invoked r x msg (App.with_invoked (App.invoked st ++ [r]) st)) as Hc.
    destruct (App.call r x msg _) as [[res msg'] st']. simpl in Hc.
    destruct res as [[]|e]; simpl.
    + destruct (IH msg' st') as [l Hl]. exists (r :: l).
      by rewrite Hl, Hc, <- app_assoc.
    + exists [r]. by rewrite Hc.
    + exists [r]. by rewrite Hc.
Qed.

Lemma chain_first_invoked r post msg st x :
  App.objects st !! r = Some x -> App.eligible x = true ->
  exists l, App.invoked (App.chain (r :: post) msg st).2 = App.invoked st ++ r :: l.
Proof.
  intros Hx He. simpl. rewrite Hx, He.
  pose proof (call_invoked r x msg (App.with_invoked (App.invoked st ++ [r]) st)) as Hc.
  destruct (App.call r x msg _) as [[res msg'] st']. simpl in Hc.
  destruct res as [[]|e]; simpl.
  - destruct (chain_invoked post msg' st') as [l Hl]. exists l.
    by rewrite Hl, Hc, <- app_assoc.
  - exists []. by rewrite Hc.
  - exists []. by rewrite Hc.
Qed.

Lemma channels_guard s settings settings' :
  App.get_channels_from_msg s settings = (Ok false, settings') ->
  startswith s "DC " = true.
Proof.
  unfold App.get_channels_from_msg.
  destruct (startswith s "DC "); [done|]. simpl. discriminate.
Qed.

Lemma prefix_cons a p b s :
  String.prefix (String a p) (String b s) =
    if ascii_dec a b then String.prefix p s else false.
Proof. reflexivity. Qed.

Lemma not_threshold_line s settings :
  startswith s "DC " = true ->
  App.get_thresholds_from_msg s settings = (Ok true, settings).
Proof.
  unfold App.get_thresholds_from_msg, startswith.
  destruct s as [|c s]; [done|]. rewrite !prefix_cons.
  destruct (ascii_dec "D" c) as [<-|]; [|done].
  by destruct (ascii_dec "T" "D").
Qed.

Lemma app_state_eta st :
  App.with_app (App.app st) st = st.
Proof. by destruct st. Qed.

Lemma chain_stops (r : objref) (post : list objref) (msg msg' : envelope)
    (st st' : App.state) (x : App.callable) :
  App.objects st !! r = Some x -> App.eligible x = true ->
  App.call r x msg (App.with_invoked (App.invoked st ++ [r]) st) = (Ok false, msg', st') ->
  App.chain (r :: post) msg st = (Ok tt, msg', st') /\
  App.invoked st' = App.invoked st ++ [r].
Proof.
  intros Hx He Hc. simpl. rewrite Hx, He, Hc. split; [done|].
  pose proof (call_invoked r x msg (App.with_invoked (App.invoked st ++ [r]) st)) as Hi.
  by rewrite Hc in Hi.
Qed.

Lemma chain_continues (r : objref) (post : list objref) (msg msg' : envelope)
    (st st' : App.state) (x : App.callable) :
  App.objects st !! r = Some x -> App.eligible x = true ->
  App.call r x msg (App.with_invoked (App.invoked st ++ [r]) st) = (Ok true, msg', st') ->
  App.chain (r :: post) msg st = App.chain post msg' st'.
Proof. intros Hx He Hc. simpl. by rewrite Hx, He, Hc. Qed.

Lemma chain_skips (r : objref) (post : list objref) (msg : envelope)
    (st : App.state) (a : analyzer) :
  App.objects st !! r = Some (App.AnalyzerObj a) -> Analyzer.active a = false ->
  App.chain (r :: post) msg st = App.chain post msg st.
Proof. intros Hx Ha. simpl. rewrite Hx. simpl. by rewrite Ha. Qed.

Lemma acknowledgment_line (st : App.state) (th ch : objref) (rest : list objref)
    (s : string) (settings' : gmap string pyval) :
  chain_head st th ch rest ->
  App.get_channels_from_msg s (App._settings (App.app st)) = (Ok false, settings') ->
  let st' :=
    App.with_invoked (App.invoked st ++ [th; ch])
      (App.with_app
         (App.set_settings settings' (App.set_last_daq_msg (VStr s) (App.app st))) st) in
  App.process_line s st = (Ok tt, st') /\ chain_head st' th ch rest.
Proof.
  intros [Hrefs Hth Hch] Hs. cbv zeta.
  pose proof (channels_guard _ _ _ Hs) as Hdc.
  split; [|by split].
  unfold App.process_line. cbn [App.w App.with_app App.app App.analyzers App.set_last_daq_msg].
  rewrite Hrefs.
  cbn [App.chain App.objects App.with_app App.with_invoked]. rewrite Hth.
  cbn [App.eligible App.call raw App.app App.with_app App.with_invoked App._settings
       App.set_last_daq_msg].
  rewrite (not_threshold_line _ _ Hdc).
  cbn [App.chain App.objects App.with_app App.with_invoked]. rewrite Hch.
  cbn [App.eligible App.call raw App.app App.with_app App.with_invoked App._settings
       App.set_last_daq_msg App.set_settings].
  rewrite Hs. destruct st as [[]]; cbn. rewrite <- app_assoc. reflexivity.
Qed.

(** C5: in the loop of [process_incoming] over the chain, for one line:
    a called step that returns [False] ends the loop, the steps after it
    are not called (the state is the one that step left, and it is the last
    one recorded as called); a step that returns [True] passes the envelope
    on; an analyzer that is not active is passed over, and every object that
    is not an analyzer is called when the loop reaches it.  A line the
    channel scanner recognizes leads to the calls of the threshold scanner
    and of the channel scanner only, whatever follows them in the chain:
    the world of the analyzers and the objects stay as they were.  The line
    after it is processed from the first step of the chain again. *)
Theorem dispatcher_chain :
  (forall r post msg msg' st st' x,
     App.objects st !! r = Some x -> App.eligible x = true ->
     App.call r x msg (App.with_invoked (App.invoked st ++ [r]) st) = (Ok false, msg', st') ->
     App.chain (r :: post) msg st = (Ok tt, msg', st') /\
     App.invoked st' = App.invoked st ++ [r]) /\
  (forall r post msg msg' st st' x,
     App.objects st !! r = Some x -> App.eligible x = true ->
     App.call r x msg (App.with_invoked (App.invoked st ++ [r]) st) = (Ok true, msg', st') ->
     App.chain (r :: post) msg st = App.chain post msg' st') /\
  (forall r post msg st a,
     App.objects st !! r = Some (App.AnalyzerObj a) -> Analyzer.active a = false ->
     App.chain (r :: post) msg st = App.chain post msg st) /\
  (forall x, App.is_analyzer x = false -> App.eligible x = true) /\
  (forall a, App.eligible (App.AnalyzerObj a) = Analyzer.active a) /\
  (forall st th ch rest s settings',
     chain_head st th ch rest ->
     App.get_channels_from_msg s (App._settings (App.app st)) = (Ok false, settings') ->
     exists st1,
       App.process_line s st = (Ok tt, st1) /\
       App.invoked st1 = App.invoked st ++ [th; ch] /\
       App.w st1 = App.w st /\ App.objects st1 = App.objects st /\
       App._settings (App.app st1) = settings' /\
       chain_head st1 th ch rest /\
       forall s2 reads,
         App.process_reads (App.Line s :: App.Line s2 :: reads) st =
           App.process_reads (App.Line s2 :: reads) st1 /\
         exists l, App.invoked (App.process_line s2 st1).2 = App.invoked st1 ++ th :: l).
Proof.
  split; [exact chain_stops|]. split; [exact chain_continues|].
  split; [exact chain_skips|]. split; [by intros []|]. split; [done|].
  intros st th ch rest s settings' Hhead Hs.
  destruct (acknowledgment_line st th ch rest s settings' Hhead Hs) as [Hline Hhead'].
  eexists. split; [exact Hline|]. repeat split; try done.
  - by destruct Hhead'.
  - by destruct Hhead'.
  - by destruct Hhead'.
  - cbn [App.process_reads]. by rewrite Hline.
  - destruct Hhead' as [Hrefs Hth _].
    unfold App.process_line.
    match goal with |- context [App.chain ?refs ?m ?s] =>
      assert (Hr : refs = th :: ch :: rest) by exact Hrefs;
      rewrite Hr; clear Hr;
      destruct (chain_first_invoked th (ch :: rest) m s App.GetThresholdsFromMsg Hth eq_refl)
        as [l Hl];
      destruct (App.chain (th :: ch :: rest) m s) as [[res m'] st2] end.
    exists l. exact Hl.
Qed.

Lemma dispatcher_chain_witness :
  exists st1,
    App.process_line "DC C0=23 C1=71 C2=0A C3=00" example_app = (Ok tt, st1) /\
    App.invoked st1 = App.invoked example_app ++ [0; 1]%nat /\
    App.w st1 = App.w example_app /\ App.objects st1 = App.objects example_app.
Proof.
  assert (Hhead : chain_head example_app 0%nat 1%nat [2; 3]%nat) by (split; reflexivity).
  assert (Hs : App.get_channels_from_msg "DC C0=23 C1=71 C2=0A C3=00"
                 (App._settings (App.app example_app)) =
               (Ok false,
                (App.get_channels_from_msg "DC C0=23 C1=71 C2=0A C3=00"
                   (App._settings (App.app example_app))).2))
    by (vm_compute; reflexivity).
  destruct (proj2 (proj2 (proj2 (proj2 (proj2 dispatcher_chain))))
              example_app 0%nat 1%nat [2; 3]%nat _ _ Hhead Hs)
    as (st1 & H1 & H2 & H3 & H4 & _).
  exists st1. repeat split; assumption.
Defined.

(** A line that no scanner consumes reaches every step: both scanners,
    the extractor and the active analyzer are called, in this order; after
    an acknowledgment line the next line is passed through all of them
    again. *)
Lemma scalar_dump_reaches_analyzers :
  App.invoked (App.process_line (raw example_dump) example_app).2 = [0; 1; 2; 3]%nat /\
  App.invoked
    (App.process_reads
       [App.Line "DC C0=23 C1=71 C2=0A C3=00"; App.Line (raw example_dump)]
       example_app).2 = [0; 1; 0; 1; 2; 3]%nat.
Proof. split; vm_compute; reflexivity. Qed.


(** ** The buffered consumer *)

Section BufferedFacts.
Import BufferedConsumer BufferedInvariant.

Lemma has_poison_app l1 l2 : has_poison (l1 ++ l2) = has_poison l1 || has_poison l2.
Proof. apply existsb_app. Qed.

Lemma has_poison_map_Some (l : list item) : has_poison (map Some l) = false.
Proof. induction l; simpl; auto. Qed.

Lemma items_app l1 l2 : items (l1 ++ l2) = items l1 ++ items l2.
Proof. apply omap_app. Qed.

Lemma items_map_Some (l : list item) : items (map Some l) = l.
Proof. induction l; simpl; f_equal; auto. Qed.

Lemma no_poison_items l : has_poison l = false -> l = map Some (items l).
Proof.
  induction l as [|[x|] l IH]; simpl; intros H; [done| |done].
  f_equal. by apply IH.
Qed.

Lemma first_poison (g q r : list (option item)) (xs : list item) :
  has_poison g = false ->
  g ++ None :: q = map Some xs ++ None :: r ->
  g = map Some xs /\ q = r.
Proof.
  revert xs. induction g as [|[x|] g IH]; intros xs Hg H; simpl in *.
  - destruct xs; simpl in H; [by injection H|done].
  - destruct xs as [|y xs]; simpl in H; [done|].
    injection H as -> H. apply IH in H as [-> ->]; done.
  - done.
Qed.

Lemma pushes_of_app l1 l2 : pushes_of (l1 ++ l2) = pushes_of l1 ++ pushes_of l2.
Proof. apply omap_app. Qed.

Lemma pushes_of_starts cs (call : consumer_call) :
  (forall d dt r a, call <> CallPush d dt r a) ->
  pushes_of (map (fun c => (c, call)) cs) = [].
Proof.
  intros H. induction cs as [|c cs IH]; [done|]. simpl.
  unfold pushes_of in *. simpl. destruct call; try done. by destruct (H data data_type run_id analyzer_id).
Qed.

Lemma drop_mark {A} (mark : nat) (log l : list A) :
  (mark <= length log)%nat -> drop mark (log ++ l) = drop mark log ++ l.
Proof. intros H. by rewrite drop_app_le. Qed.

Lemma flat_map_snoc {A B} (f : A -> list B) l x :
  flat_map f (l ++ [x]) = flat_map f l ++ f x.
Proof. rewrite flat_map_app. simpl. by rewrite app_nil_r. Qed.

Lemma deliver_snoc cs c (it : item) : deliver (cs ++ [c]) it = deliver cs it ++ [(c, it)].
Proof. unfold deliver. by rewrite map_app. Qed.

Lemma inv_init n cs : inv n cs (init n cs).
Proof. by split. Qed.

(** The fields of a state, spelled out. *)
Ltac open_state s :=
  destruct s as [cs0 q u bs cn ac jn pt wk cl lg ps gs lm sm]; simpl in *;
  subst cs0 bs cn.

Lemma inv_finish n cs s aid :
  inv n cs s -> caller s = Idle -> inv n cs (finish aid s).
Proof.
  intros [Hc Hb Hcan Hf Hm Hw Hcnt Hfw Hmode] Hidle. open_state s. subst cl.
  split; simpl; try done.
  - rewrite length_app. lia.
  - unfold forwarded_ok, forwarded in *. simpl in *.
    rewrite drop_mark, pushes_of_app, pushes_of_starts, app_nil_r by done. done.
Qed.

Lemma poisoned_push mark ps pre racing (data : item) :
  poisoned mark ps pre racing -> poisoned mark (ps ++ [Some data]) pre racing.
Proof.
  intros (after & ? & ->). exists (after ++ [data]). split; [done|].
  rewrite !map_app, <- !app_assoc. reflexivity.
Qed.

Lemma inv_push n cs s s' data :
  inv n cs s -> push data s = Some s' -> inv n cs s'.
Proof.
  intros [Hc Hb Hcan Hf Hm Hw Hcnt Hfw Hmode]. unfold push.
  destruct (full s); [done|]. intros [= <-]. open_state s.
  split; simpl; try done.
  - by rewrite Hf, <- app_assoc.
  - rewrite length_app. simpl. unfold in_flight, poison_taken in *. simpl in *. lia.
  - unfold mode_ok in *. simpl in *.
    destruct pt, cl; try done;
      repeat match goal with
      | H : _ /\ _ |- _ => destruct H
      | H : exists _, _ |- _ => destruct H
      end;
      rewrite ?has_poison_app, ?items_app;
      repeat match goal with
      | |- _ /\ _ => split
      | |- exists _, _ => eexists
      | |- poisoned _ (_ ++ [Some _]) _ _ => apply poisoned_push
      | |- _ `prefix_of` _ ++ _ => apply prefix_app_r
      | H : ?x = false |- context [?x] => rewrite H
      | |- _ => eassumption
      | |- _ => done
      end.
Qed.

Ltac open_mode :=
  repeat match goal with
  | H : _ /\ _ |- _ => destruct H
  | H : exists _, _ |- _ => destruct H
  end.

Lemma forwarded_log_app s s' l :
  log_mark s' = log_mark s -> log s' = log s ++ l ->
  (log_mark s <= length (log s))%nat ->
  forwarded s' = forwarded s ++ pushes_of l.
Proof.
  intros Hmark Hlog Hm. unfold forwarded.
  by rewrite Hmark, Hlog, drop_mark, pushes_of_app.
Qed.

Lemma forwarded_ok_ext cs s s' :
  worker s' = worker s -> gets s' = gets s -> forwarded s' = forwarded s ->
  forwarded_ok cs s -> forwarded_ok cs s'.
Proof. unfold forwarded_ok. by intros -> -> ->. Qed.

Lemma start_first r aid types s :
  analyzer_count s = 0 -> process_thread s <> Running ->
  start r aid types s =
  let lg := log s ++ map (fun c => (c, CallStart r aid types)) (consumers s) in
  {| consumers := consumers s; queue := []; unfinished_tasks := 0;
     _buffer_size := _buffer_size s; cancel := cancel s; analyzer_count := 1;
     _joinable := false; process_thread := Running; worker := LoopHead;
     caller := caller s; log := lg; puts := []; gets := [];
     log_mark := length lg; stop_mark := None |}.
Proof.
  destruct s as [cs0 q u bs cn ac jn pt wk cl lg ps gs lm sm]. cbn.
  intros -> Hpt. unfold start. cbn.
  destruct pt; [| done |]; by destruct jn.
Qed.

Lemma start_again r aid types s :
  analyzer_count s <> 0 ->
  start r aid types s =
  set_analyzer_count (analyzer_count s + 1)
    (set_log (log s ++ map (fun c => (c, CallStart r aid types)) (consumers s)) s).
Proof.
  intros Hac. unfold start. cbn.
  by destruct (Z.eqb_spec (analyzer_count s) 0).
Qed.

Lemma inv_start n cs s r aid types :
  inv n cs s -> caller s = Idle -> inv n cs (start r aid types s).
Proof.
  intros [Hc Hb Hcan Hf Hm Hw Hcnt Hfw Hmode] Hidle.
  destruct (decide (analyzer_count s = 0)) as [Hac|Hac].
  - rewrite start_first; [| done |].
    + split; simpl; try done.
      * unfold forwarded_ok, forwarded. simpl. by rewrite drop_all.
      * unfold mode_ok. simpl. by rewrite Hidle.
    + unfold mode_ok in Hmode. rewrite Hidle in Hmode.
      intros Hr. rewrite Hr in Hmode. lia.
  - rewrite start_again by done.
    split; try done.
    + simpl. rewrite length_app. lia.
    + apply (forwarded_ok_ext cs s); try done.
      erewrite (forwarded_log_app s); [| done | simpl; reflexivity | done].
      by rewrite pushes_of_starts, app_nil_r.
    + unfold mode_ok in *. simpl. rewrite Hidle in *.
      destruct (process_thread s); open_mode; repeat split; try lia; eauto.
Qed.
Lemma inv_stop_call n cs s r aid :
  inv n cs s -> caller s = Idle -> inv n cs (stop_call r aid s).
Proof.
  intros [Hc Hb Hcan Hf Hm Hw Hcnt Hfw Hmode] Hidle.
  unfold mode_ok in Hmode. rewrite Hidle in Hmode.
  unfold stop_call. simpl.
  destruct (Z.eqb_spec (analyzer_count s - 1) 0) as [Hac|Hac]; split; simpl; try done.
  - unfold mode_ok. simpl.
    destruct (process_thread s); open_mode; try lia.
    repeat split; try done. by eexists.
  - unfold mode_ok. simpl.
    destruct (process_thread s); open_mode; repeat split; try lia; eauto.
Qed.

Lemma prefix_flat_map {A B} (f : A -> list B) (l1 l2 : list A) :
  l1 `prefix_of` l2 -> flat_map f l1 `prefix_of` flat_map f l2.
Proof. intros [k ->]. rewrite flat_map_app. by apply prefix_app_r. Qed.

Lemma length_zero_nil {A} (l : list A) : length l = 0%nat -> l = [].
Proof. by destruct l. Qed.

Lemma inv_resume n cs s s' :
  inv n cs s -> stop_resume s = Some s' -> inv n cs s'.
Proof.
  intros [Hc Hb Hcan Hf Hm Hw Hcnt Hfw Hmode]. unfold stop_resume.
  unfold mode_ok in Hmode.
  destruct (caller s) as [|r a|r a|r a|r a [|c rest]|e] eqn:Hcl; try done.
  - (* queue.join() returns *)
    destruct (Nat.eqb_spec (unfinished_tasks s) 0) as [Hu|]; [|done].
    intros [= <-]. split; simpl; try done.
    unfold mode_ok. simpl.
    destruct (process_thread s); try done.
    destruct Hmode as (Hac & Hp & pre & Hpre & Hpx).
    repeat split; try done. exists pre. repeat split; try done.
    rewrite Hu in Hcnt. unfold in_flight in Hcnt. unfold forwarded_ok in Hfw.
    destruct (worker s); [|lia].
    assert (Hq : queue s = []) by (apply length_zero_nil; lia).
    rewrite Hq, app_nil_r in Hf. unfold forwarded in *. simpl.
    rewrite Hfw, <- Hf. by apply prefix_flat_map.
  - (* queue.put(None) *)
    destruct (full s); [done|]. intros [= <-].
    destruct (process_thread s) eqn:Hpt; try done.
    destruct Hmode as (Hac & Hp & pre & Hpre & [racing Hpx] & Hpf).
    assert (Hg : has_poison (gets s) = false).
    { rewrite Hf, has_poison_app in Hp. by destruct (has_poison (gets s)). }
    split; simpl; try done.
    + by rewrite Hf, <- app_assoc.
    + rewrite length_app. simpl. unfold in_flight, poison_taken in *. simpl. lia.
    + unfold mode_ok. simpl. rewrite Hpt.
      repeat split; try done. exists pre, racing. split; [|done].
      exists []. split; [done|]. simpl.
      by rewrite (no_poison_items _ Hp), Hpx.
  - (* process_thread.join() returns *)
    destruct (process_thread s) eqn:Hpt; try done.
    intros [= <-]. split; simpl; try done.
    + intros _. apply Hw. congruence.
    + unfold mode_ok. simpl. by rewrite Hpt.
  - (* every consumer has been stopped *)
    intros [= <-]. by split.
  - (* consumer.stop(run_id, analyzer_id) *)
    intros [= <-]. split; simpl; try done.
    + rewrite length_app. simpl. lia.
    + apply (forwarded_ok_ext cs s); try done.
      erewrite (forwarded_log_app s); [| done | simpl; reflexivity | done].
      by rewrite app_nil_r.
Qed.

(** The conjuncts of [mode_ok] that survive a step which keeps the
    history of puts and only extends what was forwarded. *)
Ltac keep_mode :=
  open_mode;
  repeat match goal with
  | |- _ /\ _ => split
  | |- exists _, _ => eexists
  | |- _ `prefix_of` _ ++ _ => apply prefix_app_r
  | |- _ => eassumption
  | |- _ => done
  end.

Lemma inv_work_get n cs s data q :
  inv n cs s -> process_thread s = Running -> worker s = LoopHead ->
  queue s = Some data :: q ->
  inv n cs (set_worker (Forwarding data (consumers s))
              (set_gets (gets s ++ [Some data]) (set_queue q s))).
Proof.
  intros [Hc Hb Hcan Hf Hm Hw Hcnt Hfw Hmode] Hpt Hwk Hq.
  unfold mode_ok, forwarded_ok, in_flight, poison_taken in *.
  rewrite Hpt in Hmode. rewrite Hwk in Hfw, Hcnt. rewrite Hq in Hf, Hcnt.
  split; simpl; try done.
  - by rewrite Hf, <- app_assoc.
  - unfold in_flight, poison_taken. simpl in *.
    rewrite has_poison_app. simpl. rewrite orb_false_r. lia.
  - unfold forwarded_ok. simpl. exists (gets s), []. repeat split; [done|].
    unfold forwarded in *. simpl. by rewrite Hfw, app_nil_r.
  - unfold mode_ok. simpl. rewrite Hpt.
    destruct (caller s); try done; rewrite ?has_poison_app; simpl;
      rewrite ?orb_false_r; keep_mode.
Qed.

Lemma inv_work_poison n cs s q :
  inv n cs s -> process_thread s = Running -> worker s = LoopHead ->
  queue s = None :: q ->
  inv n cs (leave (set_gets (gets s ++ [None]) (set_queue q s))).
Proof.
  intros [Hc Hb Hcan Hf Hm Hw Hcnt Hfw Hmode] Hpt Hwk Hq.
  unfold mode_ok, forwarded_ok, in_flight, poison_taken in *.
  rewrite Hpt in Hmode. rewrite Hwk in Hfw, Hcnt. rewrite Hq in Hf, Hcnt.
  assert (Hp : has_poison (puts s) = true).
  { rewrite Hf, has_poison_app. simpl. apply orb_true_r. }
  destruct (caller s) eqn:Hcl; try done; open_mode; try congruence.
  match goal with H : poisoned _ _ _ _ |- _ => destruct H as (after & Hsm & Hps) end.
  match goal with H : has_poison (gets s) = false |- _ => rename H into Hg end.
  rewrite Hps in Hf. symmetry in Hf.
  destruct (first_poison _ _ _ _ Hg Hf) as [Hgs ->].
  split; simpl; try done.
  - by rewrite Hps, Hgs, <- app_assoc.
  - unfold in_flight, poison_taken. simpl. rewrite Hwk, has_poison_app. simpl.
    rewrite orb_true_r. rewrite Hg in Hcnt. simpl in Hcnt. lia.
  - unfold forwarded_ok. simpl. rewrite Hwk, items_app. simpl.
    unfold forwarded in *. simpl. by rewrite app_nil_r.
  - unfold mode_ok. simpl. rewrite Hcl. split; [lia|].
    eexists _, _. split; [by eexists|]. by rewrite Hgs.
Qed.

Lemma inv_work_forward n cs s d dt r a c rest :
  inv n cs s -> process_thread s = Running ->
  worker s = Forwarding (d, dt, r, a) (c :: rest) ->
  inv n cs (set_worker (Forwarding (d, dt, r, a) rest)
              (set_log (log s ++ [(c, CallPush d dt r a)]) s)).
Proof.
  intros [Hc Hb Hcan Hf Hm Hw Hcnt Hfw Hmode] Hpt Hwk.
  set (s' := set_worker _ _).
  assert (Hfs : forwarded s' = forwarded s ++ [(c, (d, dt, r, a))])
    by (by apply (forwarded_log_app s s' [(c, CallPush d dt r a)])).
  unfold mode_ok, forwarded_ok, in_flight, poison_taken in *.
  rewrite Hpt in Hmode. rewrite Hwk in Hfw, Hcnt.
  destruct Hfw as (g & served & Hg & Hcs & Hfw).
  split; try done.
  - simpl. rewrite length_app. simpl. lia.
  - unfold forwarded_ok. rewrite Hfs. simpl. exists g, (served ++ [c]).
    split; [done|]. split; [by rewrite <- app_assoc|].
    by rewrite Hfw, deliver_snoc, app_assoc.
  - unfold mode_ok. rewrite Hfs. simpl. rewrite Hpt.
    destruct (caller s); try done; keep_mode.
Qed.

Lemma inv_work_done n cs s data u :
  inv n cs s -> process_thread s = Running -> worker s = Forwarding data [] ->
  unfinished_tasks s = S u ->
  inv n cs (set_worker LoopHead (set_unfinished_tasks u s)).
Proof.
  intros [Hc Hb Hcan Hf Hm Hw Hcnt Hfw Hmode] Hpt Hwk Hu.
  unfold mode_ok, forwarded_ok, in_flight, poison_taken in *.
  rewrite Hpt in Hmode. rewrite Hwk in Hfw, Hcnt.
  destruct Hfw as (g & served & Hg & Hcs & Hfw). rewrite app_nil_r in Hcs. subst served.
  split; simpl; try done.
  - unfold in_flight, poison_taken. simpl. lia.
  - unfold forwarded_ok. simpl. unfold forwarded in *. simpl.
    rewrite Hfw, Hg, items_app. change (items [Some data]) with [data].
    by rewrite flat_map_snoc.
  - unfold mode_ok. simpl. by rewrite Hpt.
Qed.

Lemma inv_work n cs s s' :
  inv n cs s -> work s = Some s' -> inv n cs s'.
Proof.
  intros Hinv. unfold work.
  destruct (process_thread s) eqn:Hpt; try done.
  destruct (worker s) as [|[[[d dt] r] a] [|c rest]] eqn:Hwk.
  - rewrite (inv_cancel _ _ _ Hinv).
    destruct (queue s) as [|[data|] q] eqn:Hq; [done| |]; intros [= <-].
    + by apply inv_work_get.
    + by apply inv_work_poison.
  - destruct (unfinished_tasks s) as [|u] eqn:Hu; intros [= <-].
    + pose proof (inv_count _ _ _ Hinv) as Hcnt.
      unfold in_flight in Hcnt. rewrite Hwk in Hcnt. lia.
    + by eapply inv_work_done.
  - intros [= <-]. by apply inv_work_forward.
Qed.

Theorem exec_inv n cs a s s' : inv n cs s -> exec a s = Some s' -> inv n cs s'.
Proof.
  intros Hinv. destruct a; simpl.
  - destruct (caller s) eqn:Hcl; try done. intros [= <-]. by apply inv_start.
  - destruct (caller s) eqn:Hcl; try done. intros [= <-]. by apply inv_finish.
  - by apply inv_push.
  - destruct (caller s) eqn:Hcl; try done. intros [= <-]. by apply inv_stop_call.
  - by apply inv_resume.
  - by apply inv_work.
Qed.

Lemma reachable_inv n cs s : reachable n cs s -> inv n cs s.
Proof.
  induction 1 as [|s a s' _ IH Hexec]; [apply inv_init|].
  by apply (exec_inv n cs a s s').
Qed.

Lemma run_reachable n cs acts s s' :
  reachable n cs s -> run acts s = Some s' -> reachable n cs s'.
Proof.
  revert s. induction acts as [|a acts IH]; simpl; intros s Hs.
  - by intros [= <-].
  - destruct (exec a s) as [s1|] eqn:Hexec; [|done].
    apply IH. by apply (reachable_step n cs s a s1).
Qed.

Lemma run_app acts1 acts2 s :
  run (acts1 ++ acts2) s = run acts1 s ≫= run acts2.
Proof.
  revert s. induction acts1 as [|a acts1 IH]; simpl; intros s; [done|].
  by destruct (exec a s).
Qed.

(** Once the count is at zero or below, only [start] raises it again, and
    only [start] begins a new queue. *)
Lemma exec_after_stop a s s' :
  exec a s = Some s' -> is_start a = false ->
  analyzer_count s <= 0 -> process_thread s <> NotStarted ->
  analyzer_count s' <= 0 /\ stop_mark s' = stop_mark s /\
  process_thread s' <> NotStarted /\
  items (puts s') = items (puts s) ++ pushed [a].
Proof.
  destruct a; simpl; try done.
  - destruct (caller s); try done. intros [= <-]. simpl. by rewrite app_nil_r.
  - unfold push. destruct (full s); [done|]. intros [= <-]. simpl.
    by rewrite items_app.
  - destruct (caller s); try done. intros [= <-] _ Hac Hpt.
    unfold stop_call. simpl. rewrite app_nil_r.
    destruct (Z.eqb_spec (analyzer_count s - 1) 0); simpl; repeat split;
      try lia; try done.
  - intros Hr _ Hac Hpt. unfold stop_resume in Hr. rewrite app_nil_r.
    repeat case_match; simplify_eq; simpl; rewrite ?items_app, ?app_nil_r;
      repeat split; congruence.
  - intros Hr _ Hac Hpt. unfold work, leave in Hr. rewrite app_nil_r.
    repeat case_match; simplify_eq; simpl; repeat split; congruence.
Qed.

Lemma pushed_cons a acts : pushed (a :: acts) = pushed [a] ++ pushed acts.
Proof. unfold pushed. simpl. by destruct a. Qed.

Lemma run_after_stop acts s s' :
  run acts s = Some s' -> forallb (fun a => negb (is_start a)) acts = true ->
  analyzer_count s <= 0 -> process_thread s <> NotStarted ->
  analyzer_count s' <= 0 /\ stop_mark s' = stop_mark s /\
  process_thread s' <> NotStarted /\
  items (puts s') = items (puts s) ++ pushed acts.
Proof.
  revert s. induction acts as [|a acts IH]; simpl; intros s.
  - intros [= <-]. by rewrite app_nil_r.
  - destruct (exec a s) as [s1|] eqn:Hexec; [|done].
    intros Hrun [Ha Hacts]%andb_prop Hac Hpt.
    apply negb_true_iff in Ha.
    destruct (exec_after_stop a s s1 Hexec Ha Hac Hpt) as (Hac1 & Hsm1 & Hpt1 & Hit1).
    destruct (IH s1 Hrun Hacts Hac1 Hpt1) as (? & ? & ? & Hit).
    repeat split; try done; try congruence.
    change (items (puts s') = items (puts s) ++ pushed (a :: acts)).
    by rewrite Hit, Hit1, (pushed_cons a acts), app_assoc.
Qed.

Lemma filter_deliver_other c cs (it : item) :
  c ∉ cs -> filter (fun e : objref * item => fst e = c) (deliver cs it) = [].
Proof.
  induction cs as [|x cs IH]; [done|]. intros [Hx Hc]%not_elem_of_cons.
  unfold deliver in *. simpl. rewrite filter_cons. simpl.
  destruct (decide (x = c)); [congruence|]. by apply IH.
Qed.

Lemma filter_deliver c cs (it : item) :
  NoDup cs -> c ∈ cs ->
  filter (fun e : objref * item => fst e = c) (deliver cs it) = [(c, it)].
Proof.
  induction 1 as [|x cs Hx Hnd IH]; intros Hin; [by apply elem_of_nil in Hin|].
  change (deliver (x :: cs) it) with ((x, it) :: deliver cs it).
  rewrite filter_cons. simpl. destruct (decide (x = c)) as [->|Hne].
  - by rewrite filter_deliver_other.
  - apply IH. apply elem_of_cons in Hin. destruct Hin; [congruence|done].
Qed.

Lemma received_deliver c cs (l : list item) :
  NoDup cs -> c ∈ cs ->
  map snd (filter (fun e : objref * item => fst e = c) (flat_map (deliver cs) l)) = l.
Proof.
  intros Hnd Hc. induction l as [|it l IH]; [done|]. simpl.
  rewrite filter_app, map_app, filter_deliver, IH by done. done.
Qed.

(** The state after the [stop] that takes the count from one to zero and
    any steps that follow it, as long as nobody calls [start] again. *)
Lemma after_last_stop n cs acts1 r a acts2 s1 s2 :
  run acts1 (init n cs) = Some s1 -> analyzer_count s1 = 1 ->
  run (Stop r a :: acts2) s1 = Some s2 ->
  forallb (fun x => negb (is_start x)) acts2 = true ->
  inv n cs s2 /\ analyzer_count s2 <= 0 /\
  stop_mark s2 = Some (items (puts s1)) /\ process_thread s2 <> NotStarted /\
  items (puts s2) = items (puts s1) ++ pushed acts2.
Proof.
  intros Hrun1 Hac Hrun2 Hacts.
  assert (Hr1 : reachable n cs s1) by (eapply run_reachable; [constructor|done]).
  assert (Hr2 : reachable n cs s2) by (by eapply run_reachable).
  split; [by apply reachable_inv|].
  pose proof (inv_mode _ _ _ (reachable_inv _ _ _ Hr1)) as Hmode.
  unfold mode_ok in Hmode. simpl in Hrun2.
  destruct (caller s1) eqn:Hcl; try done.
  destruct (process_thread s1) eqn:Hpt; try lia.
  assert (Hs : analyzer_count (stop_call r a s1) <= 0 /\
               stop_mark (stop_call r a s1) = Some (items (puts s1)) /\
               process_thread (stop_call r a s1) <> NotStarted /\
               puts (stop_call r a s1) = puts s1).
  { unfold stop_call. simpl. rewrite Hac. simpl. by rewrite Hpt. }
  destruct Hs as (Hac' & Hsm' & Hpt' & Hps').
  destruct (run_after_stop _ _ _ Hrun2 Hacts Hac' Hpt') as (? & ? & ? & Hit).
  repeat split; try done; congruence.
Qed.

Lemma drained_before_sentinel n cs s pre :
  inv n cs s -> analyzer_count s <= 0 -> stop_mark s = Some pre ->
  process_thread s <> NotStarted -> has_poison (puts s) = true ->
  flat_map (deliver cs) pre `prefix_of` forwarded s.
Proof.
  intros [Hc Hb Hcan Hf Hm Hw Hcnt Hfw Hmode] Hac Hsm Hpt Hp.
  unfold mode_ok in Hmode.
  destruct (process_thread s) eqn:Hth; [done| |].
  - destruct (caller s); try done; open_mode; try lia; try congruence.
    match goal with H : poisoned _ _ _ _ |- _ => destruct H as (after & Hsm' & Hps) end.
    congruence.
  - assert (exists pre' racing, poisoned (stop_mark s) (puts s) pre' racing /\
                                gets s = map Some (pre' ++ racing) ++ [None])
      as (pre' & racing & (after & Hsm' & Hps) & Hg)
      by (destruct (caller s); try done; apply Hmode).
    unfold forwarded_ok in Hfw. rewrite Hw in Hfw by done.
    rewrite Hfw, Hg, items_app, items_map_Some, app_nil_r, flat_map_app.
    replace pre with pre' by congruence. by apply prefix_app_r.
Qed.

Lemma forwarded_at_exit n cs s pre :
  inv n cs s -> stop_mark s = Some pre -> process_thread s = Finished ->
  exists racing after,
    items (puts s) = pre ++ racing ++ after /\
    forwarded s = flat_map (deliver cs) (pre ++ racing).
Proof.
  intros [Hc Hb Hcan Hf Hm Hw Hcnt Hfw Hmode] Hsm Hth.
  unfold mode_ok in Hmode. rewrite Hth in Hmode.
  assert (exists pre' racing, poisoned (stop_mark s) (puts s) pre' racing /\
                              gets s = map Some (pre' ++ racing) ++ [None])
    as (pre' & racing & (after & Hsm' & Hps) & Hg)
    by (destruct (caller s); try done; apply Hmode).
  exists racing, after. unfold forwarded_ok in Hfw. rewrite Hw in Hfw by congruence.
  replace pre with pre' by congruence. split.
  - rewrite Hps, items_app, items_map_Some. simpl.
    change (omap id (map Some after)) with (items (map Some after)).
    by rewrite items_map_Some, app_assoc.
  - by rewrite Hfw, Hg, items_app, items_map_Some, app_nil_r.
Qed.

Lemma steps_refl s : steps_to s s.
Proof. by exists []. Qed.

Lemma steps_one a s s' : exec a s = Some s' -> is_own_step a = true -> steps_to s s'.
Proof. intros He Ha. exists [a]. simpl. by rewrite He, Ha. Qed.

Lemma steps_trans s1 s2 s3 : steps_to s1 s2 -> steps_to s2 s3 -> steps_to s1 s3.
Proof.
  intros (l1 & Hl1 & Hr1) (l2 & Hl2 & Hr2). exists (l1 ++ l2). split.
  - rewrite forallb_app. by rewrite Hl1, Hl2.
  - rewrite run_app, Hr1. done.
Qed.

Lemma steps_inv n cs s s' : inv n cs s -> steps_to s s' -> inv n cs s'.
Proof.
  intros Hinv (acts & _ & Hrun). revert s Hinv Hrun.
  induction acts as [|a acts IH]; simpl; intros s Hinv.
  - by intros [= <-].
  - destruct (exec a s) as [s1|] eqn:Hexec; [|done].
    apply IH. by apply (exec_inv n cs a s s1).
Qed.

Lemma completes_after s s1 : steps_to s s1 -> completes s1 -> completes s.
Proof.
  intros H1 (s' & H2 & ?). exists s'. split; [|done]. by apply (steps_trans s s1 s').
Qed.

(** The worker finishes the item it holds. *)
Lemma work_forwarding n cs data rest : forall s,
  inv n cs s -> process_thread s = Running -> worker s = Forwarding data rest ->
  exists s', steps_to s s' /\ process_thread s' = Running /\ worker s' = LoopHead /\
             queue s' = queue s /\ caller s' = caller s.
Proof.
  induction rest as [|c rest IH]; intros s Hinv Hpt Hwk.
  - destruct (unfinished_tasks s) as [|u] eqn:Hu.
    { pose proof (inv_count _ _ _ Hinv) as Hcnt.
      unfold in_flight in Hcnt. rewrite Hwk in Hcnt. lia. }
    exists (set_worker LoopHead (set_unfinished_tasks u s)). split; [|done].
    apply (steps_one Work); [|done]. simpl. unfold work. by rewrite Hpt, Hwk, Hu.
  - destruct data as [[[d dt] r] a].
    set (s1 := set_worker (Forwarding (d, dt, r, a) rest)
                 (set_log (log s ++ [(c, CallPush d dt r a)]) s)).
    assert (He : exec Work s = Some s1) by (simpl; unfold work; by rewrite Hpt, Hwk).
    destruct (IH s1) as (s' & Hst & ? & ? & ? & ?);
      [by apply (exec_inv n cs Work s)|done|done|].
    exists s'. split; [|done]. apply (steps_trans s s1 s'); [|done].
    by apply (steps_one Work).
Qed.

(** At the head of its loop, the worker takes the next item. *)
Lemma work_get n cs s data q :
  inv n cs s -> process_thread s = Running -> worker s = LoopHead ->
  queue s = Some data :: q ->
  exists s', steps_to s s' /\ inv n cs s' /\ process_thread s' = Running /\
             worker s' = LoopHead /\ queue s' = q /\ caller s' = caller s.
Proof.
  intros Hinv Hpt Hwk Hq.
  set (s1 := set_worker (Forwarding data (consumers s))
               (set_gets (gets s ++ [Some data]) (set_queue q s))).
  assert (He : exec Work s = Some s1).
  { simpl. unfold work. by rewrite Hpt, Hwk, (inv_cancel _ _ _ Hinv), Hq. }
  assert (Hinv1 : inv n cs s1) by (by apply (exec_inv n cs Work s)).
  destruct (work_forwarding n cs data (consumers s) s1 Hinv1)
    as (s' & Hst & ? & ? & ? & ?); [done|done|].
  assert (Hst' : steps_to s s').
  { apply (steps_trans s s1 s'); [|done]. by apply (steps_one Work). }
  exists s'. split; [done|]. split; [by apply (steps_inv n cs s)|]. by subst s1.
Qed.

Lemma work_drains n cs q : forall s,
  inv n cs s -> process_thread s = Running -> worker s = LoopHead ->
  queue s = q -> has_poison q = false ->
  exists s', steps_to s s' /\ process_thread s' = Running /\ worker s' = LoopHead /\
             queue s' = [] /\ caller s' = caller s.
Proof.
  induction q as [|[data|] q IH]; intros s Hinv Hpt Hwk Hq Hp; [|  |done].
  - exists s. repeat split; try done. apply steps_refl.
  - destruct (work_get n cs s data q) as (s1 & Hst & Hinv1 & ? & ? & ? & Hcl); try done.
    destruct (IH s1) as (s' & Hst' & ? & ? & ? & Hcl'); try done.
    exists s'. repeat split; try done; [|congruence].
    by apply (steps_trans s s1 s').
Qed.

Lemma work_exits n cs q : forall s,
  inv n cs s -> process_thread s = Running -> worker s = LoopHead ->
  queue s = q -> has_poison q = true ->
  exists s', steps_to s s' /\ process_thread s' = Finished /\ caller s' = caller s.
Proof.
  induction q as [|[data|] q IH]; intros s Hinv Hpt Hwk Hq Hp; [done| |].
  - destruct (work_get n cs s data q) as (s1 & Hst & Hinv1 & ? & ? & ? & Hcl); try done.
    destruct (IH s1) as (s' & Hst' & ? & Hcl'); try done.
    exists s'. repeat split; try done; [|congruence].
    by apply (steps_trans s s1 s').
  - exists (leave (set_gets (gets s ++ [None]) (set_queue q s))). split; [|done].
    apply (steps_one Work); [|done].
    simpl. unfold work. by rewrite Hpt, Hwk, (inv_cancel _ _ _ Hinv), Hq.
Qed.

(** The same from wherever the worker is. *)
Lemma work_to_loop_head n cs s :
  inv n cs s -> process_thread s = Running ->
  exists s', steps_to s s' /\ inv n cs s' /\ process_thread s' = Running /\
             worker s' = LoopHead /\ queue s' = queue s /\ caller s' = caller s.
Proof.
  intros Hinv Hpt. destruct (worker s) as [|data rest] eqn:Hwk.
  - exists s. split; [apply steps_refl|]. by split.
  - destruct (work_forwarding n cs data rest s) as (s' & Hst & ? & ? & ? & ?); try done.
    exists s'. split; [done|]. split; [by apply (steps_inv n cs s)|done].
Qed.

Lemma no_poison_queue n cs s :
  inv n cs s -> has_poison (puts s) = false ->
  has_poison (gets s) = false /\ has_poison (queue s) = false.
Proof.
  intros Hinv Hp. rewrite (inv_fifo _ _ _ Hinv), has_poison_app in Hp.
  by apply orb_false_elim.
Qed.

Lemma completes_forward_stop r a l : forall s,
  process_thread s = Finished -> caller s = ForwardStop r a l -> completes s.
Proof.
  induction l as [|c rest IH]; intros s Hpt Hcl.
  - exists (set_caller Idle s). split; [|done].
    apply (steps_one Resume); [|done]. simpl. unfold stop_resume. by rewrite Hcl.
  - apply (completes_after s (set_caller (ForwardStop r a rest)
                                (set_log (log s ++ [(c, CallStop r a)]) s))).
    + apply (steps_one Resume); [|done]. simpl. unfold stop_resume. by rewrite Hcl.
    + by apply IH.
Qed.

Lemma completes_joined s r a :
  process_thread s = Finished -> caller s = ThreadJoin r a -> completes s.
Proof.
  intros Hpt Hcl.
  apply (completes_after s (set_caller (ForwardStop r a (consumers s)) s)).
  - apply (steps_one Resume); [|done]. simpl. unfold stop_resume. by rewrite Hcl, Hpt.
  - by apply (completes_forward_stop r a (consumers s)).
Qed.

Lemma completes_thread_join n cs s r a :
  inv n cs s -> process_thread s = Running -> caller s = ThreadJoin r a ->
  completes s.
Proof.
  intros Hinv Hpt Hcl.
  destruct (work_to_loop_head n cs s Hinv Hpt) as (s1 & Hst1 & Hinv1 & Hpt1 & Hwk1 & Hq1 & Hcl1).
  apply (completes_after s s1 Hst1).
  assert (Hp : has_poison (queue s1) = true).
  { pose proof (inv_mode _ _ _ Hinv1) as Hmode. unfold mode_ok in Hmode.
    rewrite Hpt1, Hcl1, Hcl in Hmode.
    destruct Hmode as (_ & Hg & pre & racing & (after & _ & Hps) & _).
    pose proof (inv_fifo _ _ _ Hinv1) as Hf. rewrite Hps in Hf.
    apply (f_equal has_poison) in Hf.
    rewrite !has_poison_app, has_poison_map_Some, Hg in Hf. simpl in Hf. done. }
  destruct (work_exits n cs (queue s1) s1) as (s2 & Hst2 & Hpt2 & Hcl2); try done.
  apply (completes_after s1 s2 Hst2).
  apply (completes_joined s2 r a); congruence.
Qed.

Lemma completes_put_poison n cs s r a :
  inv n cs s -> process_thread s = Running -> caller s = PutPoison r a ->
  completes s.
Proof.
  intros Hinv Hpt Hcl.
  destruct (work_to_loop_head n cs s Hinv Hpt) as (s1 & Hst1 & Hinv1 & Hpt1 & Hwk1 & Hq1 & Hcl1).
  apply (completes_after s s1 Hst1).
  assert (Hp : has_poison (queue s1) = false).
  { pose proof (inv_mode _ _ _ Hinv1) as Hmode. unfold mode_ok in Hmode.
    rewrite Hpt1, Hcl1, Hcl in Hmode. destruct Hmode as (_ & Hp & _).
    by apply (no_poison_queue n cs s1). }
  destruct (work_drains n cs (queue s1) s1) as (s2 & Hst2 & Hpt2 & Hwk2 & Hq2 & Hcl2);
    try done.
  apply (completes_after s1 s2 Hst2).
  assert (Hinv2 : inv n cs s2) by (by apply (steps_inv n cs s1)).
  assert (He : exec Resume s2 = Some (set_caller (ThreadJoin r a) (put None s2))).
  { simpl. unfold stop_resume, full. rewrite Hcl2, Hcl1, Hcl, Hq2. simpl.
    destruct (Z.ltb_spec 0 (_buffer_size s2)),
      (Z.leb_spec (_buffer_size s2) (Z.of_nat 0)); simpl in *; try done; lia. }
  apply (completes_after s2 _ (steps_one Resume _ _ He eq_refl)).
  apply (completes_thread_join n cs _ r a); [|done|done].
  by apply (exec_inv n cs Resume s2).
Qed.

Lemma completes_queue_join n cs s r a :
  inv n cs s -> process_thread s = Running -> caller s = QueueJoin r a ->
  completes s.
Proof.
  intros Hinv Hpt Hcl.
  destruct (work_to_loop_head n cs s Hinv Hpt) as (s1 & Hst1 & Hinv1 & Hpt1 & Hwk1 & Hq1 & Hcl1).
  apply (completes_after s s1 Hst1).
  assert (Hp : has_poison (queue s1) = false).
  { pose proof (inv_mode _ _ _ Hinv1) as Hmode. unfold mode_ok in Hmode.
    rewrite Hpt1, Hcl1, Hcl in Hmode. destruct Hmode as (_ & Hp & _).
    by apply (no_poison_queue n cs s1). }
  destruct (work_drains n cs (queue s1) s1) as (s2 & Hst2 & Hpt2 & Hwk2 & Hq2 & Hcl2);
    try done.
  apply (completes_after s1 s2 Hst2).
  assert (Hinv2 : inv n cs s2) by (by apply (steps_inv n cs s1)).
  assert (Hu : unfinished_tasks s2 = 0%nat).
  { pose proof (inv_mode _ _ _ Hinv2) as Hmode. unfold mode_ok in Hmode.
    rewrite Hpt2, Hcl2, Hcl1, Hcl in Hmode. destruct Hmode as (_ & Hp2 & _).
    destruct (no_poison_queue n cs s2 Hinv2 Hp2) as [Hg _].
    rewrite (inv_count _ _ _ Hinv2). unfold in_flight, poison_taken.
    by rewrite Hq2, Hwk2, Hg. }
  assert (He : exec Resume s2 = Some (set_caller (PutPoison r a) s2)).
  { simpl. unfold stop_resume. by rewrite Hcl2, Hcl1, Hcl, Hu. }
  apply (completes_after s2 _ (steps_one Resume _ _ He eq_refl)).
  apply (completes_put_poison n cs _ r a); [|done|done].
  by apply (exec_inv n cs Resume s2).
Qed.

(** Once the count is at zero or below and the worker has been started,
    the worker and the stopping thread come to rest by themselves. *)
Lemma stop_completes n cs s :
  inv n cs s -> analyzer_count s <= 0 -> process_thread s <> NotStarted ->
  completes s.
Proof.
  intros Hinv Hac Hpt.
  pose proof (inv_mode _ _ _ Hinv) as Hmode. unfold mode_ok in Hmode.
  destruct (process_thread s) eqn:Hth; [done| |].
  - destruct (caller s) eqn:Hcl; try done; try (destruct Hmode; lia).
    + by apply (completes_queue_join n cs s run_id analyzer_id).
    + by apply (completes_put_poison n cs s run_id analyzer_id).
    + by apply (completes_thread_join n cs s run_id analyzer_id).
  - destruct (caller s) eqn:Hcl; try done.
    + exists s. split; [apply steps_refl|done].
    + by apply (completes_joined s run_id analyzer_id).
    + by apply (completes_forward_stop run_id analyzer_id rest s).
Qed.

(** While the count stays at one or more, the queue is the one the worker
    was launched with, and what was put on it is what was pushed. *)
Lemma exec_stays_up n cs a s s' :
  inv n cs s -> exec a s = Some s' ->
  1 <= analyzer_count s -> 1 <= analyzer_count s' ->
  puts s' = puts s ++ map Some (pushed [a]).
Proof.
  intros Hinv He Hac Hac'.
  pose proof (inv_mode _ _ _ Hinv) as Hmode. unfold mode_ok in Hmode.
  destruct a; simpl in He.
  - destruct (caller s); try done. injection He as <-.
    rewrite start_again by lia. simpl. by rewrite app_nil_r.
  - destruct (caller s); try done. injection He as <-. simpl. by rewrite app_nil_r.
  - unfold push in He. destruct (full s); [done|]. by injection He as <-.
  - destruct (caller s); try done. injection He as <-. revert Hac'.
    unfold stop_call. simpl.
    destruct (Z.eqb_spec (analyzer_count s - 1) 0); simpl; [lia|].
    by rewrite app_nil_r.
  - unfold stop_resume in He.
    destruct (process_thread s), (caller s) as [| | | |? ? [|]|];
      try done; open_mode; try lia; injection He as <-; simpl; by rewrite app_nil_r.
  - unfold work, leave in He. simpl. rewrite app_nil_r.
    repeat case_match; simplify_eq; done.
Qed.

Lemma run_stays_up n cs acts : forall s s',
  inv n cs s -> run acts s = Some s' -> stays_up acts s = true ->
  1 <= analyzer_count s ->
  puts s' = puts s ++ map Some (pushed acts).
Proof.
  induction acts as [|a acts IH]; simpl; intros s s' Hinv.
  - intros [= <-] _ _. by rewrite app_nil_r.
  - destruct (exec a s) as [s1|] eqn:He; [|done].
    intros Hrun [Hac1%Z.leb_le Hup]%andb_prop Hac.
    rewrite (IH s1 s') by (try done; by apply (exec_inv n cs a s)).
    rewrite (exec_stays_up n cs a s s1) by done.
    unfold pushed. simpl. rewrite <- app_assoc. f_equal.
    by destruct a.
Qed.

(** The [start] that finds the count at zero launches the worker on an
    empty queue. *)
Lemma start_launches n cs s r a t :
  inv n cs s -> caller s = Idle -> analyzer_count s = 0 ->
  puts (start r a t s) = [] /\ analyzer_count (start r a t s) = 1.
Proof.
  intros Hinv Hcl Hac.
  pose proof (inv_mode _ _ _ Hinv) as Hmode. unfold mode_ok in Hmode.
  rewrite Hcl in Hmode. rewrite start_first; [done|done|].
  intros Hpt. rewrite Hpt in Hmode. lia.
Qed.

(** C4: a [stop] that takes the count of analyzers from one to zero drains
    the queue before it shuts the worker down.  The worker is launched by
    a [start] that finds the count at zero; then analyzers start, push,
    finish and stop and the worker runs, in any interleaving that keeps the
    count at one or more ([acts1]); then [stop] takes the count to zero and
    anything but a [start] may follow ([acts2]: steps of [stop] and of the
    worker, and pushes that race with the [stop]).  In every state reached
    this way: once the sentinel has been put on the queue, each item pushed
    in [acts1] has been forwarded to each wrapped consumer, in the order of
    the pushes; once the worker has exited, the calls of [push] on the
    wrapped consumers are exactly those for the items pushed in [acts1]
    followed by some of the racing items, each item going once to each
    consumer, so that a consumer wrapped once has received these items once
    each in the order of the pushes; and the worker and [stop], run by
    themselves, reach the state in which the worker has exited and [stop]
    has returned. *)
Theorem stop_drains_queue n cs acts0 s0 r0 a0 t0 acts1 s1 r a acts2 s2 :
  run acts0 (init n cs) = Some s0 ->
  analyzer_count s0 = 0 ->
  run (Start r0 a0 t0 :: acts1) s0 = Some s1 ->
  stays_up (Start r0 a0 t0 :: acts1) s0 = true ->
  analyzer_count s1 = 1 ->
  run (Stop r a :: acts2) s1 = Some s2 ->
  forallb (fun x => negb (is_start x)) acts2 = true ->
  (has_poison (puts s2) = true ->
   flat_map (deliver cs) (pushed acts1) `prefix_of` forwarded s2) /\
  (process_thread s2 = Finished ->
   exists racing,
     racing `prefix_of` pushed acts2 /\
     forwarded s2 = flat_map (deliver cs) (pushed acts1 ++ racing) /\
     forall c, NoDup cs -> c ∈ cs -> received c s2 = pushed acts1 ++ racing) /\
  completes s2.
Proof.
  intros Hrun0 Hac0 Hrun1 Hup Hac1 Hrun2 Hacts.
  assert (Hinv0 : inv n cs s0).
  { apply reachable_inv. eapply run_reachable; [constructor|done]. }
  simpl in Hrun1, Hup. destruct (caller s0) eqn:Hcl0; try done.
  destruct (start_launches n cs s0 r0 a0 t0 Hinv0 Hcl0 Hac0) as [Hp Hc].
  apply andb_prop in Hup as [_ Hup].
  assert (Hinva : inv n cs (start r0 a0 t0 s0)) by (by apply inv_start).
  assert (Hpre : items (puts s1) = pushed acts1).
  { rewrite (run_stays_up n cs acts1 _ s1 Hinva Hrun1 Hup) by lia.
    rewrite Hp. simpl. apply items_map_Some. }
  assert (Hrun01 : run (acts0 ++ Start r0 a0 t0 :: acts1) (init n cs) = Some s1).
  { rewrite run_app, Hrun0. simpl. by rewrite Hcl0. }
  destruct (after_last_stop n cs _ r a acts2 s1 s2 Hrun01 Hac1 Hrun2 Hacts)
    as (Hinv2 & Hac2 & Hsm2 & Hpt2 & Hit2).
  rewrite Hpre in Hsm2, Hit2.
  split; [|split].
  - intros Hpoison. by apply (drained_before_sentinel n cs s2).
  - intros Hfin.
    destruct (forwarded_at_exit n cs s2 _ Hinv2 Hsm2 Hfin) as (racing & after & Hit & Hfw).
    exists racing. split; [|split].
    + rewrite Hit2 in Hit. apply app_inv_head in Hit. by exists after.
    + done.
    + intros c Hnd Hc'. unfold received. rewrite Hfw. by apply received_deliver.
  - by apply (stop_completes n cs).
Qed.

Lemma stop_drains_queue_witness :
  (has_poison (puts example_stopped) = true ->
   flat_map (deliver [0; 1]%nat) (pushed example_before_stop)
     `prefix_of` forwarded example_stopped) /\
  (process_thread example_stopped = Finished ->
   exists racing,
     racing `prefix_of` pushed example_after_stop /\
     forwarded example_stopped =
       flat_map (deliver [0; 1]%nat) (pushed example_before_stop ++ racing) /\
     forall c, NoDup [0; 1]%nat -> c ∈ [0; 1]%nat ->
       received c example_stopped = pushed example_before_stop ++ racing) /\
  completes example_stopped.
Proof.
  apply (stop_drains_queue 1 [0; 1]%nat [] (init 1 [0; 1]%nat)
           (Some 7%N) "DummyAnalyzer" [RAW] example_before_stop example_stopping
           (Some 7%N) "DummyAnalyzer" example_after_stop example_stopped);
    reflexivity.
Defined.

(** The schedule of the example: the first push fills the queue, the worker
    forwards the item to both consumers, the second push goes through,
    [stop] waits until the worker has forwarded it as well, and only then
    puts the sentinel. *)
Lemma example_schedule_delivers :
  run (example_launch :: example_before_stop) (init 1 [0; 1]%nat) = Some example_stopping /\
  run (Stop (Some 7%N) "DummyAnalyzer" :: example_after_stop) example_stopping =
    Some example_stopped /\
  process_thread example_stopped = Finished /\ caller example_stopped = Idle /\
  received 0%nat example_stopped = example_pushes /\
  received 1%nat example_stopped = example_pushes /\
  log example_stopped =
    [(0%nat, CallStart (Some 7%N) "DummyAnalyzer" [RAW]);
     (1%nat, CallStart (Some 7%N) "DummyAnalyzer" [RAW]);
     (0%nat, CallPush (VStr "first") RAW (Some 7%N) "DummyAnalyzer");
     (1%nat, CallPush (VStr "first") RAW (Some 7%N) "DummyAnalyzer");
     (0%nat, CallPush (VStr "second") RAW (Some 7%N) "DummyAnalyzer");
     (1%nat, CallPush (VStr "second") RAW (Some 7%N) "DummyAnalyzer");
     (0%nat, CallStop (Some 7%N) "DummyAnalyzer");
     (1%nat, CallStop (Some 7%N) "DummyAnalyzer")].
Proof. repeat (split; [vm_compute; reflexivity|]). vm_compute. reflexivity. Qed.

(** With room for one item, a second push waits until the worker has taken
    the first; and [stop] does not put the sentinel while an item is with
    the worker. *)
Lemma example_blocking :
  run [example_launch; Push (VStr "first", RAW, Some 7%N, "DummyAnalyzer");
       Push (VStr "second", RAW, Some 7%N, "DummyAnalyzer")] (init 1 [0; 1]%nat) = None /\
  run [Stop (Some 7%N) "DummyAnalyzer"; Resume] example_stopping = None /\
  run [Stop (Some 7%N) "DummyAnalyzer"; Work; Work; Resume] example_stopping = None.
Proof. repeat (split; [vm_compute; reflexivity|]). vm_compute. reflexivity. Qed.

(** An item pushed while no worker runs is put on a queue that the next
    launch of the worker replaces; it is not among the items pushed in
    [acts1] above, and no consumer receives it. *)
Lemma push_without_worker :
  match
    run [Push (VStr "early", RAW, Some 7%N, "DummyAnalyzer"); example_launch;
         Stop (Some 7%N) "DummyAnalyzer"; Resume; Resume; Work; Resume; Resume;
         Resume; Resume] (init 1 [0; 1]%nat)
  with
  | Some s => process_thread s = Finished /\ caller s = Idle /\ forwarded s = []
  | None => False
  end.
Proof. vm_compute. by repeat split. Qed.

End BufferedFacts.


(** * Further properties *)

(** ** The analyzer life cycle, continued *)

(** X1: [calculate] of an analyzer of any class never puts a command on
    the transport and calls nothing but [push] on consumers; when the
    analyzer is not active it calls no consumer at all, whatever the
    envelope holds and whatever the triggers find. *)
Theorem calculate_only_pushes (a : analyzer) (msg : envelope) (w : world) :
  daq_log (Analyzer.calculate a msg w).2 = daq_log w /\
  lists (Analyzer.calculate a msg w).2 = lists w /\
  (exists l, consumer_log (Analyzer.calculate a msg w).2 = consumer_log w ++ l /\
             forallb (fun e => is_push (snd e)) l = true) /\
  (Analyzer.active a = false ->
   consumer_log (Analyzer.calculate a msg w).2 = consumer_log w).
Proof.
  assert (Hpub : forall b data dt w0,
    daq_log (BaseAnalyzer.publish b data dt w0) = daq_log w0 /\
    lists (BaseAnalyzer.publish b data dt w0) = lists w0 /\
    (exists l, consumer_log (BaseAnalyzer.publish b data dt w0) = consumer_log w0 ++ l /\
               forallb (fun e => is_push (snd e)) l = true) /\
    (BaseAnalyzer._active b = false ->
     consumer_log (BaseAnalyzer.publish b data dt w0) = consumer_log w0)).
  { intros b data dt w0. unfold BaseAnalyzer.publish, BaseAnalyzer.notify.
    destruct (BaseAnalyzer._active b); simpl.
    - repeat split; try done. eexists. split; [reflexivity|].
      induction (deref w0 (BaseAnalyzer.consumers b)); simpl; auto.
    - repeat split; try done. exists []. by rewrite app_nil_r. }
  assert (Hsame : forall w0 : world,
    daq_log w0 = daq_log w0 /\ lists w0 = lists w0 /\
    (exists l, consumer_log w0 = consumer_log w0 ++ l /\
               forallb (fun e => is_push (snd e)) l = true) /\
    (Analyzer.active a = false -> consumer_log w0 = consumer_log w0)).
  { intros w0. repeat split; try done. exists []. by rewrite app_nil_r. }
  unfold Analyzer.active. destruct a as [b|b|x|x|x|b]; cbn [Analyzer.calculate Analyzer.base].
  - apply Hsame.
  - unfold DummyAnalyzer.calculate. cbn [snd]. apply Hpub.
  - destruct (RateAnalyzer.calculate x msg). apply Hsame.
  - unfold DecayAnalyzer.calculate.
    repeat case_match; simplify_eq; cbn [snd fst]; try apply Hsame.
    unfold utcnow in *. simplify_eq. match goal with |- context [BaseAnalyzer.publish ?b0 ?d0 ?t0 ?w0] =>
      exact (Hpub b0 d0 t0 w0) end.
  - unfold VelocityAnalyzer.calculate.
    repeat case_match; simplify_eq; cbn [snd fst]; try apply Hsame.
    unfold utcnow in *. simplify_eq. match goal with |- context [BaseAnalyzer.publish ?b0 ?d0 ?t0 ?w0] =>
      exact (Hpub b0 d0 t0 w0) end.
  - unfold PulseAnalyzer.calculate.
    repeat case_match; simplify_eq; cbn [snd fst]; unfold utcnow in *; simplify_eq.
    + apply Hsame.
    + apply Hsame.
    + match goal with |- context [BaseAnalyzer.publish ?b0 ?d0 ?t0 ?w0] =>
      exact (Hpub b0 d0 t0 w0) end.
    + repeat split; try done. exists []. by rewrite app_nil_r.
Qed.

(** X2: [start] on a disabled analyzer is put off until the analyzer is
    enabled: [start] itself leaves the analyzer inactive and calls no
    consumer; setting [disabled] to [False] afterwards activates the
    analyzer with the run id and the transport of that [start], and each of
    its consumers receives [start] once, with that run id. *)
Theorem start_while_disabled_is_deferred (a : analyzer) (w : world) (r : UUID)
    (t : option daq_handle) :
  Analyzer.disabled a = true -> Analyzer.active a = false ->
  let s := Analyzer.start a (Some r) t w in
  let e := Analyzer.enable s.1 s.2 in
  Analyzer.active s.1 = false /\ consumer_log s.2 = consumer_log w /\
  Analyzer.active e.1 = true /\ Analyzer.disabled e.1 = false /\
  Analyzer.current_run_id e.1 = Some r /\ Analyzer.daq e.1 = t /\
  consumer_log e.2 =
    consumer_log w ++
    fan_out (consumers_of a w)
      (CallStart (Some r) (BaseAnalyzer.class_name (Analyzer.base a))
         (BaseAnalyzer.RESULT_DATA_TYPES (Analyzer.base a))).
Proof.
  unfold Analyzer.active, Analyzer.disabled, Analyzer.current_run_id, Analyzer.daq,
    consumers_of, fan_out, deref.
  intros Hd Ha. case_analyzer a; subst act dis.
  all: try (destruct t as [[i []]|]).
  all: try (destruct dq as [[j []]|]).
  all: try (destruct update_thread, _joinable).
  all: cbv -[app map]; done.
Qed.

Lemma start_while_disabled_is_deferred_witness :
  let a := (Analyzer.disable example_decay example_world).1 in
  let s := Analyzer.start a (Some 5%N) (Some example_daq) example_world in
  let e := Analyzer.enable s.1 s.2 in
  Analyzer.active s.1 = false /\ consumer_log s.2 = consumer_log example_world /\
  Analyzer.active e.1 = true /\ Analyzer.disabled e.1 = false /\
  Analyzer.current_run_id e.1 = Some 5%N /\ Analyzer.daq e.1 = Some example_daq /\
  consumer_log e.2 =
    consumer_log example_world ++
    fan_out (consumers_of a example_world)
      (CallStart (Some 5%N) (BaseAnalyzer.class_name (Analyzer.base a))
         (BaseAnalyzer.RESULT_DATA_TYPES (Analyzer.base a))).
Proof.
  exact (start_while_disabled_is_deferred
           (Analyzer.disable example_decay example_world).1 example_world 5%N
           (Some example_daq) eq_refl eq_refl).
Defined.

(** X3: [stop] on a disabled analyzer forgets the [start] that is waiting
    for the analyzer to be enabled: [stop] calls no consumer, and setting
    [disabled] to [False] afterwards leaves the analyzer inactive and calls
    no consumer either. *)
Theorem stop_cancels_pending_start (a : analyzer) (w : world) :
  Analyzer.disabled a = true -> Analyzer.active a = false ->
  let s := Analyzer.stop a w in
  let e := Analyzer.enable s.1.2 s.2 in
  BaseAnalyzer._last_run_id (Analyzer.base s.1.2) = None /\
  consumer_log s.2 = consumer_log w /\
  Analyzer.active e.1 = false /\ Analyzer.disabled e.1 = false /\
  consumer_log e.2 = consumer_log w.
Proof.
  unfold Analyzer.active, Analyzer.disabled.
  intros Hd Ha. case_analyzer a; subst act dis.
  all: try (destruct dq as [[j []]|]).
  all: try (destruct update_thread, _joinable).
  all: cbv; done.
Qed.

Lemma stop_cancels_pending_start_witness :
  let a := (Analyzer.disable
              (Analyzer.start example_rate (Some 5%N) (Some example_daq) example_world).1
              example_world).1 in
  let s := Analyzer.stop a example_world in
  let e := Analyzer.enable s.1.2 s.2 in
  BaseAnalyzer._last_run_id (Analyzer.base a) = Some 5%N /\
  BaseAnalyzer._last_run_id (Analyzer.base s.1.2) = None /\
  consumer_log s.2 = consumer_log example_world /\
  Analyzer.active e.1 = false /\ Analyzer.disabled e.1 = false /\
  consumer_log e.2 = consumer_log example_world.
Proof.
  split; [reflexivity|].
  exact (stop_cancels_pending_start
           (Analyzer.disable
              (Analyzer.start example_rate (Some 5%N) (Some example_daq) example_world).1
              example_world).1 example_world eq_refl eq_refl).
Defined.

(** X4: [start] on an analyzer that is already active gives it the new run
    id and transport without telling the consumers; the [stop] that follows
    reports the new run id to them, so that they receive [stop] for a run
    for which they received no [start]. *)
Theorem start_while_active_rebinds (a : analyzer) (w : world)
    (r : option UUID) (t : option daq_handle) :
  Analyzer.active a = true -> Analyzer.disabled a = false ->
  let s := Analyzer.start a r t w in
  let e := Analyzer.stop s.1 s.2 in
  Analyzer.active s.1 = true /\ Analyzer.current_run_id s.1 = r /\
  Analyzer.daq s.1 = t /\ consumer_log s.2 = consumer_log w /\
  Analyzer.active e.1.2 = false /\
  consumer_log e.2 =
    consumer_log w ++
    fan_out (consumers_of a w) (CallStop r (BaseAnalyzer.class_name (Analyzer.base a))).
Proof.
  unfold Analyzer.active, Analyzer.disabled, Analyzer.current_run_id, Analyzer.daq,
    consumers_of, fan_out, deref.
  intros Ha Hd. case_analyzer a; subst act dis.
  all: try (destruct t as [[i []]|]).
  all: try (destruct update_thread, _joinable).
  all: cbv -[app map]; done.
Qed.

Lemma start_while_active_rebinds_witness :
  let a := (Analyzer.start example_rate (Some 5%N) (Some example_daq) example_world).1 in
  let s := Analyzer.start a (Some 6%N) None example_world in
  let e := Analyzer.stop s.1 s.2 in
  Analyzer.active s.1 = true /\ Analyzer.current_run_id s.1 = Some 6%N /\
  Analyzer.daq s.1 = None /\ consumer_log s.2 = consumer_log example_world /\
  Analyzer.active e.1.2 = false /\
  consumer_log e.2 =
    consumer_log example_world ++
    fan_out (consumers_of a example_world)
      (CallStop (Some 6%N) (BaseAnalyzer.class_name (Analyzer.base a))).
Proof.
  exact (start_while_active_rebinds
           (Analyzer.start example_rate (Some 5%N) (Some example_daq) example_world).1
           example_world (Some 6%N) None eq_refl eq_refl).
Defined.

(** X5: a decay analyzer that is disabled between [start] and [stop] does
    not write the coincidence registers back: setting [disabled] to [True]
    drops the transport, so [stop] sends nothing, and the registers 03 and
    02 keep the values [04] and [0A] that [start] wrote. *)
Theorem decay_disabled_stop_restores_nothing (self : DecayAnalyzer.t)
    (run_id : option UUID) (h : daq_handle) (w : world) :
  BaseAnalyzer._disabled (DecayAnalyzer.base self) = false ->
  is_provider h = true ->
  let s := Analyzer.start (ADecay self) run_id (Some h) w in
  let d := Analyzer.disable s.1 s.2 in
  let e := Analyzer.stop d.1 d.2 in
  e.1.1 = Ok tt /\
  Analyzer.daq d.1 = None /\
  daq_log e.2 = daq_log s.2 /\
  commands_since w e.2 = ["DC"; "CE"; "WC 03 04"; "WC 02 0A"; "WC 00 0F"] /\
  last_write "03" (commands_since w e.2) = Some "04" /\
  last_write "02" (commands_since w e.2) = Some "0A".
Proof.
  intros Hd Hp. cbv zeta.
  destruct self as [b]; destruct b as [nm tys dq act dis lr ld cs cr]; simpl in Hd; subst dis.
  destruct h as [i p]; simpl in Hp; subst p.
  unfold commands_since.
  destruct act; cbv -[app map drop length last_write];
    rewrite <- ?app_assoc, ?drop_app_length; cbv; done.
Qed.

Lemma decay_disabled_stop_restores_nothing_witness :
  let self := (DecayAnalyzer.init 0%nat (fun _ _ _ _ _ _ _ _ _ => None) example_world).1 in
  let s := Analyzer.start (ADecay self) (Some 5%N) (Some example_daq) example_world in
  let d := Analyzer.disable s.1 s.2 in
  let e := Analyzer.stop d.1 d.2 in
  e.1.1 = Ok tt /\
  Analyzer.daq d.1 = None /\
  daq_log e.2 = daq_log s.2 /\
  commands_since example_world e.2 = ["DC"; "CE"; "WC 03 04"; "WC 02 0A"; "WC 00 0F"] /\
  last_write "03" (commands_since example_world e.2) = Some "04" /\
  last_write "02" (commands_since example_world e.2) = Some "0A".
Proof.
  exact (decay_disabled_stop_restores_nothing
           (DecayAnalyzer.init 0%nat (fun _ _ _ _ _ _ _ _ _ => None) example_world).1
           (Some 5%N) example_daq example_world eq_refl eq_refl).
Defined.

(** X6: [stop] of a rate analyzer joins the update thread: on an analyzer
    that was never started it raises [RuntimeError] (the thread was never
    started), after the work of [BaseAnalyzer.stop] is done; once [start]
    has been called, on an analyzer that is not active and disabled at once,
    [stop] returns and the update thread has ended. *)
Theorem rate_stop_joins_update_thread (self : RateAnalyzer.t) (w : world) :
  (RateAnalyzer.update_thread self = NotStarted ->
   (RateAnalyzer.stop self w).1.1 = Raise RuntimeError /\
   RateAnalyzer.base (RateAnalyzer.stop self w).1.2 =
     (BaseAnalyzer.stop (RateAnalyzer.base self) w).1) /\
  (forall cs tw w0, RateAnalyzer.update_thread (RateAnalyzer.init cs tw w0).1 = NotStarted) /\
  (consistent (ARate self) ->
   forall r t w',
     let started := (RateAnalyzer.start self r t w).1 in
     RateAnalyzer.update_thread started <> NotStarted /\
     (RateAnalyzer.stop started w').1.1 = Ok tt /\
     RateAnalyzer.update_thread (RateAnalyzer.stop started w').1.2 = Finished /\
     BaseAnalyzer._active (RateAnalyzer.base (RateAnalyzer.stop started w').1.2) = false).
Proof.
  split; [|split].
  - intros Hth. destruct self as [b]. simpl in Hth. subst.
    unfold RateAnalyzer.stop. destruct (BaseAnalyzer.stop _ w). simpl. done.
  - done.
  - unfold consistent, Analyzer.active, Analyzer.disabled.
    intros Hc r t w'. destruct self as [b]; destruct b as [nm tys dq act dis lr ld cs cr].
    cbn in Hc.
    destruct act, dis, update_thread, _joinable; try discriminate Hc; cbv; done.
Qed.

(** ** The rate analyzer, continued *)

Lemma diff_loop_shape range scalars : forall diffs previous e diffs' previous',
  RateAnalyzer.diff_loop range scalars diffs previous = (e, diffs', previous') ->
  length previous' = length previous /\ length diffs' = length diffs /\
  (Forall scalar_range scalars -> Forall scalar_range previous ->
   Forall scalar_range previous').
Proof.
  induction range as [|i range IH]; intros diffs previous e diffs' previous' H; simpl in H.
  - by simplify_eq.
  - destruct (scalars !! i) as [s|] eqn:Hs; [|by simplify_eq].
    destruct (0 <? s); [|by simplify_eq].
    destruct (previous !! i) as [p|]; [|by simplify_eq].
    destruct (i <? length diffs)%nat; [|by simplify_eq].
    apply IH in H as (H1 & H2 & H3). rewrite length_insert in H1, H2.
    repeat split; try done. intros Hsc Hpr. apply H3; [done|].
    apply Forall_insert; [done|]. exact (Forall_lookup_1 _ _ _ _ Hsc Hs).
Qed.

Lemma mapM_length {A B} (f : A -> result B) l l' :
  mapM f l = Ok l' -> length l' = length l.
Proof.
  revert l'. induction l as [|x l IH]; intros l' H; simpl in H; [by simplify_eq|].
  destruct (f x); [|done]. simpl in H. destruct (mapM f l); [|done].
  simpl in H. simplify_eq. simpl. f_equal. by apply IH.
Qed.

Lemma add_diffs_length buffer diffs buffer' :
  RateAnalyzer.add_diffs buffer diffs = Ok buffer' -> length buffer' = length buffer.
Proof.
  unfold RateAnalyzer.add_diffs. intros H. apply mapM_length in H.
  by rewrite length_imap in H.
Qed.

Lemma py_add_float x f total :
  py_add x (PFloat f) = Ok total -> zero_or_float total.
Proof.
  unfold zero_or_float. destruct x as [z|g]; simpl.
  - unfold float_of_int. destruct (Z.abs z <? _); simpl; [|done].
    intros [= <-]. eauto.
  - intros [= <-]. eauto.
Qed.

Lemma rate_shape_base b self : rate_shape self -> rate_shape (RateAnalyzer.set_base b self).
Proof. by intros []. Qed.

Lemma rate_shape_calculate self msg :
  rate_shape self -> rate_shape (RateAnalyzer.calculate self msg).2.
Proof.
  intros Hs. pose proof Hs as [Hp Hpr Hb Hq Ht]. unfold RateAnalyzer.calculate.
  destruct (negb _); [done|].
  destruct (RateAnalyzer.extract_scalars_from_message (raw msg)) as [scalars|] eqn:Hx;
    [|done].
  apply extract_scalars_shape in Hx as [Hn Hnr].
  destruct (RateAnalyzer.first_cycle self); [by split|].
  destruct (RateAnalyzer.diff_loop _ scalars _ _) as [[e diffs] previous] eqn:Hd.
  apply diff_loop_shape in Hd as (Hl & _ & Hr). specialize (Hr Hnr Hpr).
  assert (Hs1 : rate_shape (RateAnalyzer.set_previous_scalars previous self))
    by (split; simpl; congruence).
  destruct e; [|done|done].
  cbn [RateAnalyzer.query_time RateAnalyzer.last_query_time RateAnalyzer.set_previous_scalars].
  destruct (float_sub _ _) as [tw|]; [|done].
  destruct (mapM _ diffs) as [quotients|]; [|done].
  cbn [RateAnalyzer.time_window RateAnalyzer.set_rates RateAnalyzer.set_previous_scalars].
  destruct (py_add _ _) as [total|] eqn:Htot; [|by split; simpl; congruence].
  apply py_add_float in Htot.
  cbn [RateAnalyzer.scalar_buffer RateAnalyzer.set_time_window RateAnalyzer.set_rates
       RateAnalyzer.set_previous_scalars].
  destruct (RateAnalyzer.add_diffs _ diffs) as [buffer|] eqn:Hbuf;
    [|by split; simpl; congruence].
  apply add_diffs_length in Hbuf.
  destruct (index _ 4); [|by split; simpl; congruence].
  repeat case_match; split; simpl; congruence.
Qed.

Lemma rate_shape_query self w :
  rate_shape self -> rate_shape (RateAnalyzer.query_daq_for_scalars self w).1.
Proof.
  intros []. unfold RateAnalyzer.query_daq_for_scalars.
  destruct (BaseAnalyzer.daq_put _ _ _). split; simpl; try done.
  right. eauto.
Qed.

Lemma rate_shape_start self r t w :
  rate_shape self -> rate_shape (RateAnalyzer.start self r t w).1.
Proof.
  intros []. unfold RateAnalyzer.start, RateAnalyzer.init_update_thread.
  destruct (BaseAnalyzer.start _ _ _ _). simpl.
  repeat case_match; split; simpl; try done; by left.
Qed.

Lemma rate_shape_turn self w :
  rate_shape self -> rate_shape (RateAnalyzer.update_loop_turn self w).1.2.
Proof.
  intros Hs. unfold RateAnalyzer.update_loop_turn.
  destruct (BaseAnalyzer._active _); [|by destruct Hs].
  match goal with |- context [match ?x with Ok b => _ | Raise e => _ end] =>
    destruct x as [b|e] end; [|by destruct Hs].
  pose proof (rate_shape_query (RateAnalyzer.set_last_data [] self)
                (if b then BaseAnalyzer.publish (RateAnalyzer.base self)
                               (VDict (RateAnalyzer.last_data self)) RATE w else w)) as Hq.
  destruct (RateAnalyzer.query_daq_for_scalars _ _). simpl in *.
  apply Hq. by destruct Hs.
Qed.

Lemma rate_shape_stop self w :
  rate_shape self -> rate_shape (RateAnalyzer.stop self w).1.2.
Proof.
  intros []. unfold RateAnalyzer.stop. destruct (BaseAnalyzer.stop _ _). simpl.
  repeat case_match; by split.
Qed.

(** X7: the rate analyzer keeps the shape of its buffers: after
    [__init__], and after every [start], [query_daq_for_scalars],
    [calculate] (whether it returns or raises), turn of the update loop and
    [stop], [previous_scalars] and [scalar_buffer] hold [SCALAR_BUF_SIZE]
    entries, each previous counter is below [2^32] in absolute value, and
    [last_query_time] and [time_window] are the initial [0] or floats. *)
Theorem rate_shape_is_kept :
  (forall cs tw w, rate_shape (RateAnalyzer.init cs tw w).1) /\
  (forall self, rate_shape self ->
     (forall r t w, rate_shape (RateAnalyzer.start self r t w).1) /\
     (forall w, rate_shape (RateAnalyzer.query_daq_for_scalars self w).1) /\
     (forall msg, rate_shape (RateAnalyzer.calculate self msg).2) /\
     (forall w, rate_shape (RateAnalyzer.update_loop_turn self w).1.2) /\
     (forall w, rate_shape (RateAnalyzer.stop self w).1.2)).
Proof.
  split.
  - intros cs tw w. split; simpl; try done.
    + repeat constructor; unfold scalar_range; simpl; lia.
    + by left.
    + by left.
  - intros self Hs. split; [|split; [|split; [|split]]]; intros.
    + by apply rate_shape_start.
    + by apply rate_shape_query.
    + by apply rate_shape_calculate.
    + by apply rate_shape_turn.
    + by apply rate_shape_stop.
Qed.

Lemma calculate_last_data (self : RateAnalyzer.t) (msg : envelope) :
  RateAnalyzer.last_data (RateAnalyzer.calculate self msg).2 = RateAnalyzer.last_data self \/
  exists tw rates scalars mx mn,
    float_sub (RateAnalyzer.query_time self) (RateAnalyzer.last_query_time self) = Ok tw /\
    RateAnalyzer.extract_scalars_from_message (raw msg) = Ok scalars /\
    RateAnalyzer.last_data (RateAnalyzer.calculate self msg).2 =
      [(VStr "rates", VList (map VNum rates));
       (VStr "counts", VList (map VInt scalars));
       (VStr "max_rate", VNum mx);
       (VStr "min_rate", VNum mn);
       (VStr "time_window", VFloat tw);
       (VStr "query_time", VUtcFromTimestamp (RateAnalyzer.query_time self))].
Proof.
  unfold RateAnalyzer.calculate.
  destruct (negb _); [by left|].
  destruct (RateAnalyzer.extract_scalars_from_message (raw msg)) as [scalars|]; [|by left].
  destruct (RateAnalyzer.first_cycle self); [by left|].
  destruct (RateAnalyzer.diff_loop _ scalars _ _) as [[e diffs] previous].
  destruct e; [|by left|by left].
  cbn [RateAnalyzer.query_time RateAnalyzer.last_query_time RateAnalyzer.set_previous_scalars].
  destruct (float_sub _ _) as [tw|]; [|by left].
  destruct (mapM _ diffs) as [quotients|]; [|by left].
  cbn [RateAnalyzer.time_window RateAnalyzer.set_rates RateAnalyzer.set_previous_scalars].
  destruct (py_add _ _) as [total|]; [|by left].
  cbn [RateAnalyzer.scalar_buffer RateAnalyzer.set_time_window RateAnalyzer.set_rates
       RateAnalyzer.set_previous_scalars].
  destruct (RateAnalyzer.add_diffs _ diffs) as [buffer|]; [|by left].
  destruct (index _ 4); [|by left].
  right. repeat case_match; simpl; eauto 10.
Qed.

(** X8: the update loop hands on the result of a cycle once.  Whatever
    the envelope, [calculate] leaves [last_data] as it was or stores a dict
    whose [time_window] is the float [query_time - last_query_time] and
    whose [counts] are the counters read from the line.  A turn of the
    update loop of an active analyzer holding such a dict pushes this dict
    to each consumer, under the current run id, when the window is not
    shorter than [update_interval], and pushes nothing otherwise; it empties
    [last_data] and puts [DS] on a provider; the turn after it pushes
    nothing. *)
Theorem update_loop_publishes_once (self : RateAnalyzer.t) :
  (forall msg,
     RateAnalyzer.last_data (RateAnalyzer.calculate self msg).2 = RateAnalyzer.last_data self \/
     exists scalars tw,
       RateAnalyzer.extract_scalars_from_message (raw msg) = Ok scalars /\
       float_sub (RateAnalyzer.query_time self) (RateAnalyzer.last_query_time self) = Ok tw /\
       dict_get (RateAnalyzer.last_data (RateAnalyzer.calculate self msg).2) "time_window"
         = VFloat tw /\
       dict_get (RateAnalyzer.last_data (RateAnalyzer.calculate self msg).2) "counts"
         = VList (map VInt scalars)) /\
  (forall w tw h,
     BaseAnalyzer._active (RateAnalyzer.base self) = true ->
     BaseAnalyzer.daq (RateAnalyzer.base self) = Some h -> is_provider h = true ->
     dict_get (RateAnalyzer.last_data self) "time_window" = VFloat tw ->
     let b := RateAnalyzer.base self in
     let t1 := RateAnalyzer.update_loop_turn self w in
     let t2 := RateAnalyzer.update_loop_turn t1.1.2 t1.2 in
     t1.1.1 = Ok tt /\ t2.1.1 = Ok tt /\
     consumer_log t1.2 =
       consumer_log w ++
       (if PrimFloat.leb (RateAnalyzer.update_interval self) tw
        then fan_out (deref w (BaseAnalyzer.consumers b))
               (CallPush (VDict (RateAnalyzer.last_data self)) RATE
                  (BaseAnalyzer.current_run_id b) (BaseAnalyzer.class_name b))
        else []) /\
     RateAnalyzer.last_data t1.1.2 = [] /\
     daq_log t1.2 = daq_log w ++ [(daq_id h, "DS")] /\
     consumer_log t2.2 = consumer_log t1.2).
Proof.
  split.
  - intros msg. destruct (calculate_last_data self msg) as [H|(tw & rates & scalars & mx & mn & H1 & H2 & H3)];
      [by left|right].
    exists scalars, tw. rewrite H3. by repeat split.
  - intros w tw h Ha Hq Hp Htw. cbv zeta.
    destruct self as [b]; destruct b as [nm tys dq act dis lr ld cs cr].
    destruct h as [i p]. simpl in Ha, Hq, Hp, Htw. subst act dq p.
    unfold RateAnalyzer.update_loop_turn. cbn [RateAnalyzer.base BaseAnalyzer._active
      RateAnalyzer.last_data RateAnalyzer.update_interval].
    destruct last_data as [|kv d]; [discriminate Htw|].
    rewrite Htw. unfold VFloat. cbn iota.
    destruct (PrimFloat.leb update_interval tw); cbv -[app map]; rewrite ?app_nil_r; done.
Qed.

Lemma update_loop_publishes_once_witness :
  let t1 := RateAnalyzer.update_loop_turn example_rate_cycle example_world in
  let t2 := RateAnalyzer.update_loop_turn t1.1.2 t1.2 in
  t1.1.1 = Ok tt /\ t2.1.1 = Ok tt /\
  consumer_log t1.2 =
    consumer_log example_world ++
    (if PrimFloat.leb (RateAnalyzer.update_interval example_rate_cycle) 2
     then fan_out (deref example_world 0%nat)
            (CallPush (VDict (RateAnalyzer.last_data example_rate_cycle)) RATE
               (Some 5%N) "RateAnalyzer")
     else []) /\
  RateAnalyzer.last_data t1.1.2 = [] /\
  daq_log t1.2 = daq_log example_world ++ [(1%nat, "DS")] /\
  consumer_log t2.2 = consumer_log t1.2.
Proof.
  exact (proj2 (update_loop_publishes_once example_rate_cycle)
           example_world 2%float example_daq eq_refl eq_refl eq_refl eq_refl).
Defined.

Lemma chars_app s t : chars (s +:+ t) = chars s ++ chars t.
Proof. unfold chars. induction s as [|c s IH]; simpl; [done|]. by rewrite IH. Qed.

Lemma split_ws_go_word wd : forall rest cur,
  forallb (fun c => negb (isspace c)) wd = true ->
  split_ws_go (wd ++ rest) cur = split_ws_go rest (rev wd ++ cur).
Proof.
  induction wd as [|c wd IH]; intros rest cur H; [done|].
  simpl in H. apply andb_prop in H as [Hc Hwd]. apply negb_true_iff in Hc.
  cbn [app split_ws_go]. rewrite Hc, IH by done.
  simpl. by rewrite <- app_assoc.
Qed.

Lemma rev_chars_str s cur : str (rev (rev (chars s) ++ cur)) = str (rev cur) +:+ s.
Proof.
  rewrite rev_app_distr, rev_involutive. unfold str.
  induction (rev cur) as [|c l IH]; simpl.
  - apply string_of_list_ascii_of_string.
  - by rewrite IH.
Qed.

(** A word followed by a space, and a word at the end of the line. *)
Lemma split_ws_word s rest :
  no_space s = true -> s <> "" ->
  split_ws_go (chars s ++ " "%char :: rest) [] = s :: split_ws_go rest [].
Proof.
  intros Hs Hne. rewrite split_ws_go_word by done. cbn [split_ws_go].
  change (isspace " ") with true. cbn iota.
  destruct (rev (chars s) ++ []) eqn:Hr.
  - rewrite app_nil_r in Hr. apply (f_equal (@rev _)) in Hr.
    rewrite rev_involutive in Hr. simpl in Hr.
    destruct s; [done|discriminate Hr].
  - rewrite <- Hr, rev_chars_str. done.
Qed.

Lemma split_ws_last s :
  no_space s = true -> s <> "" -> split_ws_go (chars s) [] = [s].
Proof.
  intros Hs Hne. rewrite <- (app_nil_r (chars s)), split_ws_go_word by done.
  cbn [split_ws_go].
  destruct (rev (chars s) ++ []) eqn:Hr.
  - rewrite app_nil_r in Hr. apply (f_equal (@rev _)) in Hr.
    rewrite rev_involutive in Hr. simpl in Hr.
    destruct s; [done|discriminate Hr].
  - rewrite <- Hr, rev_chars_str. done.
Qed.

Lemma no_space_append s t : no_space s = true -> no_space t = true -> no_space (s +:+ t) = true.
Proof. unfold no_space. intros Hs Ht. by rewrite chars_app, forallb_app, Hs, Ht. Qed.

Lemma length_append s t : String.length (s +:+ t) = (String.length s + String.length t)%nat.
Proof. induction s as [|c s IH]; simpl; [done|by rewrite IH]. Qed.

Lemma extract_item_field (k : nat) (h : string) (v : Z) (scalars : list Z) :
  (k < 5)%nat -> String.length h = 8%nat -> int_of_str 16 h = Ok v ->
  RateAnalyzer.extract_item (seq 0 5) ("S" +:+ (fmt_d k +:+ ("=" +:+ h))) scalars =
    Ok (<[k := v]> scalars).
Proof.
  intros Hk Hlen Hv.
  assert (Hslice : forall a b c, slice_from 3 (String a (String b (String c h))) = h).
  { intros. unfold slice_from. simpl. apply str_chars. }
  assert (Hl : forall a b c, (len (String a (String b (String c h))) =? 11) = true).
  { intros. unfold len. simpl. rewrite Hlen. reflexivity. }
  cbn [RateAnalyzer.extract_item seq].
  change (fmt_d 0) with "0". change (fmt_d 1) with "1". change (fmt_d 2) with "2".
  change (fmt_d 3) with "3". change (fmt_d 4) with "4".
  do 5 (destruct k as [|k];
        [change (fmt_d 0) with "0"; change (fmt_d 1) with "1"; change (fmt_d 2) with "2";
         change (fmt_d 3) with "3"; change (fmt_d 4) with "4"; cbv [append];
         unfold startswith; cbn -[int_of_str slice_from len Z.eqb];
         rewrite ?Hl, ?Hslice, ?Hv; reflexivity|]).
  lia.
Qed.

Lemma split_ws_field (pre : list ascii) (h : string) (rest : list ascii) :
  no_space h = true -> pre <> [] ->
  split_ws_go (chars h ++ " "%char :: rest) pre =
    (str (rev pre) +:+ h) :: split_ws_go rest [].
Proof.
  intros Hs Hne. rewrite split_ws_go_word by done. cbn [split_ws_go].
  change (isspace " ") with true. cbn iota.
  destruct (rev (chars h) ++ pre) eqn:Hr.
  - apply app_eq_nil in Hr as [_ ?]. done.
  - by rewrite <- Hr, rev_chars_str.
Qed.

Lemma split_ws_field_last (pre : list ascii) (h : string) :
  no_space h = true -> pre <> [] ->
  split_ws_go (chars h) pre = [str (rev pre) +:+ h].
Proof.
  intros Hs Hne. rewrite <- (app_nil_r (chars h)), split_ws_go_word by done.
  cbn [split_ws_go].
  destruct (rev (chars h) ++ pre) eqn:Hr.
  - apply app_eq_nil in Hr as [_ ?]. done.
  - by rewrite <- Hr, rev_chars_str.
Qed.

Lemma split_ws_scalar_dump h0 h1 h2 h3 h4 :
  Forall (fun h => no_space h = true) [h0; h1; h2; h3; h4] ->
  split_ws (scalar_dump h0 h1 h2 h3 h4) =
    ["DS"; "S0=" +:+ h0; "S1=" +:+ h1; "S2=" +:+ h2; "S3=" +:+ h3; "S4=" +:+ h4].
Proof.
  intros H.
  repeat match goal with H : Forall _ (_ :: _) |- _ => inversion H; clear H; subst end.
  unfold split_ws, scalar_dump. rewrite !chars_app.
  change (chars "DS S0=") with ["D"; "S"; " "; "S"; "0"; "="]%char.
  change (chars " S1=") with [" "; "S"; "1"; "="]%char.
  change (chars " S2=") with [" "; "S"; "2"; "="]%char.
  change (chars " S3=") with [" "; "S"; "3"; "="]%char.
  change (chars " S4=") with [" "; "S"; "4"; "="]%char.
  cbn [app split_ws_go].
  change (isspace "D") with false. change (isspace "S") with false.
  change (isspace " ") with true. change (isspace "0") with false.
  change (isspace "=") with false. cbn iota.
  rewrite split_ws_field by done. cbn [split_ws_go].
  change (isspace "1") with false. change (isspace "S") with false.
  change (isspace "=") with false. cbn iota.
  rewrite split_ws_field by done. cbn [split_ws_go].
  change (isspace "2") with false. change (isspace "S") with false.
  change (isspace "=") with false. cbn iota.
  rewrite split_ws_field by done. cbn [split_ws_go].
  change (isspace "3") with false. change (isspace "S") with false.
  change (isspace "=") with false. cbn iota.
  rewrite split_ws_field by done. cbn [split_ws_go].
  change (isspace "4") with false. change (isspace "S") with false.
  change (isspace "=") with false. cbn iota.
  rewrite split_ws_field_last by done.
  reflexivity.
Qed.

(** X9: [extract_scalars_from_message] reads the five counters of a scalar
    dump [DS S0=h0 S1=h1 S2=h2 S3=h3 S4=h4] whose fields are eight
    characters without whitespace: the result is the list of the values
    [int(h0, 16) .. int(h4, 16)]; the item [DS] sets no counter, and
    [calculate] takes the line for a scalar dump. *)
Theorem scalar_dump_is_read (h0 h1 h2 h3 h4 : string) (v0 v1 v2 v3 v4 : Z) :
  Forall (fun h => String.length h = 8%nat /\ no_space h = true) [h0; h1; h2; h3; h4] ->
  Forall2 (fun h v => int_of_str 16 h = Ok v) [h0; h1; h2; h3; h4] [v0; v1; v2; v3; v4] ->
  is_scalar_dump (scalar_dump h0 h1 h2 h3 h4) = true /\
  RateAnalyzer.extract_scalars_from_message (scalar_dump h0 h1 h2 h3 h4) =
    Ok [v0; v1; v2; v3; v4].
Proof.
  intros Hh Hv. split.
  - unfold is_scalar_dump, scalar_dump, len, startswith. cbv [append].
    cbn [String.prefix String.length].
    repeat (destruct (ascii_dec _ _) as [_|?]; [|done]).
    rewrite andb_true_r. apply Z.leb_le. lia.
  - unfold RateAnalyzer.extract_scalars_from_message.
    rewrite split_ws_scalar_dump by (eapply Forall_impl; [exact Hh|]; by intros ? [_ ?]).
    repeat match goal with
           | H : Forall _ (_ :: _) |- _ => inversion H; clear H; subst
           | H : Forall2 _ (_ :: _) (_ :: _) |- _ => inversion H; clear H; subst
           | H : _ /\ _ |- _ => destruct H
           end.
    change (seq 0 RateAnalyzer.SCALAR_BUF_SIZE) with (seq 0 5).
    cbn [RateAnalyzer.extract_items].
    change (seq 0 RateAnalyzer.SCALAR_BUF_SIZE) with (seq 0 5).
    change (RateAnalyzer.extract_item (seq 0 5) "DS" RateAnalyzer.new_scalar_buffer)
      with (Ok [0; 0; 0; 0; 0]).
    cbn [rbind].
    rewrite (extract_item_field 0 h0 v0) by (done || lia). cbn [rbind].
    rewrite (extract_item_field 1 h1 v1) by (done || lia). cbn [rbind].
    rewrite (extract_item_field 2 h2 v2) by (done || lia). cbn [rbind].
    rewrite (extract_item_field 3 h3 v3) by (done || lia). cbn [rbind].
    rewrite (extract_item_field 4 h4 v4) by (done || lia). cbn [rbind].
    reflexivity.
Qed.

Lemma scalar_dump_is_read_witness :
  RateAnalyzer.extract_scalars_from_message
    (scalar_dump "0000000F" "0000000C" "0000000A" "00000014" "0000000D") =
    Ok [15; 12; 10; 20; 13].
Proof.
  apply (scalar_dump_is_read "0000000F" "0000000C" "0000000A" "00000014" "0000000D").
  - repeat constructor.
  - repeat constructor.
Defined.

(** ** The pulse-width analyzer, continued *)

Lemma dict_append_missing (d : PulseAnalyzer.widths_dict) i x :
  Forall (fun kv => fst kv <> i) d -> PulseAnalyzer.dict_append d i x = Raise KeyError.
Proof.
  induction d as [|[k l] d IH]; intros H; simpl; [done|].
  inversion H as [|? ? Hk Hd]; subst. simpl in Hk.
  destruct (Nat.eqb_spec k i); [done|]. by rewrite IH.
Qed.

Lemma channels_loop_app (l1 l2 : list pulse_item) : forall i d,
  PulseAnalyzer.channels_loop i (l1 ++ l2) d =
    rbind (PulseAnalyzer.channels_loop i l1 d)
          (PulseAnalyzer.channels_loop (i + length l1) l2).
Proof.
  induction l1 as [|[t|ps] l1 IH]; intros i d; simpl.
  - by rewrite Nat.add_0_r.
  - done.
  - destruct (PulseAnalyzer.channel_loop i ps d) as [d'|]; simpl; [|done].
    rewrite IH. by rewrite Nat.add_succ_r.
Qed.

(** X10: the dict of widths has the keys [0 .. 3] only: when the envelope
    carries more than four data channels and the fifth one holds a pulse,
    [calculate] raises [KeyError] at that pulse and nothing is published (a
    fifth channel without pulses does no harm). *)
Theorem pulse_fifth_channel_raises (self : BaseAnalyzer.t) (msg : envelope) (w : world)
    (trigger : pulse_item) (channels : list (list pulse)) (wss : list (list pynum))
    (p : pulse) (x : pynum) (more : list pulse) (rest : list pulse_item) :
  pulses msg =
    Pulses (trigger :: map Channel channels ++ Channel (p :: more) :: rest) ->
  length channels = 4%nat ->
  mapM (mapM spec_pulse_width) channels = Ok wss ->
  spec_pulse_width p = Ok x ->
  (PulseAnalyzer.calculate self msg w).1 = Raise KeyError /\
  consumer_log (PulseAnalyzer.calculate self msg w).2 = consumer_log w /\
  (forall msg',
     pulses msg' = Pulses (trigger :: map Channel channels ++ [Channel []]) ->
     (PulseAnalyzer.calculate self msg' w).1 = Ok true).
Proof.
  intros Hp Hn Hw Hx.
  pose proof (mapM_length _ _ _ Hw) as Hlen. rewrite Hn in Hlen.
  pose proof (channels_loop_at channels 0 4 [] wss (Forall_nil_2 _) Hw ltac:(lia)) as H.
  rewrite Hlen in H. cbn [app Nat.sub Nat.add seq map] in H. rewrite app_nil_r in H.
  change [(0%nat, @nil pynum); (1%nat, []); (2%nat, []); (3%nat, [])]
    with PulseAnalyzer.empty_widths in H.
  assert (Hkeys : Forall (fun kv : nat * list pynum => fst kv <> 4%nat)
                    (zip [0; 1; 2; 3]%nat wss)).
  { do 4 (destruct wss as [|? wss]; [done|]). destruct wss; [|done].
    repeat constructor; simpl; lia. }
  unfold PulseAnalyzer.calculate. repeat split.
  - rewrite Hp. cbn [drop]. destruct (utcnow w) as [ts w1]. rewrite drop_0. 
    rewrite channels_loop_app, H. cbn [rbind]. rewrite length_map, Hn.
    cbn [PulseAnalyzer.channels_loop PulseAnalyzer.channel_loop Nat.add].
    destruct p as [le [fe|]]; simpl in Hx.
    + rewrite Hx. cbn [rbind]. by rewrite dict_append_missing.
    + by rewrite dict_append_missing.
  - rewrite Hp. cbn [drop]. unfold utcnow. rewrite drop_0.
    rewrite channels_loop_app, H. cbn [rbind]. rewrite length_map, Hn.
    cbn [PulseAnalyzer.channels_loop PulseAnalyzer.channel_loop Nat.add].
    destruct p as [le [fe|]]; simpl in Hx.
    + rewrite Hx. cbn [rbind]. by rewrite dict_append_missing.
    + by rewrite dict_append_missing.
  - intros msg' Hp'. rewrite Hp'. cbn [drop]. destruct (utcnow w) as [ts w1]. rewrite drop_0.
    rewrite channels_loop_app, H. cbn [rbind]. rewrite length_map, Hn. reflexivity.
Qed.

Lemma pulse_fifth_channel_raises_witness :
  (PulseAnalyzer.calculate (PulseAnalyzer.init 0%nat)
     {| raw := "";
        pulses := Pulses [TriggerTime (PFloat 0); Channel []; Channel []; Channel [];
                          Channel []; Channel [(PInt 100, Some (PInt 150))]] |}
     example_world).1 = Raise KeyError.
Proof.
  exact (proj1 (pulse_fifth_channel_raises (PulseAnalyzer.init 0%nat)
                  {| raw := "";
                     pulses := Pulses [TriggerTime (PFloat 0); Channel []; Channel [];
                                       Channel []; Channel [];
                                       Channel [(PInt 100, Some (PInt 150))]] |}
                  example_world (TriggerTime (PFloat 0)) [[]; []; []; []]
                  [[]; []; []; []] (PInt 100, Some (PInt 150)) (PInt 50) [] []
                  eq_refl eq_refl eq_refl eq_refl)).
Defined.

(** ** The file consumer, continued *)

(** X11: [stop] of the file consumer is not idempotent: for an analyzer id
    without a record it raises [KeyError] and changes nothing, so a second
    [stop] after a first one that returned raises [KeyError]. *)
Theorem file_stop_twice_raises (self : FileConsumer.t) (aid : string) :
  (FileConsumer.open_files self !! aid = None ->
   forall run_id fs,
     FileConsumer.stop self run_id aid fs = (Raise KeyError, self, fs)) /\
  (forall run_id fs self' fs',
     FileConsumer.stop self run_id aid fs = (Ok tt, self', fs') ->
     forall run_id',
       FileConsumer.stop self' run_id' aid fs' = (Raise KeyError, self', fs')).
Proof.
  split.
  - intros Hnone run_id fs. unfold FileConsumer.stop, FileConsumer.close_files.
    by rewrite Hnone.
  - intros run_id fs self' fs' Hstop run_id'.
    pose proof (stop_removes_record _ _ _ _ _ _ Hstop) as Hnone.
    unfold FileConsumer.stop, FileConsumer.close_files. by rewrite Hnone.
Qed.

Lemma handle_of_app d1 d2 dt :
  FileConsumer.handle_of (d1 ++ d2) dt =
    match FileConsumer.handle_of d1 dt with
    | Some h => Some h
    | None => FileConsumer.handle_of d2 dt
    end.
Proof.
  induction d1 as [|[k h] d1 IH]; simpl; [done|]. by destruct (decide (k = dt)).
Qed.

Lemma handle_set_fresh d dt h :
  FileConsumer.handle_of d dt = None -> FileConsumer.handle_set d dt h = d ++ [(dt, h)].
Proof.
  induction d as [|[k h'] d IH]; simpl; [done|].
  destruct (decide (k = dt)); [done|]. intros H. by rewrite IH.
Qed.

Lemma handle_of_keys d dt :
  dt ∉ map fst d -> FileConsumer.handle_of d dt = None.
Proof.
  induction d as [|[k h] d IH]; simpl; [done|].
  intros [Hk Hd]%not_elem_of_cons. destruct (decide (k = dt)); [done|]. by apply IH.
Qed.

Lemma open_all_spec (run_id : option UUID) (aid : string) (types : list DataTypes) :
  forall (self : FileConsumer.t) (w : world) (fs : filesystem) (inner : list (DataTypes * nat)),
    NoDup types ->
    FileConsumer.open_files self !! aid = Some inner ->
    (forall dt, dt ∈ types -> dt ∉ map fst inner) ->
    exists added new,
      FileConsumer.open_files (FileConsumer.open_all self run_id aid types w fs).1.1 =
        <[aid := inner ++ added]> (FileConsumer.open_files self) /\
      FileConsumer.data_dir (FileConsumer.open_all self run_id aid types w fs).1.1 =
        FileConsumer.data_dir self /\
      files (FileConsumer.open_all self run_id aid types w fs).2 = files fs ++ new /\
      can_open (FileConsumer.open_all self run_id aid types w fs).2 = can_open fs /\
      map snd added = seq (length (files fs)) (length new) /\
      Forall2 (opened_for self run_id aid) added new /\
      map fst added `sublist_of` types /\
      ((forall p, can_open fs p = true) -> map fst added = types).
Proof.
  induction types as [|dt types IH]; intros self w fs inner Hnd Hin Hfresh.
  - exists [], []. simpl. rewrite !app_nil_r.
    repeat split; try done. by rewrite insert_id.
  - inversion Hnd as [|? ? Hdt Hnd']; subst.
    cbn [FileConsumer.open_all]. unfold FileConsumer.create_path, utcnow.
    set (path := {| dir_name := _ |}). set (w1 := {| lists := _ |}).
    destruct (can_open fs path) eqn:Hopen.
    + rewrite Hin. cbn [default from_option].
      rewrite handle_set_fresh by (apply handle_of_keys, Hfresh; left).
      set (f := {| name := path; closed := false; written := [] |}).
      set (self1 := FileConsumer.set_open_files _ self).
      set (fs1 := {| files := files fs ++ [f]; can_open := can_open fs |}).
      destruct (IH self1 w1 fs1 (inner ++ [(dt, length (files fs))])) as
        (added & new & H1 & H2 & H3 & H4 & H5 & H6 & H7 & H8); [done| | |].
      { subst self1. simpl. by rewrite lookup_insert_eq. }
      { intros dt' Hdt'. rewrite map_app. simpl. intros [Hi|Hi]%elem_of_app.
        - apply (Hfresh dt'); [by right|done].
        - apply list_elem_of_singleton in Hi. by subst. }
      exists ((dt, length (files fs)) :: added), (f :: new).
      rewrite H1, H2, H3, H4. subst self1 fs1. simpl.
      rewrite insert_insert_eq, <- !app_assoc. simpl.
      repeat split; try done.
      * f_equal. rewrite H5. simpl. by rewrite length_app, Nat.add_1_r.
      * constructor; [by repeat split|].
        eapply Forall2_impl; [exact H6|]. by intros ? ? (? & ? & ? & ? & ?).
      * by apply sublist_skip.
      * intros Hall. by rewrite H8.
    + destruct (IH self w1 fs inner) as
        (added & new & H1 & H2 & H3 & H4 & H5 & H6 & H7 & H8); [done|done| |].
      { intros dt' Hdt'. apply Hfresh. by right. }
      exists added, new. rewrite H1, H2, H3, H4.
      repeat split; try done.
      * by apply sublist_cons.
      * intros Hall. by rewrite Hall in Hopen.
Qed.

Lemma close_inner_seq (added : list (DataTypes * nat)) :
  forall (l done new : list file_obj) (co : file_name -> bool),
    map snd added = seq (length l + length done) (length new) ->
    FileConsumer.close_inner added {| files := l ++ done ++ new; can_open := co |} =
      {| files := l ++ done ++ map closed_copy new; can_open := co |}.
Proof.
  induction added as [|[dt h] added IH]; intros l done new co H.
  - destruct new; [done|discriminate H].
  - destruct new as [|f new]; [discriminate H|]. simpl in H. injection H as -> H.
    unfold FileConsumer.close_inner in *. cbn [fold_left snd].
    unfold FileConsumer.close_handle at 2. cbn [files can_open].
    rewrite app_assoc.
    rewrite (lookup_app_r (l ++ done)) by (rewrite length_app; lia).
    rewrite length_app, Nat.sub_diag. cbn [lookup list_lookup].
    replace (length l + length done)%nat with (length (l ++ done) + 0)%nat
      by (rewrite length_app; lia).
    rewrite insert_app_r. cbn [insert list_insert].
    change {| name := name f; closed := true; written := written f |}
      with (closed_copy f).
    replace ((l ++ done) ++ closed_copy f :: new)
      with (l ++ (done ++ [closed_copy f]) ++ new)
      by (by rewrite <- !app_assoc).
    rewrite IH.
    + by rewrite <- !app_assoc.
    + rewrite H, length_app. simpl. f_equal. lia.
Qed.

Lemma opened_names self run_id aid added new :
  Forall2 (opened_for self run_id aid) added new ->
  map (fun f => name_data_type (name f)) new = map fst added /\
  Forall (fun f => closed f = false /\ written f = []) new.
Proof.
  induction 1 as [|kh f added new (? & ? & ? & ? & Hn) _ [IH1 IH2]]; [done|].
  split; [simpl; by rewrite Hn, IH1|by constructor].
Qed.

(** X12: [start] followed by [stop] for an analyzer that had no record
    leaves the consumer as it was: the record is gone again, the files that
    existed are untouched, and every file [start] opened is closed, with
    nothing written to it.  For distinct expected types, the types of the
    files [start] opens form a subsequence of the expected types, and are
    all of them, in their order, when every file can be opened. *)
Theorem file_start_stop_roundtrip (self : FileConsumer.t) (run_id : option UUID)
    (aid : string) (types : list DataTypes) (w : world) (fs : filesystem) :
  FileConsumer.open_files self !! aid = None -> NoDup types ->
  let s := FileConsumer.start self run_id aid types w fs in
  let e := FileConsumer.stop s.1.1 run_id aid s.2 in
  e.1.1 = Ok tt /\ e.1.2 = self /\
  exists new,
    files s.2 = files fs ++ new /\
    files e.2 = files fs ++ map closed_copy new /\
    Forall (fun f => closed f = false /\ written f = []) new /\
    map (fun f => name_data_type (name f)) new `sublist_of` types /\
    ((forall p, can_open fs p = true) -> map (fun f => name_data_type (name f)) new = types).
Proof.
  intros Hnone Hnd. cbv zeta. unfold FileConsumer.start.
  set (self0 := FileConsumer.set_open_files _ self).
  destruct (open_all_spec run_id aid types self0 w fs [] Hnd) as
    (added & new & H1 & H2 & H3 & H4 & H5 & H6 & H7 & H8).
  { subst self0. simpl. by rewrite lookup_insert_eq. }
  { intros dt _. simpl. apply not_elem_of_nil. }
  destruct (FileConsumer.open_all self0 run_id aid types w fs) as [[self1 w1] fs1].
  simpl in H1, H2, H3, H4. subst self0. simpl in H1, H2.
  rewrite insert_insert_eq in H1.
  unfold FileConsumer.stop, FileConsumer.close_files. cbn [fst snd].
  rewrite H1, lookup_insert_eq. cbn [fst snd].
  rewrite delete_insert_eq, delete_id by done.
  destruct (opened_names _ _ _ _ _ H6) as [Hnames Hopen].
  split; [done|]. split.
  { destruct self1, self. simpl in *. by subst. }
  exists new. split; [done|]. split; [|split; [|split]].
  - destruct fs1 as [fl co]. simpl in H3. subst fl.
    rewrite <- (app_nil_l new) at 1.
    rewrite close_inner_seq; [done|]. simpl. by rewrite Nat.add_0_r.
  - done.
  - by rewrite Hnames.
  - intros Hall. rewrite Hnames. by apply H8.
Qed.

Lemma file_start_stop_roundtrip_witness :
  let fs := {| files := []; can_open := fun _ => true |} in
  let s := FileConsumer.start (FileConsumer.init "data") (Some 5%N) "RateAnalyzer" [RATE]
             example_world fs in
  let e := FileConsumer.stop s.1.1 (Some 5%N) "RateAnalyzer" s.2 in
  e.1.1 = Ok tt /\ e.1.2 = FileConsumer.init "data" /\
  exists new,
    files s.2 = files fs ++ new /\
    files e.2 = files fs ++ map closed_copy new /\
    Forall (fun f => closed f = false /\ written f = []) new /\
    map (fun f => name_data_type (name f)) new `sublist_of` [RATE] /\
    ((forall p, can_open fs p = true) -> map (fun f => name_data_type (name f)) new = [RATE]).
Proof.
  apply (file_start_stop_roundtrip (FileConsumer.init "data") (Some 5%N) "RateAnalyzer"
           [RATE] example_world {| files := []; can_open := fun _ => true |}).
  - reflexivity.
  - repeat constructor. apply not_elem_of_nil.
Defined.

Lemma handle_of_elem (d : list (DataTypes * nat)) (dt : DataTypes) :
  dt ∈ map fst d ->
  exists i h, d !! i = Some (dt, h) /\ FileConsumer.handle_of d dt = Some h.
Proof.
  induction d as [|[k h] d IH]; simpl.
  - by intros ?%elem_of_nil.
  - intros Hi. destruct (decide (k = dt)) as [->|Hne].
    + by exists 0%nat, h.
    + apply elem_of_cons in Hi as [Hi|Hi]; [congruence|].
      destruct (IH Hi) as (i & h' & ? & ?). by exists (S i), h'.
Qed.

Lemma started_record (self : FileConsumer.t) (run_id : option UUID) (aid : string)
    (types : list DataTypes) (w : world) (fs : filesystem) :
  NoDup types ->
  exists added new,
    FileConsumer.open_files (FileConsumer.start self run_id aid types w fs).1.1 !! aid =
      Some added /\
    files (FileConsumer.start self run_id aid types w fs).2 = files fs ++ new /\
    map snd added = seq (length (files fs)) (length new) /\
    Forall2 (opened_for self run_id aid) added new /\
    map fst added `sublist_of` types /\
    ((forall p, can_open fs p = true) -> map fst added = types).
Proof.
  intros Hnd. unfold FileConsumer.start.
  set (self0 := FileConsumer.set_open_files _ self).
  destruct (open_all_spec run_id aid types self0 w fs [] Hnd) as
    (added & new & H1 & H2 & H3 & H4 & H5 & H6 & H7 & H8).
  { subst self0. simpl. by rewrite lookup_insert_eq. }
  { intros dt _. simpl. apply not_elem_of_nil. }
  exists added, new. rewrite H1, H3. simpl. rewrite lookup_insert_eq.
  repeat split; done.
Qed.

Lemma undeclared_handle (added : list (DataTypes * nat)) (types : list DataTypes)
    (dt : DataTypes) :
  map fst added `sublist_of` types -> dt ∉ types ->
  FileConsumer.handle_of added dt = None.
Proof.
  intros Hsub Hdt. apply handle_of_keys. intros Hi. apply Hdt.
  by eapply elem_of_sublist.
Qed.

(** X13: after [start], data is routed by its type.  When RAW is among the
    distinct expected types and the files can be opened, a pushed RAW string
    is appended, as the only line so far, to a file that this [start]
    created for the analyzer, the run and the RAW type, and the other files
    are left as they are.  Data of a type that was not expected is
    dropped: the typed handlers return without writing anything. *)
Theorem file_push_routes_by_type (self : FileConsumer.t) (run_id : option UUID)
    (aid : string) (types : list DataTypes) (w : world) (fs : filesystem) :
  NoDup types -> (forall p, can_open fs p = true) ->
  let st := FileConsumer.start self run_id aid types w fs in
  (RAW ∈ types ->
   exists h f,
     (length (files fs) <= h)%nat /\ files st.2 !! h = Some f /\
     closed f = false /\ written f = [] /\
     dir_name (name f) = (FileConsumer.data_dir self, aid) /\
     name_run_id (name f) = run_id /\ name_data_type (name f) = RAW /\
     forall s r,
       FileConsumer.push st.1.1 (VStr s) RAW r aid st.2 =
         (Ok tt,
          {| files := <[h := {| name := name f; closed := false;
                                written := [RawLine s] |}]> (files st.2);
             can_open := can_open st.2 |})) /\
  (RAW ∉ types ->
   forall data r, FileConsumer.push st.1.1 data RAW r aid st.2 = (Ok tt, st.2)) /\
  (RATE ∉ types ->
   forall rs cs tw qt, FileConsumer.push_rate st.1.1 rs cs tw qt aid st.2 = (Ok tt, st.2)) /\
  (DECAY ∉ types ->
   forall d e, FileConsumer.push_decay st.1.1 d e aid st.2 = (Ok tt, st.2)) /\
  (VELOCITY ∉ types ->
   forall d e, FileConsumer.push_velocity st.1.1 d e aid st.2 = (Ok tt, st.2)) /\
  (PULSE ∉ types ->
   forall d e, FileConsumer.push_pulse st.1.1 d e aid st.2 = (Ok tt, st.2)).
Proof.
  intros Hnd Hall. cbv zeta.
  destruct (started_record self run_id aid types w fs Hnd) as
    (added & new & H1 & H3 & H5 & H6 & H7 & H8).
  split; [|repeat split].
  - intros Hraw. rewrite <- (H8 Hall) in Hraw.
    destruct (handle_of_elem _ _ Hraw) as (i & h & Hi & Hh).
    assert (Hsnd : map snd added !! i = Some h) by (by rewrite list_lookup_fmap, Hi).
    rewrite H5 in Hsnd. apply lookup_seq in Hsnd as [-> Hlt].
    destruct (Forall2_lookup_l _ _ _ _ _ H6 Hi) as (f & Hf & Hc & Hw & Hd & Hr & Ht).
    assert (Hfile : files (FileConsumer.start self run_id aid types w fs).2
                      !! (length (files fs) + i)%nat = Some f).
    { rewrite H3, lookup_app_r by lia.
      by replace (length (files fs) + i - length (files fs))%nat with i by lia. }
    exists (length (files fs) + i)%nat, f.
    repeat split; [lia|done..|].
    intros s r. unfold FileConsumer.push, FileConsumer.push_raw.
    rewrite H1, Hh. unfold FileConsumer.write. by rewrite Hfile, Hc, Hw.
  - intros Hno data r. unfold FileConsumer.push, FileConsumer.push_raw.
    by rewrite H1, (undeclared_handle _ _ _ H7 Hno).
  - intros Hno rs cs tw qt. unfold FileConsumer.push_rate.
    by rewrite H1, (undeclared_handle _ _ _ H7 Hno).
  - intros Hno d e. unfold FileConsumer.push_decay.
    by rewrite H1, (undeclared_handle _ _ _ H7 Hno).
  - intros Hno d e. unfold FileConsumer.push_velocity.
    by rewrite H1, (undeclared_handle _ _ _ H7 Hno).
  - intros Hno d e. unfold FileConsumer.push_pulse.
    by rewrite H1, (undeclared_handle _ _ _ H7 Hno).
Qed.

Lemma file_push_routes_by_type_witness :
  let fs := {| files := []; can_open := fun _ => true |} in
  let st := FileConsumer.start (FileConsumer.init "data") (Some 5%N) "PulseAnalyzer"
              [RAW; PULSE] example_world fs in
  (RAW ∈ [RAW; PULSE] ->
   exists h f,
     (length (files fs) <= h)%nat /\ files st.2 !! h = Some f /\
     closed f = false /\ written f = [] /\
     dir_name (name f) = ("data", "PulseAnalyzer") /\
     name_run_id (name f) = Some 5%N /\ name_data_type (name f) = RAW /\
     forall s r,
       FileConsumer.push st.1.1 (VStr s) RAW r "PulseAnalyzer" st.2 =
         (Ok tt,
          {| files := <[h := {| name := name f; closed := false;
                                written := [RawLine s] |}]> (files st.2);
             can_open := can_open st.2 |})) /\
  (RAW ∉ [RAW; PULSE] ->
   forall data r,
     FileConsumer.push st.1.1 data RAW r "PulseAnalyzer" st.2 = (Ok tt, st.2)) /\
  (RATE ∉ [RAW; PULSE] ->
   forall rs cs tw qt,
     FileConsumer.push_rate st.1.1 rs cs tw qt "PulseAnalyzer" st.2 = (Ok tt, st.2)) /\
  (DECAY ∉ [RAW; PULSE] ->
   forall d e, FileConsumer.push_decay st.1.1 d e "PulseAnalyzer" st.2 = (Ok tt, st.2)) /\
  (VELOCITY ∉ [RAW; PULSE] ->
   forall d e, FileConsumer.push_velocity st.1.1 d e "PulseAnalyzer" st.2 = (Ok tt, st.2)) /\
  (PULSE ∉ [RAW; PULSE] ->
   forall d e, FileConsumer.push_pulse st.1.1 d e "PulseAnalyzer" st.2 = (Ok tt, st.2)).
Proof.
  apply (file_push_routes_by_type (FileConsumer.init "data") (Some 5%N) "PulseAnalyzer"
           [RAW; PULSE] example_world {| files := []; can_open := fun _ => true |}).
  - apply NoDup_cons. split.
    + intros H. apply list_elem_of_singleton in H. discriminate H.
    + apply NoDup_singleton.
  - reflexivity.
Defined.

Section BufferedOrder.
Import BufferedConsumer BufferedInvariant.

Lemma exec_queue_bound (n : Z) (a : action) (s s' : t) :
  _buffer_size s = n -> (0 < n -> Z.of_nat (length (queue s)) <= n) ->
  exec a s = Some s' ->
  _buffer_size s' = n /\ (0 < n -> Z.of_nat (length (queue s')) <= n).
Proof.
  intros Hb Hq. destruct a; simpl.
  - destruct (caller s); try done. intros [= <-]. unfold start. cbn.
    destruct (analyzer_count s =? 0); [|done].
    unfold _init_process_thread. simpl. destruct (process_thread s); [|done|].
    + destruct (_joinable s); simpl; split; (done || lia).
    + destruct (_joinable s); simpl; split; (done || lia).
  - destruct (caller s); try done. by intros [= <-].
  - unfold push, full. rewrite Hb.
    destruct (0 <? n) eqn:Hn; simpl.
    + destruct (Z.leb_spec n (Z.of_nat (length (queue s)))); [done|].
      intros [= <-]. simpl. split; [done|]. rewrite length_app. simpl. lia.
    + intros [= <-]. simpl. split; [done|]. apply Z.ltb_ge in Hn. lia.
  - destruct (caller s); try done. intros [= <-]. unfold stop_call. cbn.
    by destruct (_ =? 0).
  - unfold stop_resume. destruct (caller s) as [| | | |? ? [|? ?]|]; try done.
    + destruct (_ =? _)%nat; [|done]. by intros [= <-].
    + unfold full. rewrite Hb. destruct (0 <? n) eqn:Hn; simpl.
      * destruct (Z.leb_spec n (Z.of_nat (length (queue s)))); [done|].
        intros [= <-]. simpl. split; [done|]. rewrite length_app. simpl. lia.
      * intros [= <-]. simpl. split; [done|]. apply Z.ltb_ge in Hn. lia.
    + destruct (process_thread s); [|done|]; by intros [= <-].
    + by intros [= <-].
    + by intros [= <-].
  - unfold work. destruct (process_thread s); try done.
    destruct (worker s) as [|[[[d dt] r] a] [|c rest]].
    + destruct (cancel s); [by intros [= <-]|].
      destruct (queue s) as [|[x|] q] eqn:Hqs; [done| |];
        intros [= <-]; simpl; (split; [done|]); simpl in Hq; lia.
    + destruct (unfinished_tasks s); by intros [= <-].
    + by intros [= <-].
Qed.

Lemma reachable_queue_bound (n : Z) (cs : list objref) (s : t) :
  reachable n cs s ->
  _buffer_size s = n /\ (0 < n -> Z.of_nat (length (queue s)) <= n).
Proof.
  induction 1 as [|s a s' _ [IH1 IH2] Hexec]; [by split; [|simpl; lia]|].
  by apply (exec_queue_bound n a s s').
Qed.

Lemma NoDup_app_l_part {A} (l1 l2 : list A) : NoDup (l1 ++ l2) -> NoDup l1.
Proof. by intros (? & _ & _)%NoDup_app. Qed.

(** X14: in every state a buffered consumer can reach, each of its
    (distinct) wrapped consumers has received, since the current queue was
    created, a prefix of the items put on that queue, in the order in which
    they were put: nothing is duplicated, reordered or made up.  With a
    positive buffer size the queue never holds more than that many
    entries. *)
Theorem buffered_keeps_order (n : Z) (cs : list objref) (s : t) (c : objref) :
  reachable n cs s -> NoDup cs -> c ∈ cs ->
  received c s `prefix_of` items (puts s) /\
  (0 < n -> Z.of_nat (length (queue s)) <= n).
Proof.
  intros Hr Hnd Hc. split; [|by apply (reachable_queue_bound n cs s)].
  destruct (reachable_inv n cs s Hr) as [_ _ _ Hf _ _ _ Hfw _].
  unfold received. rewrite Hf, items_app. unfold forwarded_ok in Hfw.
  destruct (worker s) as [|it rest].
  - rewrite Hfw, received_deliver by done. by apply prefix_app_r.
  - destruct Hfw as (g & served & Hg & Hcs & ->).
    rewrite Hg, items_app, filter_app, map_app, received_deliver by done.
    simpl. rewrite <- app_assoc. apply prefix_app, prefix_app_r.
    destruct (decide (c ∈ served)) as [Hin|Hout].
    + rewrite filter_deliver; [done| |done]. subst cs. by eapply NoDup_app_l_part.
    + rewrite filter_deliver_other by done. apply prefix_nil.
Qed.

Lemma buffered_keeps_order_witness :
  received 1%nat example_stopping `prefix_of` items (puts example_stopping) /\
  (0 < 1 -> Z.of_nat (length (queue example_stopping)) <= 1).
Proof.
  apply (buffered_keeps_order 1 [0; 1]%nat example_stopping 1%nat).
  - apply (run_reachable 1 [0; 1]%nat (example_launch :: example_before_stop)
             (init 1 [0; 1]%nat)); [apply reachable_init|].
    vm_compute. reflexivity.
  - apply NoDup_cons. split; [|apply NoDup_singleton].
    intros H. apply list_elem_of_singleton in H. discriminate H.
  - apply elem_of_cons. right. apply elem_of_cons. by left.
Defined.

Lemma forward_stop_runs (r : option UUID) (a : string) (l : list objref) :
  forall s,
    caller s = ForwardStop r a l ->
    run (repeat Resume (S (length l))) s =
      Some (set_caller Idle (set_log (log s ++ map (fun c => (c, CallStop r a)) l) s)).
Proof.
  induction l as [|c rest IH]; intros s Hcl.
  - simpl. unfold stop_resume. rewrite Hcl. simpl. rewrite app_nil_r.
    by destruct s.
  - change (repeat Resume (S (length (c :: rest))))
      with (Resume :: repeat Resume (S (length rest))).
    cbn [run exec]. unfold stop_resume at 1. rewrite Hcl.
    rewrite IH by done. simpl. by rewrite <- app_assoc.
Qed.

(** X15: a [stop] that does not bring the count of analyzers to zero (the
    count before it is not one) does not wait for the queue: it calls
    [stop] on every wrapped consumer at once, in their order, and returns,
    leaving the queue, the worker and everything else but the count as
    they were.  An item that is still in the queue is therefore pushed to
    the consumers after their [stop]. *)
Theorem early_stop_does_not_wait (s : t) (r : option UUID) (a : string) :
  caller s = Idle -> analyzer_count s <> 1 ->
  let stops := map (fun c => (c, CallStop r a)) (consumers s) in
  let s' := set_caller Idle
              (set_log (log s ++ stops)
                 (set_analyzer_count (analyzer_count s - 1) s)) in
  run (Stop r a :: repeat Resume (S (length (consumers s)))) s = Some s' /\
  forall d dt r' a' q c cs,
    process_thread s = Running -> worker s = LoopHead -> cancel s = false ->
    queue s = Some (d, dt, r', a') :: q -> consumers s = c :: cs ->
    exists s'',
      run [Work; Work] s' = Some s'' /\
      log s'' = log s ++ stops ++ [(c, CallPush d dt r' a')].
Proof.
  intros Hcl Hac. cbv zeta. split.
  - cbn [run exec]. rewrite Hcl. unfold stop_call. cbn [analyzer_count set_analyzer_count].
    destruct (Z.eqb_spec (analyzer_count s - 1) 0) as [H0|_]; [lia|].
    rewrite forward_stop_runs with (r := r) (a := a) (l := consumers s) by done.
    by destruct s.
  - intros d dt r' a' q c cs Hpt Hw Hcan Hq Hcs.
    eexists. split.
    + cbn [run exec]. unfold work at 1. simpl. rewrite Hpt, Hw, Hcan, Hq, Hcs.
      unfold work. simpl. rewrite Hpt. reflexivity.
    + simpl. by rewrite <- app_assoc, Hcs.
Qed.

Lemma early_stop_does_not_wait_witness :
  let s := start (Some 8%N) "PulseAnalyzer" [PULSE] example_stopping in
  let stops := map (fun c => (c, CallStop (Some 7%N) "DummyAnalyzer")) (consumers s) in
  let s' := set_caller Idle
              (set_log (log s ++ stops)
                 (set_analyzer_count (analyzer_count s - 1) s)) in
  run (Stop (Some 7%N) "DummyAnalyzer" :: repeat Resume (S (length (consumers s)))) s =
    Some s' /\
  forall d dt r' a' q c cs,
    process_thread s = Running -> worker s = LoopHead -> cancel s = false ->
    queue s = Some (d, dt, r', a') :: q -> consumers s = c :: cs ->
    exists s'',
      run [Work; Work] s' = Some s'' /\
      log s'' = log s ++ stops ++ [(c, CallPush d dt r' a')].
Proof.
  apply (early_stop_does_not_wait
           (start (Some 8%N) "PulseAnalyzer" [PULSE] example_stopping)
           (Some 7%N) "DummyAnalyzer").
  - reflexivity.
  - vm_compute. discriminate.
Defined.

End BufferedOrder.

Lemma split_on_go_piece (sep : ascii) (a b : list ascii) :
  forall cur,
    forallb (fun x => negb (Ascii.eqb x sep)) a = true ->
    split_on_go sep (a ++ sep :: b) cur = str (rev cur ++ a) :: split_on_go sep b [].
Proof.
  induction a as [|c a IH]; intros cur Ha; simpl.
  - by rewrite Ascii.eqb_refl, app_nil_r.
  - simpl in Ha. apply andb_true_iff in Ha as [Hc Ha].
    apply negb_true_iff in Hc. rewrite Hc, IH by done. simpl.
    by rewrite <- app_assoc.
Qed.

Lemma split_on_go_last (sep : ascii) (a : list ascii) :
  forall cur,
    forallb (fun x => negb (Ascii.eqb x sep)) a = true ->
    split_on_go sep a cur = [str (rev cur ++ a)].
Proof.
  induction a as [|c a IH]; intros cur Ha; simpl.
  - by rewrite app_nil_r.
  - simpl in Ha. apply andb_true_iff in Ha as [Hc Ha].
    apply negb_true_iff in Hc. rewrite Hc, IH by done. simpl.
    by rewrite <- app_assoc.
Qed.

Lemma lacks_append (c : ascii) (s t : string) :
  lacks c (s +:+ t) = lacks c s && lacks c t.
Proof. unfold lacks. by rewrite chars_app, forallb_app. Qed.







Lemma int_of_str_raises (base : Z) (t : string) (e : exn) :
  int_of_str base t = Raise e -> e = ValueError.
Proof.
  unfold int_of_str. repeat case_match; congruence.
Qed.

Lemma set_int_frame key text base rest settings (k : string) :
  k <> key ->
  (forall s, (rest s).2 !! k = s !! k) ->
  (App.set_int key text base rest settings).2 !! k = settings !! k.
Proof.
  intros Hk Hrest. unfold App.set_int.
  destruct (rbind text (int_of_str base)); [|done].
  rewrite Hrest. unfold App.update_setting. by rewrite lookup_insert_ne.
Qed.

Lemma set_int_result key text base rest settings :
  (forall s, (rest s).1 <> Ok true) ->
  (App.set_int key text base rest settings).1 <> Ok true.
Proof.
  intros Hrest. unfold App.set_int.
  destruct (rbind text (int_of_str base)); [apply Hrest|done].
Qed.

(** X17: whatever the line, [get_thresholds_from_msg] writes no setting
    other than the four thresholds; it returns [True] exactly for the lines
    it does not take (those not starting with [TL] or of nine characters or
    fewer), which leave the settings as they are; and a line it takes that
    has fewer than four [=] raises [IndexError] or [ValueError] instead of
    returning. *)
Theorem thresholds_scanner_frame (msg : string) (settings : gmap string pyval) :
  let r := App.get_thresholds_from_msg msg settings in
  (forall k, k ∉ threshold_keys -> r.2 !! k = settings !! k) /\
  (r.1 = Ok true <-> startswith msg "TL" && (9 <? len msg) = false) /\
  (r.1 = Ok true -> r.2 = settings) /\
  (startswith msg "TL" && (9 <? len msg) = true ->
   (length (split_on "=" msg) < 5)%nat ->
   r.1 = Raise IndexError \/ r.1 = Raise ValueError).
Proof.
  cbv zeta. unfold App.get_thresholds_from_msg.
  destruct (startswith msg "TL" && (9 <? len msg)) eqn:Hg.
  - split; [|split; [|split]].
    + intros k Hk. unfold threshold_keys in Hk.
      repeat (apply not_elem_of_cons in Hk as [? Hk]).
      repeat (apply set_int_frame; [done|intros ?]). done.
    + split; [|done]. intros H. exfalso. revert H.
      repeat (apply set_int_result; intros ?). done.
    + intros H. exfalso. revert H.
      repeat (apply set_int_result; intros ?). done.
    + intros _ Hlen. unfold App.set_int, index.
      destruct (split_on "=" msg) as [|p0 [|p1 [|p2 [|p3 [|p4 l]]]]];
        [..|simpl in Hlen; lia]; cbn [lookup list_lookup rmap rbind];
        repeat (match goal with
                | |- context [int_of_str ?b ?t] =>
                    let H := fresh in
                    destruct (int_of_str b t) as [?|?] eqn:H;
                    [|apply int_of_str_raises in H as ->; by right]
                end; cbn [rbind]);
        by left.
  - repeat split; done.
Qed.


Lemma split_on_channel_line (c0 c1 c2 c3 : string) :
  lacks " " c0 = true -> lacks " " c1 = true ->
  lacks " " c2 = true -> lacks " " c3 = true ->
  split_on " " (channel_line c0 c1 c2 c3) =
    ["DC"; "C0=" +:+ c0; "C1=" +:+ c1; "C2=" +:+ c2; "C3=" +:+ c3].
Proof.
  intros H0 H1 H2 H3. unfold split_on, channel_line.
  change ("DC C0=" +:+ ?x) with ("DC" +:+ " " +:+ "C0=" +:+ x).
  change (" C1=" +:+ ?x) with (" " +:+ "C1=" +:+ x).
  change (" C2=" +:+ ?x) with (" " +:+ "C2=" +:+ x).
  change (" C3=" +:+ ?x) with (" " +:+ "C3=" +:+ x).
  rewrite (chars_app "DC").
  change (chars (" " +:+ ?x)) with (" "%char :: chars x).
  rewrite split_on_go_piece by done.
  rewrite (chars_app "C0="), (chars_app c0), (app_assoc (chars "C0=")).
  change (chars (" " +:+ ?x)) with (" "%char :: chars x).
  rewrite split_on_go_piece;
    [|rewrite <- chars_app; fold (lacks " " ("C0=" +:+ c0));
      rewrite lacks_append, H0; reflexivity].
  rewrite (chars_app "C1="), (chars_app c1), (app_assoc (chars "C1=")).
  change (chars (" " +:+ ?x)) with (" "%char :: chars x).
  rewrite split_on_go_piece;
    [|rewrite <- chars_app; fold (lacks " " ("C1=" +:+ c1));
      rewrite lacks_append, H1; reflexivity].
  rewrite (chars_app "C2="), (chars_app c2), (app_assoc (chars "C2=")).
  change (chars (" " +:+ ?x)) with (" "%char :: chars x).
  rewrite split_on_go_piece;
    [|rewrite <- chars_app; fold (lacks " " ("C2=" +:+ c2));
      rewrite lacks_append, H2; reflexivity].
  rewrite split_on_go_last;
    [|fold (lacks " " ("C3=" +:+ c3)); rewrite lacks_append, H3; reflexivity].
  cbn [rev app]. by rewrite <- !chars_app, !str_chars.
Qed.

Lemma split_on_field (l c : string) :
  lacks "=" l = true -> lacks "=" c = true ->
  split_on "=" (l +:+ "=" +:+ c) = [l; c].
Proof.
  intros Hl Hc. unfold split_on. rewrite chars_app.
  change (chars ("=" +:+ c)) with ("="%char :: chars c).
  rewrite split_on_go_piece, split_on_go_last by done.
  cbn [rev app]. by rewrite !str_chars.
Qed.













(** ** The app, continued *)

Lemma analyzer_stop_inactive (a : analyzer) (w : world) :
  consistent a ->
  Analyzer.active (Analyzer.stop a w).1.2 = false /\
  consistent (Analyzer.stop a w).1.2.
Proof.
  unfold consistent, Analyzer.active, Analyzer.disabled. intros Hc.
  destruct (stop_super a w) as [-> _]. unfold BaseAnalyzer.stop.
  destruct (Analyzer.base a) as [nm tys dq act dis lr ld cs cr]; simpl in *.
  destruct act, dis; simpl in *; done.
Qed.

Lemma stop_all_spec (refs : list objref) :
  forall (st st' : App.state) (res : result unit),
    (forall r a, App.objects st !! r = Some (App.AnalyzerObj a) -> consistent a) ->
    App.stop_all refs st = (res, st') ->
    App.app st' = App.app st /\
    (forall r a, App.objects st' !! r = Some (App.AnalyzerObj a) -> consistent a) /\
    (forall r a, App.objects st !! r = Some (App.AnalyzerObj a) ->
       exists a', App.objects st' !! r = Some (App.AnalyzerObj a') /\
                  (Analyzer.active a = false -> Analyzer.active a' = false)) /\
    (res = Ok tt ->
     forall r a, r ∈ refs -> App.objects st !! r = Some (App.AnalyzerObj a) ->
       exists a', App.objects st' !! r = Some (App.AnalyzerObj a') /\
                  Analyzer.active a' = false).
Proof.
  induction refs as [|r refs IH]; intros st st' res Hcons Hstop; simpl in Hstop.
  - injection Hstop as <- <-. repeat split; [done| |].
    + intros r a Hr. by exists a.
    + intros _ r a Hin. by apply elem_of_nil in Hin.
  - assert (Hskip : App.stop_all refs st = (res, st') ->
              App.app st' = App.app st /\
              (forall r a, App.objects st' !! r = Some (App.AnalyzerObj a) -> consistent a) /\
              (forall r a, App.objects st !! r = Some (App.AnalyzerObj a) ->
                 exists a', App.objects st' !! r = Some (App.AnalyzerObj a') /\
                            (Analyzer.active a = false -> Analyzer.active a' = false)) /\
              (res = Ok tt ->
               forall r0 a, r0 ∈ refs -> App.objects st !! r0 = Some (App.AnalyzerObj a) ->
                 exists a', App.objects st' !! r0 = Some (App.AnalyzerObj a') /\
                            Analyzer.active a' = false)).
    { intros H. by apply IH. }
    destruct (App.objects st !! r) as [x|] eqn:Hx.
    2:{ destruct (Hskip Hstop) as (H1 & H2 & H3 & H4). repeat split; try done.
        intros Hres r0 a [->|Hin]%elem_of_cons Hr0; [congruence|by eapply H4]. }
    destruct x as [| | e|a].
    1-3: destruct (Hskip Hstop) as (H1 & H2 & H3 & H4); repeat split; try done;
         intros Hres r0 a0 [->|Hin]%elem_of_cons Hr0; [congruence|by eapply H4].
    clear Hskip.
    destruct (analyzer_stop_inactive a (App.w st) (Hcons r a Hx)) as [Hoff Hc1].
    destruct (Analyzer.stop a (App.w st)) as [[res1 a1] w1] eqn:Hs. simpl in Hoff, Hc1.
    set (st1 := App.with_w w1
                  (App.with_objects (<[r := App.AnalyzerObj a1]> (App.objects st)) st)) in *.
    assert (Hlt : (r < length (App.objects st))%nat) by (by eapply lookup_lt_Some).
    assert (Hcons1 : forall r0 a0, App.objects st1 !! r0 = Some (App.AnalyzerObj a0) ->
                                   consistent a0).
    { intros r0 a0. subst st1. simpl. destruct (decide (r = r0)) as [<-|Hne].
      - rewrite list_lookup_insert_eq by done. by intros [= <-].
      - rewrite list_lookup_insert_ne by done. apply Hcons. }
    assert (Hkeep : forall r0 a0, App.objects st !! r0 = Some (App.AnalyzerObj a0) ->
              exists a', App.objects st1 !! r0 = Some (App.AnalyzerObj a') /\
                         (Analyzer.active a0 = false -> Analyzer.active a' = false)).
    { intros r0 a0 Hr0. subst st1. simpl. destruct (decide (r = r0)) as [<-|Hne].
      - exists a1. by rewrite list_lookup_insert_eq.
      - exists a0. by rewrite list_lookup_insert_ne. }
    destruct res1 as [[]|e].
    + destruct (IH st1 st' res Hcons1 Hstop) as (H1 & H2 & H3 & H4).
      split; [done|]. split; [done|]. split.
      * intros r0 a0 Hr0. destruct (Hkeep r0 a0 Hr0) as (a' & Ha' & Hoff').
        destruct (H3 r0 a' Ha') as (a'' & Ha'' & Hoff''). exists a''. auto.
      * intros Hres r0 a0 Hin Hr0. apply elem_of_cons in Hin as [->|Hin].
        -- assert (a0 = a) as -> by congruence.
           assert (Hr1 : App.objects st1 !! r = Some (App.AnalyzerObj a1))
             by (subst st1; simpl; by rewrite list_lookup_insert_eq).
           destruct (H3 r a1 Hr1) as (a'' & Ha'' & Hoff''). exists a''. auto.
        -- destruct (decide (r = r0)) as [<-|Hne].
           ++ assert (Hr1 : App.objects st1 !! r = Some (App.AnalyzerObj a1))
                by (subst st1; simpl; by rewrite list_lookup_insert_eq).
              destruct (H3 r a1 Hr1) as (a'' & Ha'' & Hoff''). exists a''. auto.
           ++ apply (H4 Hres r0 a0 Hin). subst st1. simpl.
              by rewrite list_lookup_insert_ne.
    + injection Hstop as <- <-. split; [done|]. split; [done|]. split; [done|].
      intros [=].
Qed.

(** X19: [App.stop] runs once: whether it returns or an analyzer's [stop]
    raises, the app is not running afterwards and a further [stop] does
    nothing.  When it returns on a running app whose analyzers are not
    active and disabled at once, every analyzer of the chain has been
    stopped and is inactive, and no other attribute of the app has
    changed. *)
Theorem app_stop_deactivates (st st' : App.state) (res : result unit) :
  (forall r a, App.objects st !! r = Some (App.AnalyzerObj a) -> consistent a) ->
  App.stop st = (res, st') ->
  App.running (App.app st') = false /\
  App.stop st' = (Ok tt, st') /\
  App.app st' = App.set_running false (App.app st) /\
  (App.running (App.app st) = true -> res = Ok tt ->
   forall r a,
     r ∈ deref (App.w st) (App.analyzers (App.app st)) ->
     App.objects st !! r = Some (App.AnalyzerObj a) ->
     exists a', App.objects st' !! r = Some (App.AnalyzerObj a') /\
                Analyzer.active a' = false).
Proof.
  intros Hcons. unfold App.stop.
  destruct (App.running (App.app st)) eqn:Hrun.
  - intros Hstop.
    destruct (stop_all_spec _ (App.with_app (App.set_running false (App.app st)) st)
                _ _ Hcons Hstop) as (H1 & H2 & H3 & H4).
    simpl in H1, H3, H4.
    split; [by rewrite H1|]. split; [by rewrite H1|]. split; [done|].
    intros _ Hres r a Hin Hr. by apply (H4 Hres r a).
  - intros [= <- <-]. rewrite Hrun. repeat split; try done.
    destruct (App.app st); simpl in *; by subst.
Qed.

Lemma app_stop_deactivates_witness :
  let st' := (App.stop example_app).2 in
  App.running (App.app st') = false /\
  App.stop st' = (Ok tt, st') /\
  App.app st' = App.set_running false (App.app example_app) /\
  (App.running (App.app example_app) = true -> (App.stop example_app).1 = Ok tt ->
   forall r a,
     r ∈ deref (App.w example_app) (App.analyzers (App.app example_app)) ->
     App.objects example_app !! r = Some (App.AnalyzerObj a) ->
     exists a', App.objects st' !! r = Some (App.AnalyzerObj a') /\
                Analyzer.active a' = false).
Proof.
  apply (app_stop_deactivates example_app (App.stop example_app).2
           (App.stop example_app).1).
  - intros r a. destruct r as [|[|[|[|r]]]]; simpl; try discriminate.
    intros H. injection H as <-. vm_compute. reflexivity.
  - apply surjective_pairing.
Defined.

(** ** The velocity analyzer *)


(** ** The decay analyzer, continued *)

Lemma parse_channel_line (c0 c1 c2 c3 : string) :
  lacks " " c0 = true -> lacks " " c1 = true ->
  lacks " " c2 = true -> lacks " " c3 = true ->
  lacks "=" c2 = true -> lacks "=" c3 = true ->
  DecayAnalyzer.parse_coincidence_times (channel_line c0 c1 c2 c3) = Ok (c3, c2).
Proof.
  intros H0 H1 H2 H3 E2 E3. unfold DecayAnalyzer.parse_coincidence_times.
  rewrite split_on_channel_line by done.
  unfold index. cbn [lookup list_lookup rbind].
  change ("C3=" +:+ c3) with ("C3" +:+ "=" +:+ c3).
  change ("C2=" +:+ c2) with ("C2" +:+ "=" +:+ c2).
  rewrite !split_on_field by done. reflexivity.
Qed.

(** X21: a line that starts with [DC] and is longer than two characters is
    taken by the decay analyzer as a configuration acknowledgment and
    nothing else: [calculate] returns [True] without raising, publishes
    nothing, ignores the pulses, and changes at most the two remembered
    coincidence times.  For [DC C0=c0 C1=c1 C2=c2 C3=c3] it remembers [c3]
    and [c2]; a line with fewer than five blank-separated fields is
    swallowed and leaves the analyzer as it was. *)
Theorem decay_reads_configuration (self : DecayAnalyzer.t) (w : world) :
  (forall msg,
     startswith (raw msg) "DC" && (2 <? len (raw msg)) = true ->
     DecayAnalyzer.calculate self msg w = (Ok true, self, w) \/
     exists t_03 t_02,
       DecayAnalyzer.calculate self msg w =
         (Ok true, DecayAnalyzer.set_previous_coincidence_times t_03 t_02 self, w)) /\
  (forall c0 c1 c2 c3 p,
     lacks " " c0 = true -> lacks " " c1 = true ->
     lacks " " c2 = true -> lacks " " c3 = true ->
     lacks "=" c2 = true -> lacks "=" c3 = true ->
     DecayAnalyzer.calculate self {| raw := channel_line c0 c1 c2 c3; pulses := p |} w =
       (Ok true, DecayAnalyzer.set_previous_coincidence_times c3 c2 self, w)) /\
  (forall msg,
     startswith (raw msg) "DC" && (2 <? len (raw msg)) = true ->
     (length (split_on " " (raw msg)) < 5)%nat ->
     DecayAnalyzer.calculate self msg w = (Ok true, self, w)).
Proof.
  split; [|split].
  - intros msg Hg. unfold DecayAnalyzer.calculate. cbv zeta. rewrite Hg.
    destruct (DecayAnalyzer.parse_coincidence_times _) as [[t3 t2]|e]; [right|left; done].
    by exists t3, t2.
  - intros c0 c1 c2 c3 p H0 H1 H2 H3 E2 E3. unfold DecayAnalyzer.calculate.
    cbv zeta. cbn [raw]. rewrite parse_channel_line by done.
    assert (Hg : startswith (channel_line c0 c1 c2 c3) "DC" = true) by done.
    assert (Hl : (2 <? len (channel_line c0 c1 c2 c3)) = true).
    { apply Z.ltb_lt. unfold len, channel_line. rewrite !length_append. simpl. lia. }
    by rewrite Hg, Hl.
  - intros msg Hg Hlen. unfold DecayAnalyzer.calculate. cbv zeta. rewrite Hg.
    unfold DecayAnalyzer.parse_coincidence_times, index.
    destruct (split_on " " (raw msg)) as [|p0 [|p1 [|p2 [|p3 [|p4 l]]]]];
      [done..|simpl in Hlen; lia].
Qed.

(** ** The file consumer, continued *)




(** ** The app: its chain *)

(** X23: [__init__] of the app builds its chain in a list object of its
    own: the chain holds the two scanners and the extractor followed by the
    analyzers of the list it was given (or of the default list), that list
    and every other list keep their elements, and an analyzer added to the
    app later is appended to the chain only. *)
Theorem init_chain_is_fresh (default_analyzers : loc) (analyzers : option loc)
    (extractor : App.PulseExtractor) (w : world) (objects : list App.callable) :
  let src := default default_analyzers analyzers in
  let n := length objects in
  let r := App.init_chain default_analyzers analyzers extractor w objects in
  (src < length (lists w))%nat ->
  lists w !! r.1.1 = None /\
  deref r.1.2 r.1.1 = [n; S n; S (S n)] ++ deref w src /\
  (forall l, l <> r.1.1 -> lists r.1.2 !! l = lists w !! l) /\
  r.2 = objects ++ [App.GetThresholdsFromMsg; App.GetChannelsFromMsg;
                    App.Extractor extractor] /\
  (forall x,
     deref (list_append r.1.1 x r.1.2) r.1.1 = deref r.1.2 r.1.1 ++ [x] /\
     forall l, l <> r.1.1 -> lists (list_append r.1.1 x r.1.2) !! l = lists w !! l).
Proof.
  cbv zeta. intros Hsrc. unfold App.init_chain, alloc, App.add_analyzers. cbn [fst snd].
  set (src := default default_analyzers analyzers) in *.
  set (n := length objects). set (l := length (lists w)).
  assert (Hl : forall xs : list objref, (lists w ++ [xs]) !! l = Some xs)
    by (intros; by rewrite lookup_app_r, Nat.sub_diag).
  assert (Hs : forall xs : list objref, (lists w ++ [xs]) !! src = lists w !! src)
    by (intros; by rewrite lookup_app_l).
  assert (Hlen : forall xs : list objref, (l < length (lists w ++ [xs]))%nat)
    by (intros; rewrite length_app; simpl; lia).
  assert (Hother : forall (xs : list objref) l0, l0 <> l ->
            (lists w ++ [xs]) !! l0 = lists w !! l0).
  { intros xs l0 Hl0. destruct (decide (l0 < l)%nat).
    - by rewrite lookup_app_l.
    - rewrite !lookup_ge_None_2; [done|lia|rewrite length_app; simpl; lia]. }
  unfold list_append, deref. simpl. rewrite !Hl, !Hs. simpl.
  split; [by apply lookup_ge_None_2|]. split.
  { by rewrite list_lookup_insert_eq. }
  split.
  { intros l0 Hl0. rewrite list_lookup_insert_ne by done. by apply Hother. }
  split; [done|].
  intros x. rewrite !list_lookup_insert_eq by (by rewrite ?length_insert).
  split; [done|].
  intros l0 Hl0. rewrite !list_lookup_insert_ne by done. by apply Hother.
Qed.

Lemma init_chain_is_fresh_witness :
  let e := {| App.extractor_state := VNone;
              App.extractor_call := fun s msg => (Ok true, msg, s) |} in
  let r := App.init_chain 0%nat None e example_world [] in
  lists example_world !! r.1.1 = None /\
  deref r.1.2 r.1.1 = [0; 1; 2]%nat ++ deref example_world 0%nat /\
  (forall l, l <> r.1.1 -> lists r.1.2 !! l = lists example_world !! l) /\
  r.2 = [] ++ [App.GetThresholdsFromMsg; App.GetChannelsFromMsg; App.Extractor e] /\
  (forall x,
     deref (list_append r.1.1 x r.1.2) r.1.1 = deref r.1.2 r.1.1 ++ [x] /\
     forall l, l <> r.1.1 -> lists (list_append r.1.1 x r.1.2) !! l = lists example_world !! l).
Proof.
  apply (init_chain_is_fresh 0%nat None
           {| App.extractor_state := VNone;
              App.extractor_call := fun s msg => (Ok true, msg, s) |} example_world []).
  simpl. lia.
Defined.
